(** * Frogwatch+ : recording lifecycle, role resolution, geocode cache, filters

    A shallow embedding of the client logic of the Frogwatch+ app
    (login.tsx, usersScreen.tsx, predictionScreen.tsx, historyScreen.tsx,
    mapHistoryScreen.tsx, context/DataContext.tsx) and the properties of
    its specification that can be settled on it.

    Conventions of the embedding.
    - A JavaScript number is an exact rational ([Q]); NaN is [None] where a
      value can be NaN.  One operation of the code is its exact value here;
      doubles round it, so no property below states that a product undoes
      a quotient, or decides a tie of [Math.round], except on whole
      percentages where doubles agree.
    - A string is a Rocq [string] holding the UTF-8 bytes of the text.
      [toLowerCase] folds the ASCII letters only: that is the result of
      [String.prototype.toLowerCase] on ASCII text, and decides the same
      way whether the result is one of the words admin, expert or a file
      suffix; properties of searched or typed text assume ASCII text.
    - A Firestore document is a finite map from field names to [jsval];
      nested objects are association lists in field order.
    - Calls that leave the component (alerts, file system, network, store)
      are recorded in a trace of [Effect]s; what the outside world answers
      is an explicit environment record given to the handler. *)

From Stdlib Require Import ZArith QArith Qround Qabs Qminmax Lqa String Ascii List Bool Lia.
From Stdlib Require Import Sorted Permutation.
From stdpp Require Import gmap strings list pretty.

Local Open Scope string_scope.
Local Open Scope Z_scope.

(* ===================================================================== *)
(** ** JavaScript values and built-ins used by the screens               *)
(* ===================================================================== *)

Module Js.

(** Values that occur in a Firestore document or a JSON body. *)
#[warnings="-register-all"] Inductive jsval : Type :=
| JNull
| JBool (b : bool)
| JNum (q : Q)
| JStr (s : string)
| JTimestamp (ms : Z)                 (* firestore Timestamp, has toDate() *)
| JServerTimestamp                    (* the serverTimestamp() sentinel   *)
| JArr (items : list jsval)
| JObj (fields : list (string * jsval)).

(** [obj.k] on a nested object: the last binding of a key wins in an
    object literal; the literals of this program never repeat a key. *)
Fixpoint assoc (k : string) (fields : list (string * jsval)) : option jsval :=
  match fields with
  | [] => None
  | (k', v) :: rest => if String.eqb k k' then Some v else assoc k rest
  end.

(** [v?.k] : undefined ([None]) on anything that is not an object. *)
Definition getField (k : string) (v : option jsval) : option jsval :=
  match v with
  | Some (JObj fields) => assoc k fields
  | _ => None
  end.

(** [a ?? b] : b only when a is null or undefined. *)
Definition nullish (a : option jsval) (b : jsval) : jsval :=
  match a with
  | None | Some JNull => b
  | Some v => v
  end.

(** ToBoolean. *)
Definition truthy (v : option jsval) : bool :=
  match v with
  | None | Some JNull => false
  | Some (JBool b) => b
  | Some (JNum q) => negb (Qeq_bool q 0)
  | Some (JStr s) => negb (String.eqb s "")
  | Some _ => true
  end.

(** [a || b]. *)
Definition orElse (a : option jsval) (b : option jsval) : option jsval :=
  if truthy a then a else b.

(** [String.prototype.toLowerCase] on ASCII text: the letters A to Z are
    folded, every other byte is kept. *)
Definition lower_ascii (c : ascii) : ascii :=
  let n := nat_of_ascii c in
  if ((65 <=? n)%nat && (n <=? 90)%nat)%bool then ascii_of_nat (n + 32) else c.

Fixpoint toLowerCase (s : string) : string :=
  match s with
  | EmptyString => EmptyString
  | String c rest => String (lower_ascii c) (toLowerCase rest)
  end.

(** [Math.round] : nearest integer, halves towards plus infinity. *)
Definition Math_round (q : Q) : Z := Qfloor (q + (1 # 2)).

(** White space skipped by parseInt and parseFloat (ASCII part). *)
Definition isSpace (c : ascii) : bool :=
  let n := nat_of_ascii c in
  ((n =? 32) || ((9 <=? n) && (n <=? 13)))%nat.

Fixpoint skipSpaces (s : string) : string :=
  match s with
  | String c rest => if isSpace c then skipSpaces rest else s
  | EmptyString => EmptyString
  end.

Definition digitOf (c : ascii) : option Z :=
  let n := nat_of_ascii c in
  if ((48 <=? n) && (n <=? 57))%nat then Some (Z.of_nat n - 48) else None.

(** The longest prefix of decimal digits: its value, how many digits it
    has, and the rest of the string. *)
Fixpoint digits (acc : Z) (count : nat) (s : string) : Z * nat * string :=
  match s with
  | String c rest =>
      match digitOf c with
      | Some d => digits (10 * acc + d) (S count) rest
      | None => (acc, count, s)
      end
  | EmptyString => (acc, count, s)
  end.

(** An optional sign: [true] for a minus. *)
Definition sign (s : string) : bool * string :=
  match s with
  | String "-" rest => (true, rest)
  | String "+" rest => (false, rest)
  | _ => (false, s)
  end.

(** [parseInt(s, 10)] : [None] is NaN. *)
Definition parseInt (s : string) : option Z :=
  let '(neg, body) := sign (skipSpaces s) in
  let '(v, count, _) := digits 0 0 body in
  match count with
  | O => None
  | _ => Some (if neg then - v else v)
  end.

(** Results of parseFloat. *)
Inductive number : Type :=
| NaN
| Infinite (negative : bool)
| Finite (q : Q).



Definition startsWith (p s : string) : bool := String.prefix p s.


(** [String.prototype.trim] (ASCII white space). *)
Fixpoint revString (acc s : string) : string :=
  match s with
  | EmptyString => acc
  | String c rest => revString (String c acc) rest
  end.

Definition trim (s : string) : string :=
  revString "" (skipSpaces (revString "" (skipSpaces s))).

(** [s.endsWith(suffix)]. *)
Definition endsWith (suffix s : string) : bool :=
  String.prefix (revString "" suffix) (revString "" s).

(** [/^https?:\/\//i.test(s)]. *)
Definition isHttpPrefix (s : string) : bool :=
  let l := toLowerCase s in
  (startsWith "http://" l || startsWith "https://" l)%bool.

(** Three decimals, zero padded. *)
Definition pad3 (n : Z) : string :=
  let d := pretty n in
  match String.length d with
  | 1%nat => "00" ++ d
  | 2%nat => "0" ++ d
  | _ => d
  end.

(** [x.toFixed(3)] for a finite x below 1e21: the sign, then the nearest
    multiple of 1/1000 of the magnitude (the larger one on a tie). *)
Definition toFixed3 (x : Q) : string :=
  let n := Qfloor (Qabs x * 1000 + (1 # 2)) in
  (if Qle_bool 0 x then "" else "-")
    ++ pretty (n / 1000) ++ "." ++ pad3 (n mod 1000).

End Js.

(* ===================================================================== *)
(** ** Role resolution (login.tsx, usersScreen.tsx, getHomeScreen)        *)
(* ===================================================================== *)

Module Roles.

Inductive Role : Type := volunteer | expert | admin.

(** The part of a [users/{uid}] document that decides the role: the
    explicit role string and the two legacy flags, each possibly absent. *)
Record UserData : Type := mkUserData {
  role : option string;
  isAdmin : option bool;
  isExpert : option bool
}.

(** [flag === true]. *)
Definition isTrue (flag : option bool) : bool :=
  match flag with
  | Some true => true
  | _ => false
  end.

(** login.tsx: [userData.role?.toLowerCase() || '']. *)
Definition userRole (u : UserData) : string :=
  match role u with
  | Some s => Js.toLowerCase s
  | None => ""
  end.

Inductive Route : Type :=
| adminHomeScreen
| expertHomeScreen
| volunteerHomeScreen.

(** login.tsx, handleLogin, after the credentials were accepted. *)
Definition handleLogin (u : UserData) : Route :=
  let isAdmin := isTrue (isAdmin u) || String.eqb (userRole u) "admin" in
  let isExpert := isTrue (isExpert u) || String.eqb (userRole u) "expert" in
  if isAdmin then adminHomeScreen
  else if isExpert then expertHomeScreen
  else volunteerHomeScreen.

(** usersScreen.tsx, loadUsers: the filter that drops administrators and
    the expert mark of each listed user. *)
Definition roleStr (u : UserData) : string :=
  Js.toLowerCase (match role u with Some s => s | None => "" end).

Definition userIsAdmin (u : UserData) : bool :=
  isTrue (isAdmin u) || String.eqb (roleStr u) "admin".

Definition userIsExpert (u : UserData) : bool :=
  isTrue (isExpert u) || String.eqb (roleStr u) "expert".

Definition nonAdminDocs (docs : list (string * UserData))
  : list (string * UserData) :=
  filter (fun d => negb (userIsAdmin (snd d)) = true) docs.

(** The canonical role a route stands for. *)
Definition roleOfRoute (r : Route) : Role :=
  match r with
  | adminHomeScreen => admin
  | expertHomeScreen => expert
  | volunteerHomeScreen => volunteer
  end.

Definition resolveRole (u : UserData) : Role := roleOfRoute (handleLogin u).

(** The two representations read on their own, as the specification
    names them: the role named by the explicit enum, and the role
    derived from the legacy flags. *)
Definition enumRole (s : string) : Role :=
  let l := Js.toLowerCase s in
  if String.eqb l "admin" then admin
  else if String.eqb l "expert" then expert
  else volunteer.

Definition enumRoleOf (u : UserData) : Role :=
  match role u with
  | Some s => enumRole s
  | None => volunteer
  end.

Definition legacyRole (u : UserData) : Role :=
  if isTrue (isAdmin u) then admin
  else if isTrue (isExpert u) then expert
  else volunteer.

(** Privilege order volunteer < expert < admin. *)
Definition rank (r : Role) : nat :=
  match r with volunteer => 0 | expert => 1 | admin => 2 end.

Definition higher (a b : Role) : Role :=
  if (rank a <=? rank b)%nat then b else a.

End Roles.

(* ===================================================================== *)
(** ** Confidence normalisation (predictionScreen.tsx)                    *)
(* ===================================================================== *)

Module Confidence.


End Confidence.

(* ===================================================================== *)
(** ** The outside world: effects, results, the recordings collection     *)
(* ===================================================================== *)

Module Io.

Import Js.

(** What an awaited call gives back: a value, or a rejection with its
    message. *)
Inductive Result (A : Type) : Type :=
| Ok (a : A)
| Err (message : string).
Arguments Ok {A} a.
Arguments Err {A} message.

(** Calls that leave the component, in the order they are made.  A store
    write carries whether the backend accepted it. *)
Inductive Effect : Type :=
| Alert (title message : string)
| LogWarn (message : string)
| LogError (message : string)
| GetIdToken (uid : string)
| GetUserProfile (uid : string)
| GetInfoAsync (uri : string)
| UploadAsync (bucket filePath uri contentType idToken : string)
| SetDoc (collection id : string) (data : gmap string jsval) (accepted : bool)
| UpdateDoc (collection id : string) (updates : gmap string jsval)
    (accepted : bool)
| Fetch (url : string)
| ReverseGeocode (lat lon : Q).

(** Effects that reach anything outside the component's own memory. *)
Definition isExternalCall (e : Effect) : bool :=
  match e with
  | Alert _ _ | LogWarn _ | LogError _ => false
  | _ => true
  end.

(** The [recordings] collection: document id to document. *)
Abbreviation Store := (gmap string (gmap string jsval)).

(** [setDoc(ref, data)] replaces the document; [updateDoc(ref, partial)]
    overwrites the named fields of an existing document and fails on a
    missing one. *)
Definition setDoc (id : string) (data : gmap string jsval) (s : Store) : Store :=
  <[id := data]> s.

Definition updateDoc (id : string) (updates : gmap string jsval) (s : Store)
  : option Store :=
  match s !! id with
  | Some d => Some (<[id := updates ∪ d]> s)
  | None => None
  end.

(** The store after one effect: only accepted writes to [recordings]
    change it. *)
Definition commit (s : Store) (e : Effect) : Store :=
  match e with
  | SetDoc "recordings" id data true => setDoc id data s
  | UpdateDoc "recordings" id updates true =>
      match updateDoc id updates s with
      | Some s' => s'
      | None => s
      end
  | _ => s
  end.


Definition finalStore (s : Store) (trace : list Effect) : Store :=
  fold_left commit trace s.


Definition reviewerOf (d : gmap string jsval) : option jsval :=
  getField "uid" (getField "reviewer" (d !! "expertReview")).

(** The requests a trace sends to the reverse geocoder. *)
Definition isGeocoderRequest (e : Effect) : bool :=
  match e with
  | ReverseGeocode _ _ => true
  | _ => false
  end.

Definition geocoderRequests (trace : list Effect) : nat :=
  length (List.filter isGeocoderRequest trace).

(** The store writes of a trace, accepted or not. *)
Definition isWrite (e : Effect) : bool :=
  match e with
  | SetDoc _ _ _ _ | UpdateDoc _ _ _ _ => true
  | _ => false
  end.

(** The documents a trace creates. *)
Definition created (trace : list Effect) : list (string * gmap string jsval) :=
  flat_map (fun e => match e with
                     | SetDoc "recordings" id data true => [(id, data)]
                     | _ => []
                     end) trace.

End Io.

(* ===================================================================== *)
(** ** Event handlers: component state, trace, early return, exceptions   *)
(* ===================================================================== *)

Module Handler.

Import Io.
Local Open Scope list_scope.

(** How a block of an async handler ends: it falls through with a value,
    executes [return], or throws. *)
Inductive Outcome (A : Type) : Type :=
| Value (a : A)
| Returned
| Thrown (message : string).
Arguments Value {A} a.
Arguments Returned {A}.
Arguments Thrown {A} message.

(** A block reads and writes the component state [S] and extends the
    trace. *)
Definition M (S A : Type) : Type :=
  S -> list Effect -> Outcome A * S * list Effect.

Section Blocks.
Context {S : Type}.

Definition ret {A} (a : A) : M S A := fun s t => (Value a, s, t).

Definition bind {A B} (m : M S A) (f : A -> M S B) : M S B :=
  fun s t =>
    match m s t with
    | (Value a, s', t') => f a s' t'
    | (Returned, s', t') => (Returned, s', t')
    | (Thrown e, s', t') => (Thrown e, s', t')
    end.

Definition emit (e : Effect) : M S unit := fun s t => (Value tt, s, t ++ [e]).

Definition throw {A} (message : string) : M S A :=
  fun s t => (Thrown message, s, t).

Definition exit {A} : M S A := fun s t => (Returned, s, t).

Definition get : M S S := fun s t => (Value s, s, t).

Definition modify (f : S -> S) : M S unit := fun s t => (Value tt, f s, t).

(** [await call] : the call is made, then its answer arrives or it
    rejects. *)
Definition await {A} (e : Effect) (answer : Result A) : M S A :=
  fun s t =>
    match answer with
    | Ok a => (Value a, s, t ++ [e])
    | Err m => (Thrown m, s, t ++ [e])
    end.

(** [try { body } catch (err) { handler } finally { finalizer }] as the
    last statement of a handler. *)
Definition tryCatchFinally (body : M S unit) (handler : string -> M S unit)
  (finalizer : M S unit) : M S unit :=
  fun s t =>
    match body s t with
    | (Value _, s', t') => finalizer s' t'
    | (Returned, s', t') =>
        let '(_, s'', t'') := finalizer s' t' in (Returned, s'', t'')
    | (Thrown e, s', t') => bind (handler e) (fun _ => finalizer) s' t'
    end.

(** One run of a handler from a state, with an empty trace. *)
Definition run {A} (m : M S A) (s : S) : S * list Effect :=
  let '(_, s', t) := m s [] in (s', t).

End Blocks.

Declare Scope handler_scope.
Delimit Scope handler_scope with handler.
Notation "'let!' x ':=' m 'in' k" := (bind m (fun x => k))
  (at level 10, x name, m at level 100, k at level 200,
   only parsing) : handler_scope.
Notation "'do!' m 'in' k" := (bind m (fun _ => k))
  (at level 10, m at level 100, k at level 200,
   only parsing) : handler_scope.

End Handler.

(* ===================================================================== *)
(** ** The reverse geocoder as the screens see it                          *)
(* ===================================================================== *)

Module Geocoder.

(** The [address] object of a Nominatim answer. *)
Record Address : Type := mkAddress {
  city : option string;
  town : option string;
  village : option string;
  state : option string
}.

(** One request: the fetch rejects or the body is not a JSON object
    ([Fails]), or a JSON object arrives, with or without an address. *)
Inductive Answer : Type :=
| Fails
| Json (address : option Address).

(** [a || b] on optional strings: the empty string is falsy. *)
Definition orStr (a : option string) (b : option string) : option string :=
  match a with
  | Some "" | None => b
  | Some x => Some x
  end.

Definition strOr (a : option string) (b : string) : string :=
  match orStr a (Some b) with Some x => x | None => b end.

End Geocoder.

(* ===================================================================== *)
(** ** predictionScreen.tsx                                               *)
(* ===================================================================== *)

Module PredictionScreen.

Import Js Io Handler.
Local Open Scope handler_scope.

Record TopItem : Type := mkTopItem {
  species : string;
  confidence : Q
}.

(** [auth.currentUser] and the profile document of the user. *)
Record AuthUser : Type := mkAuthUser {
  uid : string;
  userDisplayName : option string;
  email : option string
}.

Record Profile : Type := mkProfile {
  firstName : option string;
  lastName : option string;
  displayName : option string
}.

(** The state of the screen that handleSubmit reads.  [lat] and [lon] are
    [None] when the route parameter is not a finite number. *)
Record State : Type := mkState {
  audioUri : string;
  lat : option Q;
  lon : option Q;
  predictedSpecies : string;
  notes : string;
  top3 : list TopItem;
  role : option string;
  submitAsExpert : bool;
  volunteerConfidence : string;
  submitting : bool;
  hasSubmitted : bool
}.

Definition setSubmitting (b : bool) (st : State) : State :=
  mkState (audioUri st) (lat st) (lon st) (predictedSpecies st) (notes st)
    (top3 st) (role st) (submitAsExpert st) (volunteerConfidence st)
    b (hasSubmitted st).

Definition setHasSubmitted (b : bool) (st : State) : State :=
  mkState (audioUri st) (lat st) (lon st) (predictedSpecies st) (notes st)
    (top3 st) (role st) (submitAsExpert st) (volunteerConfidence st)
    (submitting st) b.

(** The effect that fetches the role on mount:
    [setRole(snap.data()?.role ?? 'volunteer')], ['volunteer'] when the
    read throws, no change when nobody is signed in. *)
Definition fetchRole (signedIn : bool) (userDoc : Result (option Roles.UserData))
  (st : State) : State :=
  if negb signedIn then st
  else
    let r :=
      match userDoc with
      | Ok (Some u) =>
          match Roles.role u with Some x => x | None => "volunteer" end
      | Ok None | Err _ => "volunteer"
      end in
    mkState (audioUri st) (lat st) (lon st) (predictedSpecies st) (notes st)
      (top3 st) (Some r) (submitAsExpert st) (volunteerConfidence st)
      (submitting st) (hasSubmitted st).


(** What the outside world answers during one submit. *)
Record SubmitEnv : Type := mkSubmitEnv {
  currentUser : option AuthUser;
  idTokenAnswer : Result string;
  profileAnswer : option Profile;          (* getUserProfile never throws *)
  infoAnswer : Result bool;                (* getInfoAsync(...).exists *)
  storageBucket : option string;
  uploadAnswer : Result Z;                 (* HTTP status of the upload *)
  dateNow : Z;                             (* Date.now() *)
  randomMillion : Z;                       (* Math.floor(Math.random()*1e6) *)
  newRecordingId : string;                 (* doc(collection(...)).id *)
  nowIso : string;                         (* new Date().toISOString() *)
  setDocAnswer : Result unit
}.

Definition guessMime (uri : string) : string :=
  let lower := toLowerCase uri in
  if endsWith ".wav" lower then "audio/wav"
  else if endsWith ".m4a" lower then "audio/m4a"
  else if endsWith ".mp3" lower then "audio/mpeg"
  else if endsWith ".aac" lower then "audio/aac"
  else "application/octet-stream".

Definition makeUniqueFileName (now random : Z) (ext : string) : string :=
  "rec-" ++ pretty now ++ "-" ++ pretty random ++ ext.

Definition orEmpty (o : option string) : string :=
  match o with Some x => x | None => "" end.

Definition topItemValue (t : TopItem) : jsval :=
  JObj [("species", JStr (species t)); ("confidence", JNum (confidence t))].

(** Confidences back to 0..1 for the [ai] block.  The quotient is the
    exact one; a double may differ from it in the last bit. *)
Definition normalizeTop (t : TopItem) : TopItem :=
  mkTopItem (species t)
    (if negb (Qle_bool (confidence t) 1)
     then Qmax 0 (Qmin 1 (confidence t / 100))
     else confidence t).

Definition primaryConf01 (normalizedTop3 : list TopItem) : Q :=
  match normalizedTop3 with
  | t :: _ => confidence t
  | [] => 0
  end.

Definition finiteOr0 (x : option Q) : Q :=
  match x with Some q => q | None => 0 end.

Definition baseDoc (st : State) (user : AuthUser) (fName lName dName : string)
  (recordingId fileName filePath contentType audioURL now : string)
  : gmap string jsval :=
  let normalizedTop3 := map normalizeTop (top3 st) in
  let conf := primaryConf01 normalizedTop3 in
  list_to_map [
    ("recordingId", JStr recordingId);
    ("createdBy", JStr (uid user));
    ("userId", JStr (uid user));
    ("predictedSpecies", JStr (predictedSpecies st));
    ("species", JStr "");
    ("confidenceScore", JNum conf);
    ("aiSpecies", JStr (predictedSpecies st));
    ("aiConfidence", JNum conf);
    ("top3", JArr (map topItemValue (top3 st)));
    ("ai", JObj [("species", JStr (predictedSpecies st));
                 ("confidence", JNum conf);
                 ("top3", JArr (map topItemValue normalizedTop3))]);
    ("fileName", JStr fileName);
    ("filePath", JStr filePath);
    ("contentType", JStr contentType);
    ("audioURL", JStr audioURL);
    ("notes", JStr (notes st));
    ("volunteerConfidenceLevel", JStr (volunteerConfidence st));
    ("location", JObj [("lat", JNum (finiteOr0 (lat st)));
                       ("lng", JNum (finiteOr0 (lon st)))]);
    ("history", JArr [JObj [("action", JStr "submitted");
                            ("actorId", JStr (uid user));
                            ("timestamp", JStr now)]]);
    ("timestamp", JServerTimestamp);
    ("timestamp_iso", JStr now);
    ("submitter", JObj [("uid", JStr (uid user));
                        ("displayName", JStr dName);
                        ("firstName", JStr fName);
                        ("lastName", JStr lName);
                        ("email", JStr (orEmpty (email user)))])
  ].

Definition expertReview (st : State) (user : AuthUser) (fName lName : string)
  : jsval :=
  JObj [("species", JStr (predictedSpecies st));
        ("confidence",
         JNum (primaryConf01 (map normalizeTop (top3 st))));
        ("reviewer", JObj [("uid", JStr (uid user));
                           ("firstName", JStr fName);
                           ("lastName", JStr lName)]);
        ("reviewedAt", JServerTimestamp)].

Definition isExpertRole (r : option string) : bool :=
  match r with
  | Some x => (String.eqb x "expert" || String.eqb x "admin")%bool
  | None => false
  end.

(** The names read from the profile, with the fallbacks of the code. *)
Definition firstNameOf (env : SubmitEnv) : string :=
  orEmpty (profileAnswer env ≫= firstName).

Definition lastNameOf (env : SubmitEnv) : string :=
  orEmpty (profileAnswer env ≫= lastName).

Definition displayNameOf (env : SubmitEnv) (user : AuthUser) : string :=
  match profileAnswer env ≫= displayName with
  | Some d => d
  | None =>
      match userDisplayName user with
      | Some d => d
      | None => trim (firstNameOf env ++ " " ++ lastNameOf env)
      end
  end.

Definition extOf (contentType : string) : string :=
  if String.eqb contentType "audio/wav" then ".wav"
  else if String.eqb contentType "audio/m4a" then ".m4a"
  else ".mp3".

Definition fileNameOf (st : State) (env : SubmitEnv) : string :=
  makeUniqueFileName (dateNow env) (randomMillion env)
    (extOf (guessMime (audioUri st))).

Definition filePathOf (st : State) (env : SubmitEnv) (user : AuthUser) : string :=
  "uploaded_audios/" ++ uid user ++ "/" ++ fileNameOf st env.

Definition baseDocOf (st : State) (env : SubmitEnv) (user : AuthUser)
  : gmap string jsval :=
  baseDoc st user (firstNameOf env) (lastNameOf env) (displayNameOf env user)
    (newRecordingId env) (fileNameOf st env) (filePathOf st env user)
    (guessMime (audioUri st)) ("/get-audio/" ++ fileNameOf st env) (nowIso env).

(** The two documents handleSubmit can write. *)
Definition approvedData (st : State) (env : SubmitEnv) (user : AuthUser)
  : gmap string jsval :=
  <["expertReview" :=
      expertReview st user (firstNameOf env) (lastNameOf env)]>
    (<["status" := JStr "approved"]> (baseDocOf st env user)).

Definition needsReviewData (st : State) (env : SubmitEnv) (user : AuthUser)
  : gmap string jsval :=
  <["status" := JStr "needs_review"]> (baseDocOf st env user).

(** [await setDoc(recRef, data)]. *)
Definition awaitSetDoc (id : string) (data : gmap string jsval)
  (answer : Result unit) : M State unit :=
  match answer with
  | Ok _ => emit (SetDoc "recordings" id data true)
  | Err m => do! emit (SetDoc "recordings" id data false) in throw m
  end.

(** The body of the [try] of handleSubmit, after [setSubmitting(true)]. *)
Definition submitBody (env : SubmitEnv) : M State unit :=
  let! st := get in
  match currentUser env with
  | None => throw "Not signed in. Please log in first."
  | Some user =>
      let! idToken := await (GetIdToken (uid user)) (idTokenAnswer env) in
      do! emit (GetUserProfile (uid user)) in
      let! exists_ := await (GetInfoAsync (audioUri st)) (infoAnswer env) in
      if negb exists_ then
        do! emit (Alert "Audio missing"
          "The recorded file is no longer available. Please re-record.") in
        exit
      else
        match storageBucket env with
        | None => throw "Missing Firebase storage bucket in config."
        | Some bucket =>
            let! status :=
              await (UploadAsync bucket (filePathOf st env user) (audioUri st)
                       (guessMime (audioUri st)) idToken)
                    (uploadAnswer env) in
            if ((status <? 200) || (300 <=? status))%bool then
              do! emit (LogError "Storage upload failed") in
              throw ("Storage upload failed (" ++ pretty status ++ ")")
            else
              let isExpert := isExpertRole (role st) in
              if (submitAsExpert st && isExpert)%bool then
                do! awaitSetDoc (newRecordingId env) (approvedData st env user)
                      (setDocAnswer env) in
                do! modify (setHasSubmitted true) in
                emit (Alert "Submitted"
                  "Your recording was saved and approved as an expert submission.")
              else
                do! awaitSetDoc (newRecordingId env) (needsReviewData st env user)
                      (setDocAnswer env) in
                do! modify (setHasSubmitted true) in
                emit (Alert "Submitted" "Your recording was saved")
        end
  end.

(** handleSubmit. *)
Definition handleSubmit (env : SubmitEnv) : M State unit :=
  let! st := get in
  if hasSubmitted st then
    do! emit (Alert "Recording already submitted"
                    "This recording has already been submitted.") in
    exit
  else if submitting st then exit
  else if String.eqb (volunteerConfidence st) "" then
    do! emit (Alert "Missing Confidence Level"
      "Please select your Volunteer Confidence Level (High, Medium, or Low).") in
    exit
  else if String.eqb (audioUri st) "" then
    do! emit (Alert "No recording" "Please record audio first.") in
    exit
  else
    tryCatchFinally
      (do! modify (setSubmitting true) in submitBody env)
      (fun message =>
         do! emit (LogError "Recording submission failed") in
         emit (Alert "Submit failed" message))
      (modify (setSubmitting false)).

(** Presses of the submit button one after the other on the same screen,
    each with what the world answers at that moment. *)
Fixpoint submitAll (envs : list SubmitEnv) (st : State) : State * list Effect :=
  match envs with
  | [] => (st, [])
  | env :: rest =>
      let '(st1, t1) := run (handleSubmit env) st in
      let '(st2, t2) := submitAll rest st1 in
      (st2, (t1 ++ t2)%list)
  end.

Definition alreadySubmitted : Effect :=
  Alert "Recording already submitted"
        "This recording has already been submitted.".

(** When a submit reaches the store: the guards of handleSubmit pass and
    every service answers. *)
Record Accepted (st : State) (env : SubmitEnv) (user : AuthUser)
  (idToken bucket : string) (httpStatus : Z) : Prop := mkAccepted {
  not_yet_submitted : hasSubmitted st = false;
  not_submitting : submitting st = false;
  confidence_chosen : volunteerConfidence st <> "";
  has_audio : audioUri st <> "";
  signed_in : currentUser env = Some user;
  token_given : idTokenAnswer env = Ok idToken;
  file_exists : infoAnswer env = Ok true;
  bucket_configured : storageBucket env = Some bucket;
  upload_answered : uploadAnswer env = Ok httpStatus;
  upload_succeeded : 200 <= httpStatus < 300;
  write_accepted : setDocAnswer env = Ok tt
}.

(** Whether the submit asks for, and is allowed, the expert path. *)
Definition selfApproves (st : State) : bool :=
  (submitAsExpert st && isExpertRole (role st))%bool.

(** getCityFromCoords of this screen: one request per call, no cache. *)
Definition getCityFromCoords (lat lon : Q) (answer : Geocoder.Answer)
  : string * list Effect :=
  match answer with
  | Geocoder.Fails =>
      ("Unknown Location", [ReverseGeocode lat lon; LogWarn "Geocoding error"])
  | Geocoder.Json address =>
      let city :=
        Geocoder.strOr
          (Geocoder.orStr (address ≫= Geocoder.city)
             (Geocoder.orStr (address ≫= Geocoder.town)
                (address ≫= Geocoder.village))) "" in
      let state := Geocoder.strOr (address ≫= Geocoder.state) "" in
      (if (negb (String.eqb city "") && negb (String.eqb state ""))%bool
       then city ++ ", " ++ state
       else if negb (String.eqb city "") then city
       else if negb (String.eqb state "") then state
       else "Unknown Location",
       [ReverseGeocode lat lon])
  end.

(** *** callPredict *)

(** What [fetch] can end with, and what the body of a response holds:
    [json = None] when the body does not parse. *)
Inductive FetchError : Type :=
| AbortError                       (* the abort timer fired *)
| NetworkError (message : string)
| HttpError (message : string)     (* thrown on [!resp.ok] *)
| BodyError.                       (* resp.json() or a read of it throws *)

Record Response : Type := mkResponse {
  ok : bool;
  status : Z;
  text : string;
  json : option jsval
}.

(** One endpoint during one request: after how many milliseconds it
    answers ([None]: never) and with what. *)
Record Server : Type := mkServer {
  latency : option N;
  answer : FetchError + Response
}.

(** [setTimeout(() => controller.abort(), 15_000)]. *)
Definition abortAfterMs : N := 15000.

(** [fetch(url, {signal})] raced with the abort timer: the outcome and
    the time the caller waited for it. *)
Definition fetchWithAbort (srv : Server) : (FetchError + Response) * N :=
  match latency srv with
  | Some d => if (d <? abortAfterMs)%N then (answer srv, d)
              else (inl AbortError, abortAfterMs)
  | None => (inl AbortError, abortAfterMs)
  end.

Record Prediction : Type := mkPrediction {
  p_species : option jsval;
  p_confidence : Q;
  p_top3 : list jsval
}.

(** The [try] block of the loop for one endpoint. *)
Definition attempt (srv : Server) : (FetchError + Prediction) * N :=
  match fetchWithAbort srv with
  | (inl e, d) => (inl e, d)
  | (inr resp, d) =>
      if negb (ok resp) then
        (inl (HttpError ("HTTP " ++ pretty (status resp) ++ " "
                           ++ String.substring 0 200 (text resp))), d)
      else
        match json resp with
        | None | Some JNull => (inl BodyError, d)
        | Some data =>
            (inr (mkPrediction
                    (match getField "species" (Some data) with
                     | None | Some JNull => getField "name" (Some data)
                     | Some v => Some v
                     end)
                    (match getField "confidence" (Some data) with
                     | Some (JNum q) => q
                     | _ => 0
                     end)
                    (match getField "top3" (Some data) with
                     | Some (JArr items) => items
                     | _ => []
                     end)), d)
        end
  end.

(** The [for] loop: endpoints in order, the first success returns. *)
Fixpoint tryEndpoints (server : string -> Server) (urls : list string)
  : option Prediction * list Effect * N :=
  match urls with
  | [] => (None, [], 0%N)
  | url :: rest =>
      if negb (isHttpPrefix url) then tryEndpoints server rest
      else
        match attempt (server url) with
        | (inr p, d) => (Some p, [Fetch url], d)
        | (inl _, d) =>
            let '(r, t, d') := tryEndpoints server rest in
            (r, Fetch url :: LogWarn "Prediction endpoint failed" :: t,
             (d + d')%N)
        end
  end.

Definition mockSpecies : list string :=
  ["Bullfrog"; "Green Frog"; "American Toad"; "Wood Frog";
   "Northern Spring Peeper"].

(** [arr[i]] and [arr.indexOf(x)]. *)
Definition at_ (arr : list string) (i : Z) : option string :=
  if i <? 0 then None else arr !! Z.to_nat i.

Fixpoint indexOfFrom (i : Z) (arr : list string) (x : option string) : Z :=
  match arr with
  | [] => -1
  | y :: rest => if decide (x = Some y) then i else indexOfFrom (i + 1) rest x
  end.

Definition optField (k : string) (v : option string) : list (string * jsval) :=
  match v with Some x => [(k, JStr x)] | None => [] end.

(** The mock prediction, from the two [Math.random()] draws. *)
Definition mockPrediction (random1 random2 : Q) : Prediction :=
  let len := Z.of_nat (length mockSpecies) in
  let randomSpecies := at_ mockSpecies (Qfloor (random1 * inject_Z len)) in
  let mockConfidence := ((75 # 100) + random2 * (2 # 10))%Q in
  let i := indexOfFrom 0 mockSpecies randomSpecies in
  mkPrediction (JStr <$> randomSpecies) mockConfidence
    [ JObj (optField "species" randomSpecies
              ++ [("confidence", JNum mockConfidence)]);
      JObj (optField "species" (at_ mockSpecies ((i + 1) mod len))
              ++ [("confidence", JNum (mockConfidence * (6 # 10)))]);
      JObj (optField "species" (at_ mockSpecies ((i + 2) mod len))
              ++ [("confidence", JNum (mockConfidence * (3 # 10)))]) ].

Definition serverUnavailable : Effect :=
  Alert "Server Unavailable"
    "Could not connect to prediction server. Using mock prediction for testing.

To fix: Make sure your backend server is running and your phone is on the same network.".

Definition endpoints (API_BASE : string) : list string :=
  [API_BASE ++ "/predict"; API_BASE ++ "/ml/predict"].

(** callPredict: the prediction, the trace, and the time spent waiting
    for endpoints.  Nothing in its body can throw past the loop. *)
Definition callPredict (API_BASE : string) (server : string -> Server)
  (random1 random2 : Q) : Prediction * list Effect * N :=
  match tryEndpoints server (endpoints API_BASE) with
  | (Some p, t, d) => (p, t, d)
  | (None, t, d) =>
      (mockPrediction random1 random2,
       (t ++ [LogWarn "All prediction endpoints failed, using mock prediction";
              serverUnavailable])%list,
       d)
  end.

End PredictionScreen.

(* ===================================================================== *)
(** ** The projection of a recording document into a view                  *)
(* ===================================================================== *)

Module Projection.

Import Js.

(** The [Recording] type of the views.  Fields the code copies from the
    document without a check keep the stored value, whatever it is. *)
Record Recording : Type := mkRecording {
  recordingId : jsval;
  userId : jsval;
  predictedSpecies : jsval;
  species : jsval;
  audioURL : option jsval;
  filePath : option jsval;
  latitude : Q;
  longitude : Q;
  locationCity : jsval;
  status : jsval;
  timestampISO : jsval;
  timestamp : option Z;             (* a Date, in ms since the epoch *)
  confidence : option number;
  volunteerConfidence : option jsval;
  notes : jsval;
  submitterName : jsval;
  recordingNumber : option Z;
  aiSpecies : jsval;
  aiConfidence : option number
}.

(** [d.status ?? 'pending_analysis'], the same expression in
    parseRecording and in the snapshot handlers of the history and the
    map screen. *)
Definition statusOf (data : gmap string jsval) : jsval :=
  nullish (data !! "status") (JStr "pending_analysis").

(** The three statuses of the lifecycle. *)
Definition knownStatus (v : jsval) : bool :=
  match v with
  | JStr s =>
      (String.eqb s "needs_review" || String.eqb s "approved"
       || String.eqb s "discarded")%bool
  | _ => false
  end.

(** [typeof v === 'number' ? Math.round(v * 100) : undefined]. *)
Definition percentOf (v : option jsval) : option number :=
  match v with
  | Some (JNum q) => Some (Finite (inject_Z (Math_round (q * 100))))
  | _ => None
  end.

End Projection.

(* ===================================================================== *)
(** ** usersScreen.tsx: the recordings of a user, as the administrator     *)
(**    sees them                                                           *)
(* ===================================================================== *)

Module UserRecordings.

Import Js.

(** loadUserRecordings: [data.status || 'pending']. *)
Definition statusOf (data : gmap string jsval) : jsval :=
  match orElse (data !! "status") (Some (JStr "pending")) with
  | Some v => v
  | None => JStr "pending"
  end.

(** The text of the status badge of a recording. *)
Definition statusBadgeText (status : jsval) : jsval :=
  match status with
  | JStr s =>
      if String.eqb s "approved" then JStr "Approved"
      else if String.eqb s "needs_review" then JStr "Pending"
      else if String.eqb s "discarded" then JStr "Discarded"
      else status
  | _ => status
  end.

End UserRecordings.

(* ===================================================================== *)
(** ** context/DataContext.tsx                                            *)
(* ===================================================================== *)

Module DataContext.

Import Js Projection.

Section ParseRecording.

(** Built-ins of the platform that parseRecording calls: the locale date
    format, the clock, and the conversions [Number(v)] ([None] is NaN) and
    string interpolation of a possibly undefined value. *)
Variable toLocaleDateString : Z -> string.
Variable now : Z.
Variable Number_ : option jsval -> option Q.
Variable String_ : option jsval -> string.

(** [Number(v) || 0]. *)
Definition numberOr0 (v : option jsval) : Q :=
  match Number_ v with
  | Some q => q
  | None => 0
  end.

Definition orValue (a : option jsval) (b : jsval) : jsval :=
  match orElse a (Some b) with Some v => v | None => b end.

Definition parseRecording (docId : string) (data : gmap string jsval)
  : Recording :=
  let ts := data !! "timestamp" in
  let date := match ts with Some (JTimestamp ms) => Some ms | _ => None end in
  let timestampISO :=
    match date with
    | Some ms => JStr (toLocaleDateString ms)
    | None => nullish (data !! "timestamp_iso") (JStr "Unknown")
    end in
  let lat := numberOr0 (getField "lat" (data !! "location")) in
  let lon := numberOr0 (getField "lng" (data !! "location")) in
  let submitter := data !! "submitter" in
  mkRecording
    (nullish (data !! "recordingId") (JStr docId))
    (nullish (data !! "userId") (JStr ""))
    (nullish (data !! "predictedSpecies") (JStr ""))
    (nullish (data !! "species") (JStr ""))
    (Some (orValue (orElse (data !! "audioURL") (data !! "audioUrl")) (JStr "")))
    (orElse (data !! "filePath")
       (if truthy (data !! "fileName")
        then Some (JStr ("uploaded_audios/" ++ String_ (data !! "userId")
                           ++ "/" ++ String_ (data !! "fileName")))
        else None))
    lat lon
    (orValue (data !! "locationCity") (JStr "Unknown Location"))
    (statusOf data)
    timestampISO
    (Some (match date with Some ms => ms | None => now end))
    (percentOf (data !! "confidenceScore"))
    (orElse (data !! "volunteerConfidenceLevel") (data !! "volunteerConfidence"))
    (orValue (data !! "notes") (JStr ""))
    (orValue (getField "displayName" submitter)
       (orValue
          (Some (JStr (trim
             (String_ (Some (orValue (getField "firstName" submitter) (JStr "")))
                ++ " " ++
              String_ (Some (orValue (getField "lastName" submitter) (JStr "")))))))
          (JStr "Unknown")))
    None
    (orValue (orElse (data !! "aiSpecies") (data !! "predictedSpecies")) (JStr ""))
    (match data !! "aiConfidence" with
     | Some (JNum q) => percentOf (Some (JNum q))
     | _ => percentOf (data !! "confidenceScore")
     end).

End ParseRecording.

End DataContext.

(* ===================================================================== *)
(** ** historyScreen.tsx                                                  *)
(* ===================================================================== *)

Module HistoryScreen.

Import Js Io Handler Projection.
Local Open Scope handler_scope.

(** *** The geocode cache *)

(** [`${lat.toFixed(3)},${lon.toFixed(3)}`]. *)
Definition cacheKey (lat lon : Q) : string :=
  toFixed3 lat ++ "," ++ toFixed3 lon.

(** The city line built from an answer that parsed. *)
Definition placeName (address : option Geocoder.Address) : string :=
  let city :=
    Geocoder.strOr
      (Geocoder.orStr (address ≫= Geocoder.city)
         (Geocoder.orStr (address ≫= Geocoder.town)
            (address ≫= Geocoder.village))) "Unknown" in
  let state := Geocoder.strOr (address ≫= Geocoder.state) "" in
  if negb (String.eqb state "") then city ++ ", " ++ state else city.

(** [if (geocodeCache[cacheKey])] : a stored empty string is falsy. *)
Definition cached (geocodeCache : gmap string string) (key : string)
  : option string :=
  match geocodeCache !! key with
  | Some "" | None => None
  | Some v => Some v
  end.

(** getCityFromCoords: the place name, the cache afterwards, and the
    requests made.  The geocoder's answer is consulted on a miss only. *)
Definition getCityFromCoords (geocodeCache : gmap string string)
  (lat lon : Q) (answer : Geocoder.Answer)
  : string * gmap string string * list Effect :=
  let key := cacheKey lat lon in
  match cached geocodeCache key with
  | Some v => (v, geocodeCache, [])
  | None =>
      match answer with
      | Geocoder.Json address =>
          let result := placeName address in
          (result, <[key := result]> geocodeCache, [ReverseGeocode lat lon])
      | Geocoder.Fails =>
          ("Unknown Location", geocodeCache, [ReverseGeocode lat lon])
      end
  end.

(** *** Edit and resubmit *)

Record State : Type := mkState {
  recordings : list Recording;
  editMode : option string;
  editSpecies : string;
  editConfidence : string;
  editNotes : string;
  isSaving : bool
}.

Definition setIsSaving (b : bool) (st : State) : State :=
  mkState (recordings st) (editMode st) (editSpecies st) (editConfidence st)
    (editNotes st) b.

Definition setEditMode (m : option string) (st : State) : State :=
  mkState (recordings st) m (editSpecies st) (editConfidence st)
    (editNotes st) (isSaving st).



(** The check at the top of handleResubmit: true when the entry is
    rejected. *)
Definition invalidConfidence (editConfidence : string) : bool :=
  let confidenceNum := parseInt editConfidence in
  (negb (String.eqb editConfidence "") &&
   match confidenceNum with
   | None => true
   | Some n => (n <? 0) || (100 <? n)
   end)%bool.

(** The [updates] object of handleResubmit. *)
Definition resubmitUpdates (st : State) : gmap string jsval :=
  let base : gmap string jsval :=
    list_to_map [
      ("species", JStr (editSpecies st));
      ("predictedSpecies", JStr (editSpecies st));
      ("notes", JStr (editNotes st));
      ("status", JStr "needs_review")
    ] in
  match parseInt (editConfidence st) with
  | Some n =>
      if negb (String.eqb (editConfidence st) "")
      then <["confidenceScore" := JNum (inject_Z n / 100)]> base
      else base
  | None => base
  end.

(** The row of the local list after a resubmit. *)
Definition resubmitted (st : State) (rec : Recording) : Recording :=
  mkRecording (recordingId rec) (userId rec)
    (JStr (editSpecies st)) (JStr (editSpecies st))
    (audioURL rec) (filePath rec) (latitude rec) (longitude rec)
    (locationCity rec) (JStr "needs_review") (timestampISO rec)
    (timestamp rec)
    (match parseInt (editConfidence st) with
     | Some n => if n =? 0 then confidence rec else Some (Finite (inject_Z n))
     | None => confidence rec
     end)
    (volunteerConfidence rec) (JStr (editNotes st)) (submitterName rec)
    (recordingNumber rec) (aiSpecies rec) (aiConfidence rec).


(** getStatusLabel: a [switch] on the status with a default. *)
Definition getStatusLabel (status : jsval) : string :=
  match status with
  | JStr s =>
      if String.eqb s "approved" then "Approved"
      else if String.eqb s "needs_review" then "Pending Review"
      else if String.eqb s "discarded" then "Discarded"
      else "Processing"
  | _ => "Processing"
  end.

End HistoryScreen.

(* ===================================================================== *)
(** ** mapHistoryScreen.tsx                                               *)
(* ===================================================================== *)

Module MapHistoryScreen.

Import Js Io Handler Projection.
Local Open Scope handler_scope.

(** The cache and getCityFromCoords of this file repeat those of the
    history screen word for word. *)
Definition getCityFromCoords := HistoryScreen.getCityFromCoords.

(** *** The species and date filter *)

Section Filter.

(** [d.setHours(23, 59, 59, 999)] in the time zone of the device. *)
Variable endOfDay : Z -> Z.

(** [selectedSpecies.has(rec.predictedSpecies)]. *)
Definition has (selectedSpecies : gset string) (v : jsval) : bool :=
  match v with
  | JStr x => bool_decide (x ∈ selectedSpecies)
  | _ => false
  end.

(** The callback of [recordings.filter]. *)
Definition keeps (selectedSpecies : gset string) (startDate endDate : option Z)
  (rec : Recording) : bool :=
  if ((0 <? size selectedSpecies)%nat
      && negb (has selectedSpecies (predictedSpecies rec)))%bool
  then false
  else if match startDate, timestamp rec with
          | Some start, Some t => t <? start
          | _, _ => false
          end
  then false
  else if match endDate, timestamp rec with
          | Some e, Some t => endOfDay e <? t
          | _, _ => false
          end
  then false
  else true.

Definition filteredRecordings (recordings : list Recording)
  (selectedSpecies : gset string) (startDate endDate : option Z)
  : list Recording :=
  List.filter (keeps selectedSpecies startDate endDate) recordings.

(** The same view with no species criterion at all, as the specification
    words it: only the inclusive date range decides. *)
Definition inDateRange (startDate endDate : option Z) (rec : Recording) : bool :=
  match timestamp rec with
  | None => true
  | Some t =>
      (match startDate with Some start => start <=? t | None => true end
       && match endDate with Some e => t <=? endOfDay e | None => true end)%bool
  end.

Definition matchAllSpecies (recordings : list Recording)
  (startDate endDate : option Z) : list Recording :=
  List.filter (inDateRange startDate endDate) recordings.

End Filter.

(** *** Saving an edit from the map *)

Record State : Type := mkState {
  expandedRecording : option Recording;
  editMode : bool;
  editSpecies : string;
  editConfidence : string;
  editNotes : string;
  isSaving : bool
}.

Definition setIsSaving (b : bool) (st : State) : State :=
  mkState (expandedRecording st) (editMode st) (editSpecies st)
    (editConfidence st) (editNotes st) b.

Definition setEditMode (b : bool) (st : State) : State :=
  mkState (expandedRecording st) b (editSpecies st)
    (editConfidence st) (editNotes st) (isSaving st).





End MapHistoryScreen.

(* ===================================================================== *)
(** ** Texts as the code counts and compares them                          *)
(* ===================================================================== *)

Module Text.

(** A text of ASCII characters only. *)
Definition isAsciiChar (c : ascii) : bool := (nat_of_ascii c <? 128)%nat.

Fixpoint isAscii (s : string) : bool :=
  match s with
  | EmptyString => true
  | String c rest => (isAsciiChar c && isAscii rest)%bool
  end.

(** [s.length] counts UTF-16 code units.  In the UTF-8 bytes of the text
    a byte that continues a character counts for nothing, the first byte
    of a character of four bytes (outside the basic plane, a surrogate
    pair) counts for two, and every other first byte for one. *)
Definition codeUnits (c : ascii) : nat :=
  let n := nat_of_ascii c in
  if (n <? 128)%nat then 1%nat
  else if (n <? 192)%nat then 0%nat
  else if (n <? 240)%nat then 1%nat
  else 2%nat.

Fixpoint length (s : string) : nat :=
  match s with
  | EmptyString => 0%nat
  | String c rest => (codeUnits c + length rest)%nat
  end.

End Text.

(* ===================================================================== *)
(** ** Array.prototype.sort with a numeric key, newest or largest first    *)
(* ===================================================================== *)

Module Arrays.

Section Sort.
Context {A : Type}.

(** The comparators of the program are all [(a, b) => key(b) - key(a)].
    The sort is stable, so its result is the one a stable insertion sort
    gives: an element goes in front of the first one whose key is not
    larger. *)
Variable key : A -> Z.

Definition compare (a b : A) : Z := key b - key a.

Fixpoint insert (x : A) (sorted : list A) : list A :=
  match sorted with
  | [] => [x]
  | y :: rest =>
      if compare x y <=? 0 then x :: y :: rest else y :: insert x rest
  end.

Fixpoint sort (l : list A) : list A :=
  match l with
  | [] => []
  | x :: rest => insert x (sort rest)
  end.

(** Largest key first. *)
Definition descending : list A -> Prop :=
  StronglySorted (fun a b => key b <= key a).

End Sort.

(** [s.includes(needle)]. *)
Fixpoint includes (needle s : string) : bool :=
  (String.prefix needle s
   || match s with
      | String _ rest => includes needle rest
      | EmptyString => false
      end)%bool.

End Arrays.

(* ===================================================================== *)
(** ** Reading a top-3 list                                               *)
(* ===================================================================== *)

Module Top3.

Import Js.

(** The species and the confidence of the entries of a top-3 list. *)
Definition speciesOf (items : list jsval) : list (option jsval) :=
  map (fun t => getField "species" (Some t)) items.

Definition confidenceOf (items : list jsval) : list (option jsval) :=
  map (fun t => getField "confidence" (Some t)) items.

End Top3.

(* ===================================================================== *)
(** ** historyScreen.tsx: the list of the owner's recordings               *)
(* ===================================================================== *)

Module HistoryList.

Import Js Projection.

(** [timestampMs ?? 0], the sort key of a row; the row's time is its
    [timestamp] field. *)
Definition timestampMs (r : Recording) : Z :=
  match timestamp r with
  | Some t => t
  | None => 0
  end.

Definition setRecordingNumber (n : Z) (r : Recording) : Recording :=
  mkRecording (recordingId r) (userId r) (predictedSpecies r) (species r)
    (audioURL r) (filePath r) (latitude r) (longitude r) (locationCity r)
    (status r) (timestampISO r) (timestamp r) (confidence r)
    (volunteerConfidence r) (notes r) (submitterName r) (Some n)
    (aiSpecies r) (aiConfidence r).

(** [rows.forEach((r, idx) => { r.recordingNumber = idx + 1 })], from
    index [idx] on. *)
Fixpoint numberFrom (idx : Z) (rows : list Recording) : list Recording :=
  match rows with
  | [] => []
  | r :: rest => setRecordingNumber (idx + 1) r :: numberFrom (idx + 1) rest
  end.

(** The end of the snapshot handler: newest first, then "Frog Spec #". *)
Definition sortAndNumber (rows : list Recording) : list Recording :=
  numberFrom 0 (Arrays.sort timestampMs rows).

(** The callback of the search filter.  [None] is a TypeError: a field
    that is not a string has no [toLowerCase]. *)
Definition matches (lower : string) (r : Recording) : option bool :=
  match predictedSpecies r with
  | JStr sp =>
      if Arrays.includes lower (toLowerCase sp) then Some true
      else
        match locationCity r with
        | JStr city => Some (Arrays.includes lower (toLowerCase city))
        | JNull => Some false
        | _ => None
        end
  | _ => None
  end.

Fixpoint filterRows (lower : string) (rows : list Recording)
  : option (list Recording) :=
  match rows with
  | [] => Some []
  | r :: rest =>
      match matches lower r with
      | None => None
      | Some keep =>
          match filterRows lower rest with
          | None => None
          | Some kept => Some (if keep then r :: kept else kept)
          end
      end
  end.

(** Rows whose species and place name, when they are texts, are ASCII. *)
Definition asciiText (v : jsval) : bool :=
  match v with
  | JStr s => Text.isAscii s
  | _ => true
  end.

Definition asciiRow (r : Recording) : bool :=
  (asciiText (predictedSpecies r) && asciiText (locationCity r))%bool.

(** filteredRecordings of the history screen. *)
Definition filteredRecordings (recordings : list Recording)
  (searchQuery : string) : option (list Recording) :=
  if String.eqb (trim searchQuery) "" then Some recordings
  else filterRows (toLowerCase searchQuery) recordings.

End HistoryList.

(* ===================================================================== *)
(** ** mapHistoryScreen.tsx: the filter controls                           *)
(* ===================================================================== *)

Module MapFilters.

Import Js Projection.

Definition allSpeciesOptions : list string :=
  ["Bullfrog"; "Green Frog"; "Northern Spring Peeper";
   "Northern Leopard Frog"; "Eastern Gray Treefrog"; "Wood Frog";
   "American Toad"; "Midland Chorus Frog"].

Definition toggleSpecies (species : string) (selectedSpecies : gset string)
  : gset string :=
  if decide (species ∈ selectedSpecies)
  then selectedSpecies ∖ {[ species ]}
  else selectedSpecies ∪ {[ species ]}.

Definition clearAllSpecies : gset string := ∅.

Definition selectAllSpecies : gset string := list_to_set allSpeciesOptions.

(** The month shown by the date picker. *)
Record Calendar : Type := mkCalendar {
  currentMonth : Z;
  currentYear : Z
}.

Definition goToPreviousMonth (c : Calendar) : Calendar :=
  if currentMonth c =? 0 then mkCalendar 11 (currentYear c - 1)
  else mkCalendar (currentMonth c - 1) (currentYear c).

Definition goToNextMonth (c : Calendar) : Calendar :=
  if currentMonth c =? 11 then mkCalendar 0 (currentYear c + 1)
  else mkCalendar (currentMonth c + 1) (currentYear c).

(** The date range being picked, and whether the picker is shown. *)
Record DateFilter : Type := mkDateFilter {
  startDate : option Z;
  endDate : option Z;
  selectingStartDate : bool;
  showDatePicker : bool
}.

Definition setShowDatePicker (b : bool) (f : DateFilter) : DateFilter :=
  mkDateFilter (startDate f) (endDate f) (selectingStartDate f) b.

Definition setSelectingStartDate (b : bool) (f : DateFilter) : DateFilter :=
  mkDateFilter (startDate f) (endDate f) b (showDatePicker f).

Definition handleDateSelect (date : Z) (f : DateFilter) : DateFilter :=
  if selectingStartDate f
  then mkDateFilter (Some date) (endDate f) false (showDatePicker f)
  else mkDateFilter (startDate f) (Some date) (selectingStartDate f)
         (showDatePicker f).

Definition clearDateFilter (f : DateFilter) : DateFilter :=
  mkDateFilter None None true (showDatePicker f).

(** What the user can press.  The days, Clear and Apply are inside the
    picker, which is drawn only while [showDatePicker] holds. *)
Inductive DateEvent : Type :=
| PressDateButton          (* the date button under the map *)
| PressDay (date : Z)      (* a day of the calendar *)
| PressClear               (* Clear *)
| ClosePicker.             (* Apply, the cross, the backdrop, the back key *)

Definition press (f : DateFilter) (e : DateEvent) : DateFilter :=
  match e with
  | PressDateButton => setSelectingStartDate true (setShowDatePicker true f)
  | PressDay date => if showDatePicker f then handleDateSelect date f else f
  | PressClear =>
      if showDatePicker f then setShowDatePicker false (clearDateFilter f)
      else f
  | ClosePicker => setShowDatePicker false f
  end.

Definition pressAll (events : list DateEvent) (f : DateFilter) : DateFilter :=
  fold_left press events f.

(** No press of the date button among the events. *)
Definition keepsClosed (e : DateEvent) : bool :=
  match e with
  | PressDateButton => false
  | _ => true
  end.

End MapFilters.

(* ===================================================================== *)
(** ** What a reader gets back from the store                              *)
(* ===================================================================== *)

Module Firestore.

Import Js.

(** The store replaces the [serverTimestamp()] sentinel by the commit
    time when it writes; a later read sees a Timestamp.  The documents of
    this program hold the sentinel at the top level ([timestamp]) and one
    level down ([expertReview.reviewedAt]). *)
Definition resolveSentinel (commitTime : Z) (v : jsval) : jsval :=
  match v with
  | JServerTimestamp => JTimestamp commitTime
  | _ => v
  end.

Definition resolveValue (commitTime : Z) (v : jsval) : jsval :=
  match v with
  | JObj fields =>
      JObj (map (fun kv => (fst kv, resolveSentinel commitTime (snd kv))) fields)
  | _ => resolveSentinel commitTime v
  end.

Definition asRead (commitTime : Z) (data : gmap string jsval)
  : gmap string jsval :=
  resolveValue commitTime <$> data.

End Firestore.

(* ===================================================================== *)
(** ** usersScreen.tsx: the administrator's list of users                  *)
(* ===================================================================== *)

Module UsersScreen.

Import Js Io.

(** A [users/{uid}] document as the screen reads it. *)
Record UserDoc : Type := mkUserDoc {
  roleData : Roles.UserData;
  docFirstName : option string;
  docLastName : option string;
  docUsername : option string;
  docEmail : option string;
  docLocation : option string;
  docPendingExpert : option bool;
  expertRequestDeniedAt : option string
}.

(** A row of the list. *)
Record User : Type := mkUser {
  userId : string;
  firstName : string;
  lastName : string;
  username : string;
  email : string;
  location : string;
  isExpert : bool;
  isPendingExpert : bool;
  submissionCount : Z;
  avatarColor : option string
}.

Definition avatarColors : list string :=
  ["#FF6B6B"; "#4ECDC4"; "#45B7D1"; "#FFA07A"; "#98D8C8";
   "#F7DC6F"; "#BB8FCE"; "#85C1E2"; "#F8B88B"; "#AED6F1"].

(** [getDocs(query(recordings, where('userId', '==', id))).size]. *)
Definition ownedBy (id : string) (recording : gmap string jsval) : bool :=
  match recording !! "userId" with
  | Some (JStr owner) => String.eqb owner id
  | _ => false
  end.

Definition countOwned (id : string) (recordings : list (gmap string jsval)) : Z :=
  Z.of_nat (length (List.filter (ownedBy id) recordings)).

(** The row built for one document; [draw] is the [Math.random()] of
    that row. *)
Definition toUser (recordings : list (gmap string jsval)) (draw : string -> Q)
  (entry : string * UserDoc) : User :=
  let '(id, d) := entry in
  mkUser id
    (Geocoder.strOr (docFirstName d) "") (Geocoder.strOr (docLastName d) "")
    (Geocoder.strOr (docUsername d) "") (Geocoder.strOr (docEmail d) "")
    (Geocoder.strOr (docLocation d) "")
    (Roles.userIsExpert (roleData d))
    (Roles.isTrue (docPendingExpert d))
    (countOwned id recordings)
    (PredictionScreen.at_ avatarColors
       (Qfloor (draw id * inject_Z (Z.of_nat (length avatarColors))))).

Definition notAdmin (entry : string * UserDoc) : bool :=
  negb (Roles.userIsAdmin (roleData (snd entry))).

(** loadUsers, when the reads succeed: administrators are dropped, the
    rest are counted and sorted, most submissions first. *)
Definition loadUsers (docs : list (string * UserDoc))
  (recordings : list (gmap string jsval)) (draw : string -> Q) : list User :=
  Arrays.sort submissionCount
    (map (toUser recordings draw) (List.filter notAdmin docs)).

(** The filter chips and the search box. *)
Inductive FilterType : Type := all | experts | volunteers | pending.

Definition matchesSearch (searchQuery : string) (user : User) : bool :=
  let q := toLowerCase searchQuery in
  (Arrays.includes q (toLowerCase (firstName user))
   || Arrays.includes q (toLowerCase (lastName user))
   || Arrays.includes q (toLowerCase (username user))
   || Arrays.includes q (toLowerCase (email user)))%bool.

Definition shown (searchQuery : string) (filterType : FilterType) (user : User)
  : bool :=
  if negb (matchesSearch searchQuery user) then false
  else match filterType with
       | experts => isExpert user
       | volunteers => negb (isExpert user || isPendingExpert user)
       | pending => isPendingExpert user
       | all => true
       end.

Definition filteredUsers (users : list User) (searchQuery : string)
  (filterType : FilterType) : list User :=
  List.filter (shown searchQuery filterType) users.

Definition pendingCount (users : list User) : nat :=
  length (List.filter isPendingExpert users).

(** The update that handleToggleExpert sends to the store when the
    backend API is not reachable, and the patch of the local list. *)
Definition toggleExpertFallback (currentStatus : bool) (d : UserDoc) : UserDoc :=
  mkUserDoc
    (Roles.mkUserData (Some (if currentStatus then "volunteer" else "expert"))
       (Roles.isAdmin (roleData d)) (Some (negb currentStatus)))
    (docFirstName d) (docLastName d) (docUsername d) (docEmail d)
    (docLocation d) (Some false) (expertRequestDeniedAt d).

Definition setExpert (isExpert' : bool) (user : User) : User :=
  mkUser (userId user) (firstName user) (lastName user) (username user)
    (email user) (location user) isExpert' false (submissionCount user)
    (avatarColor user).

Definition toggleExpertLocal (id : string) (currentStatus : bool)
  (users : list User) : list User :=
  map (fun user => if String.eqb (userId user) id
                   then setExpert (negb currentStatus) user else user) users.

(** handleApprovePending: the fallback update. *)
Definition approvePendingFallback (d : UserDoc) : UserDoc :=
  mkUserDoc
    (Roles.mkUserData (Some "expert") (Roles.isAdmin (roleData d)) (Some true))
    (docFirstName d) (docLastName d) (docUsername d) (docEmail d)
    (docLocation d) (Some false) (expertRequestDeniedAt d).

(** handleDenyPending: only the request is cleared. *)
Definition denyPending (nowIso : string) (d : UserDoc) : UserDoc :=
  mkUserDoc (roleData d) (docFirstName d) (docLastName d) (docUsername d)
    (docEmail d) (docLocation d) (Some false) (Some nowIso).

End UsersScreen.

(* ===================================================================== *)
(** ** RegisterScreen.tsx                                                  *)
(* ===================================================================== *)

Module RegisterScreen.

Import Js Io.

Record State : Type := mkState {
  email : string;
  password : string;
  firstName : string;
  lastName : string;
  securityQ1 : string;
  securityQ2 : string;
  securityQ3 : string;
  error : string;
  loading : bool
}.

Definition setError (message : string) (st : State) : State :=
  mkState (email st) (password st) (firstName st) (lastName st)
    (securityQ1 st) (securityQ2 st) (securityQ3 st) message (loading st).

(** The end of the [try]: the message is set and [finally] clears the
    busy flag. *)
Definition finish (message : string) (st : State) : State :=
  mkState (email st) (password st) (firstName st) (lastName st)
    (securityQ1 st) (securityQ2 st) (securityQ3 st) message false.

(** The fixed role of a new account. *)
Definition role : string := "Volunteer".

(** [/^[^\s@]+@[^\s@]+\.[^\s@]+$/.test(email)]: a character that is
    neither white space nor [@]. *)
Definition plain (c : ascii) : bool :=
  (negb (isSpace c) && negb (Ascii.eqb c "@"))%bool.

Fixpoint allPlain (s : string) : bool :=
  match s with
  | EmptyString => true
  | String c rest => (plain c && allPlain rest)%bool
  end.

(** The text before the first [@] and the text after it. *)
Fixpoint splitAtSign (s : string) : option (string * string) :=
  match s with
  | EmptyString => None
  | String c rest =>
      if Ascii.eqb c "@" then Some (EmptyString, rest)
      else match splitAtSign rest with
           | Some (before, after) => Some (String c before, after)
           | None => None
           end
  end.

(** A dot with something before it and something after it. *)
Fixpoint innerDot (somethingBefore : bool) (s : string) : bool :=
  match s with
  | EmptyString => false
  | String c rest =>
      ((Ascii.eqb c "." && somethingBefore && negb (String.eqb rest ""))
       || innerDot true rest)%bool
  end.

Definition emailOk (email : string) : bool :=
  match splitAtSign email with
  | Some (name, domain) =>
      (negb (String.eqb name "") && allPlain name
       && allPlain domain && innerDot false domain)%bool
  | None => false
  end.

(** What handleRegister does outside the component. *)
Inductive Effect : Type :=
| CreateUser (email password : string)
| UpdateProfile (uid displayName : string)
| WriteUser (uid : string) (data : gmap string jsval) (accepted : bool)
| AccountCreated                     (* the alert and the route change *)
| LogRegistrationError.

(** The answers of the services: the new uid or an error code, then the
    two writes. *)
Record Env : Type := mkEnv {
  createAnswer : Result string;
  updateProfileAnswer : Result unit;
  setDocAnswer : Result unit
}.

Definition userDocument (uid : string) (st : State) : gmap string jsval :=
  let displayName := trim (trim (firstName st) ++ " " ++ trim (lastName st)) in
  list_to_map [
    ("uid", JStr uid);
    ("email", JStr (toLowerCase (trim (email st))));
    ("firstName", JStr (trim (firstName st)));
    ("lastName", JStr (trim (lastName st)));
    ("displayName", JStr displayName);
    ("role", JStr role);
    ("security", JObj [("q1", JStr (trim (securityQ1 st)));
                       ("q2", JStr (trim (securityQ2 st)));
                       ("q3", JStr (trim (securityQ3 st)))]);
    ("createdAt", JServerTimestamp);
    ("updatedAt", JServerTimestamp)
  ].

(** The message for an error code. *)
Definition errorMessage (code : string) : string :=
  if String.eqb code "auth/weak-password" then "Password is too weak."
  else if String.eqb code "auth/invalid-email" then "Email address is invalid."
  else if String.eqb code "auth/email-already-in-use"
       then "Email is already in use."
  else "Could not create account.".

Definition isEmpty (s : string) : bool := String.eqb s "".

(** handleRegister.  [password.length] counts UTF-16 code units. *)
Definition handleRegister (env : Env) (st : State) : State * list Effect :=
  if (isEmpty (email st) || isEmpty (password st) || isEmpty (firstName st)
      || isEmpty (lastName st) || isEmpty (securityQ1 st)
      || isEmpty (securityQ2 st) || isEmpty (securityQ3 st))%bool
  then (setError "Please fill out all fields." st, [])
  else if (Text.length (password st) <? 6)%nat
  then (setError "Password must be at least 6 characters." st, [])
  else if negb (emailOk (email st))
  then (setError "Please enter a valid email." st, [])
  else
    let create := CreateUser (trim (email st)) (password st) in
    match createAnswer env with
    | Err code => (finish (errorMessage code) st, [create; LogRegistrationError])
    | Ok uid =>
        let displayName :=
          trim (trim (firstName st) ++ " " ++ trim (lastName st)) in
        let update := UpdateProfile uid displayName in
        match updateProfileAnswer env with
        | Err code =>
            (finish (errorMessage code) st,
             [create; update; LogRegistrationError])
        | Ok _ =>
            match setDocAnswer env with
            | Err code =>
                (finish (errorMessage code) st,
                 [create; update; WriteUser uid (userDocument uid st) false;
                  LogRegistrationError])
            | Ok _ =>
                (finish "" st,
                 [create; update; WriteUser uid (userDocument uid st) true;
                  AccountCreated])
            end
        end
    end.

(** No character of the text is white space. *)
Definition noSpaces (s : string) : Prop :=
  forall c, In c (list_ascii_of_string s) -> isSpace c = false.

(** Every field filled in, a password of six code units or more and an
    accepted address. *)
Definition validForm (st : State) : Prop :=
  email st <> "" /\ password st <> "" /\ firstName st <> ""
  /\ lastName st <> "" /\ securityQ1 st <> "" /\ securityQ2 st <> ""
  /\ securityQ3 st <> ""
  /\ (6 <= Text.length (password st))%nat
  /\ emailOk (email st) = true.

(** A users document read the way the role resolution reads it. *)
Definition userDataOf (data : gmap string jsval) : Roles.UserData :=
  Roles.mkUserData
    (match data !! "role" with Some (JStr s) => Some s | _ => None end)
    (match data !! "isAdmin" with Some (JBool b) => Some b | _ => None end)
    (match data !! "isExpert" with Some (JBool b) => Some b | _ => None end).

End RegisterScreen.

(* ===================================================================== *)
(** ** recordScreen.tsx: the timer of a recording                          *)
(* ===================================================================== *)

Module RecordScreen.

Definition MAX_RECORD_SECONDS : Z := 10.
Definition MAX_MS : Z := MAX_RECORD_SECONDS * 1000.

(** The status callback of a running recording: the whole seconds shown
    and the fill of the progress bar, from [st?.durationMillis]. *)
Definition duration (durationMillis : option Q) : Q :=
  Qmax 0 (match durationMillis with Some d => d | None => 0 end).

Definition timerOf (durationMillis : option Q) : Z :=
  Z.min MAX_RECORD_SECONDS (Qfloor (duration durationMillis / 1000)).

Definition progressOf (durationMillis : option Q) : Q :=
  Qmin 1 (duration durationMillis / inject_Z MAX_MS).

End RecordScreen.

(* ===================================================================== *)
(** ** getHomeScreen: the way back to the home screen                      *)
(* ===================================================================== *)

Module Navigation.

Import Io.

(** [userDoc.data() || {}]. *)
Definition dataOrEmpty (data : option Roles.UserData) : Roles.UserData :=
  match data with
  | Some u => u
  | None => Roles.mkUserData None None None
  end.

(** getHomeScreen as the history, record, map and users screens each
    define it.  [profile] is [None] without a signed-in user, otherwise
    the outcome of reading the user's document.  [fallback] is the route
    returned without a user and when the read throws. *)
Definition getHomeScreen (fallback : Roles.Route)
  (profile : option (Result (option Roles.UserData))) : Roles.Route :=
  match profile with
  | None => fallback
  | Some (Err _) => fallback
  | Some (Ok data) =>
      let userData := dataOrEmpty data in
      if Roles.userIsAdmin userData then Roles.adminHomeScreen
      else if Roles.userIsExpert userData then Roles.expertHomeScreen
      else Roles.volunteerHomeScreen
  end.

(** predictionScreen.tsx (history and record screens) and the map screen. *)
Definition historyHome := getHomeScreen Roles.volunteerHomeScreen.

(** usersScreen.tsx. *)
Definition usersHome := getHomeScreen Roles.adminHomeScreen.

End Navigation.

(* ===================================================================== *)
(** ** expertHomeScreen.tsx: the review counters                           *)
(* ===================================================================== *)

Module ExpertHomeScreen.

Import Js Io.

Record State : Type := mkState {
  pendingReviews : Z;
  approvedCount : Z;
  discardedCount : Z
}.

(** The reads that loadReviewCounts makes. *)
Inductive Query : Type :=
| ReadProfile
| CountWhere (status : string).

(** The answers of the store: the user's document and, for a status,
    the number of recordings that carry it. *)
Record Env : Type := mkEnv {
  profile : Result (option Roles.UserData);
  count : string -> Result Z
}.

(** loadReviewCounts.  A count is a whole number, on which [count || 0]
    changes nothing. *)
Definition loadReviewCounts (signedIn : bool) (env : Env) (st : State)
  : State * list Query :=
  if negb signedIn then (mkState 0 0 0, [])
  else
    match profile env with
    | Err _ => (st, [ReadProfile])
    | Ok data =>
        let userData := Navigation.dataOrEmpty data in
        let isExpert := Roles.userIsExpert userData in
        let isAdmin := Roles.userIsAdmin userData in
        if (negb isExpert && negb isAdmin)%bool then (st, [ReadProfile])
        else
          match count env "needs_review" with
          | Err _ => (st, [ReadProfile; CountWhere "needs_review"])
          | Ok needsReview =>
              match count env "approved" with
              | Err _ =>
                  (st, [ReadProfile; CountWhere "needs_review";
                        CountWhere "approved"])
              | Ok approved =>
                  match count env "discarded" with
                  | Err _ =>
                      (st, [ReadProfile; CountWhere "needs_review";
                            CountWhere "approved"; CountWhere "discarded"])
                  | Ok discarded =>
                      (mkState needsReview approved discarded,
                       [ReadProfile; CountWhere "needs_review";
                        CountWhere "approved"; CountWhere "discarded"])
                  end
              end
          end
    end.

(** [where("status", "==", status)] on the recordings of the store. *)
Definition hasStatus (status : string) (recording : gmap string jsval) : bool :=
  match recording !! "status" with
  | Some (JStr s) => String.eqb s status
  | _ => false
  end.

Definition countOnServer (recordings : list (gmap string jsval))
  (status : string) : Result Z :=
  Ok (Z.of_nat (length (List.filter (hasStatus status) recordings))).

End ExpertHomeScreen.

(* ===================================================================== *)
(** ** Sample data                                                        *)
(* ===================================================================== *)

Module Examples.

Import Js Io Projection.

(** A recording that an expert approved: one history entry, a review. *)
Definition approvedDoc : gmap string jsval :=
  list_to_map [
    ("recordingId", JStr "r1");
    ("userId", JStr "vol1");
    ("predictedSpecies", JStr "Bullfrog");
    ("species", JStr "");
    ("confidenceScore", JNum (82 # 100));
    ("notes", JStr "");
    ("status", JStr "approved");
    ("history", JArr [JObj [("action", JStr "submitted");
                            ("actorId", JStr "vol1");
                            ("timestamp", JStr "2025-05-01T20:15:00.000Z")]]);
    ("expertReview", JObj [("species", JStr "Bullfrog");
                           ("confidence", JNum (82 # 100));
                           ("reviewer", JObj [("uid", JStr "expert7")]);
                           ("reviewedAt", JTimestamp 1746133200000)])
  ].


(** The owner edits it on the history screen: species, confidence 60,
    a note. *)
Definition historyEdit : HistoryScreen.State :=
  HistoryScreen.mkState [] (Some "r1") "Green Frog" "60" "heard twice" false.

(** The row of r1 on the map, and an edit of it there. *)
Definition approvedRow : Recording :=
  mkRecording (JStr "r1") (JStr "vol1") (JStr "Bullfrog") (JStr "")
    None None (423314 # 10000) (-830458 # 10000) (JStr "Detroit, Michigan")
    (JStr "approved") (JStr "5/1/2025") (Some 1746130500000)
    (Some (Finite 82)) (Some (JStr "high")) (JStr "") (JStr "Ann")
    (Some 1) (JStr "Bullfrog") (Some (Finite 82)).


(** Two points a few metres apart in Detroit, and what the geocoder
    says about them. *)
Definition detroit : Geocoder.Answer :=
  Geocoder.Json
    (Some (Geocoder.mkAddress (Some "Detroit") None None (Some "Michigan"))).

Definition pointA : Q * Q := (423314 # 10000, -830458 # 10000).
Definition pointB : Q * Q := (423312 # 10000, -830461 # 10000).

(** A backend that never answers on either endpoint. *)
Definition silentServer (url : string) : PredictionScreen.Server :=
  PredictionScreen.mkServer None (inl (PredictionScreen.NetworkError "")).

(** An expert submits a clip with the expert box ticked. *)
Definition expertDraft : PredictionScreen.State :=
  PredictionScreen.mkState "file:///cache/clip.wav" (Some (423314 # 10000))
    (Some (-830458 # 10000)) "Bullfrog" "by the pond"
    [PredictionScreen.mkTopItem "Bullfrog" 82;
     PredictionScreen.mkTopItem "Green Frog" 11]
    (Some "expert") true "high" false false.

Definition expertUser : PredictionScreen.AuthUser :=
  PredictionScreen.mkAuthUser "expert7" None (Some "e7@example.org").

Definition goodDay : PredictionScreen.SubmitEnv :=
  PredictionScreen.mkSubmitEnv (Some expertUser) (Ok "token")
    (Some (PredictionScreen.mkProfile (Some "Eve") (Some "Stone") None))
    (Ok true) (Some "frogwatch.appspot.com") (Ok 200)
    1746130500000 424242 "r2" "2025-05-01T20:15:00.000Z" (Ok tt).

(** A day on which nothing answers. *)
Definition badDay : PredictionScreen.SubmitEnv :=
  PredictionScreen.mkSubmitEnv None (Err "offline") None (Err "offline") None
    (Err "offline") 0 0 "r3" "" (Err "offline").

End Examples.

(* ===================================================================== *)
(** ** Proof automation                                                   *)
(* ===================================================================== *)

(** Lookups in a map written as a literal. *)
Ltac literal_lookup :=
  repeat first
    [ rewrite list_to_map_cons
    | rewrite list_to_map_nil
    | rewrite lookup_insert_eq
    | rewrite lookup_insert_ne by (first [discriminate | congruence])
    | rewrite lookup_empty ];
  try reflexivity.

(* ===================================================================== *)
(** * Properties                                                          *)
(* ===================================================================== *)

(** ** Role resolution *)

Section RoleFacts.

Import Roles.

Lemma roleStr_userRole (u : UserData) : roleStr u = userRole u.
Proof. unfold roleStr, userRole. destruct (role u); reflexivity. Qed.

(** The users screen and the login screen agree on who is an
    administrator and who is an expert. *)
Lemma userIsAdmin_handleLogin (u : UserData) :
  userIsAdmin u = true <-> handleLogin u = adminHomeScreen.
Proof.
  unfold userIsAdmin, handleLogin. rewrite roleStr_userRole.
  destruct (isTrue (isAdmin u) || String.eqb (userRole u) "admin")%bool;
    [tauto|].
  split; [discriminate|].
  destruct (isTrue (isExpert u) || String.eqb (userRole u) "expert")%bool;
    discriminate.
Qed.

Lemma higher_admin_l (r : Role) : higher admin r = admin.
Proof. destruct r; reflexivity. Qed.

Lemma higher_admin_r (r : Role) : higher r admin = admin.
Proof. destruct r; reflexivity. Qed.

Lemma userIsExpert_handleLogin (u : UserData) :
  userIsAdmin u = false ->
  (userIsExpert u = true <-> handleLogin u = expertHomeScreen).
Proof.
  unfold userIsAdmin, userIsExpert, handleLogin. rewrite roleStr_userRole.
  intros ->.
  destruct (isTrue (isExpert u) || String.eqb (userRole u) "expert")%bool;
    [tauto|]. split; discriminate.
Qed.

(** C1, as the code resolves the role: the resolved role is the higher
    of the role named by the explicit role string and the role derived
    from the legacy flags, in the order volunteer < expert < admin, so a
    flag that is true is never overridden by the role string; the users
    screen decides who is an administrator and who is an expert in the
    same way. *)
Theorem resolveRole_higher_of_both (u : UserData) :
  resolveRole u = higher (legacyRole u) (enumRoleOf u)
  /\ (userIsAdmin u = true <-> resolveRole u = admin)
  /\ (userIsAdmin u = false ->
      (userIsExpert u = true <-> resolveRole u = expert)).
Proof.
  split; [|split].
  - unfold resolveRole, handleLogin, legacyRole, enumRoleOf, enumRole, userRole.
    destruct (isTrue (isAdmin u)); cbn [orb].
    + now rewrite higher_admin_l.
    + destruct (role u) as [s|]; cbn.
      * destruct (String.eqb (Js.toLowerCase s) "admin").
        -- now rewrite higher_admin_r.
        -- destruct (isTrue (isExpert u)),
             (String.eqb (Js.toLowerCase s) "expert"); reflexivity.
      * destruct (isTrue (isExpert u)); reflexivity.
  - rewrite userIsAdmin_handleLogin. unfold resolveRole.
    destruct (handleLogin u); cbn; split; congruence.
  - intros H. rewrite (userIsExpert_handleLogin u H). unfold resolveRole.
    destruct (handleLogin u); cbn; split; congruence.
Qed.

Lemma resolveRole_higher_of_both_witness :
  resolveRole (mkUserData (Some "Expert") None (Some false)) = expert.
Proof.
  rewrite (proj1 (resolveRole_higher_of_both
                    (mkUserData (Some "Expert") None (Some false)))).
  reflexivity.
Defined.

(** C1, as stated, fails: role = 'volunteer' with isAdmin = true (and
    isExpert = false) resolves to admin, not to the role the enum names. *)
Lemma enum_does_not_take_precedence :
  ~ (forall (u : UserData) (s : string),
        role u = Some s -> is_Some (isAdmin u) -> is_Some (isExpert u) ->
        resolveRole u = enumRole s).
Proof.
  intros claim.
  specialize (claim (mkUserData (Some "volunteer") (Some true) (Some false))
                    "volunteer" eq_refl).
  cbn in claim. discriminate claim; eauto.
Qed.

End RoleFacts.

(** ** Confidence normalisation *)

Section ConfidenceFacts.

Import Confidence.
Local Open Scope Q_scope.






End ConfidenceFacts.

(** ** The species and date filter of the map *)

Section FilterFacts.

Import Projection MapHistoryScreen.

Lemma keeps_no_species (endOfDay : Z -> Z) (startDate endDate : option Z)
  (rec : Recording) :
  keeps endOfDay ∅ startDate endDate rec
  = inDateRange endOfDay startDate endDate rec.
Proof.
  unfold keeps, inDateRange. rewrite size_empty. cbn [Nat.ltb Nat.leb andb].
  destruct (timestamp rec) as [t|]; [|destruct startDate, endDate; reflexivity].
  destruct startDate as [start|], endDate as [e|]; cbn [andb];
    repeat match goal with
           | |- context [(?a <? ?b)] => destruct (Z.ltb_spec a b)
           | |- context [(?a <=? ?b)] => destruct (Z.leb_spec a b)
           end; cbn [andb]; solve [reflexivity | lia].
Qed.

(** C9: with an empty species allow-set the filter returns exactly the
    recordings that the date criteria alone select, whatever the
    collection and the date range. *)
Theorem empty_species_set_matches_all (endOfDay : Z -> Z)
  (recordings : list Recording) (startDate endDate : option Z) :
  filteredRecordings endOfDay recordings ∅ startDate endDate
  = matchAllSpecies endOfDay recordings startDate endDate.
Proof.
  unfold filteredRecordings, matchAllSpecies.
  induction recordings as [|rec rest IH]; [reflexivity|].
  cbn [List.filter]. rewrite keeps_no_species, IH. reflexivity.
Qed.

End FilterFacts.

(** ** Edits of a stored recording *)

Section StoreFacts.

Import Js Io.



End StoreFacts.

Section ResubmitFacts.

Import Js Io Handler Projection HistoryScreen.



Lemma resubmitUpdates_status (st : State) :
  resubmitUpdates st !! "status" = Some (JStr "needs_review").
Proof.
  unfold resubmitUpdates.
  destruct (parseInt (editConfidence st)),
    (negb (String.eqb (editConfidence st) "")); literal_lookup.
Qed.

Lemma resubmitUpdates_species (st : State) :
  resubmitUpdates st !! "species" = Some (JStr (editSpecies st))
  /\ resubmitUpdates st !! "predictedSpecies" = Some (JStr (editSpecies st))
  /\ resubmitUpdates st !! "notes" = Some (JStr (editNotes st)).
Proof.
  unfold resubmitUpdates.
  destruct (parseInt (editConfidence st)),
    (negb (String.eqb (editConfidence st) "")); repeat split; literal_lookup.
Qed.

Lemma resubmitUpdates_confidence (st : State) :
  resubmitUpdates st !! "confidenceScore"
  = match parseInt (editConfidence st) with
    | Some n =>
        if String.eqb (editConfidence st) "" then None
        else Some (JNum (inject_Z n / 100))
    | None => None
    end.
Proof.
  unfold resubmitUpdates.
  destruct (parseInt (editConfidence st)),
    (String.eqb (editConfidence st) ""); cbn [negb]; literal_lookup.
Qed.





End ResubmitFacts.

(** ** Saving an edit from the map *)

Section MapEditFacts.

Import Js Io Handler Projection.
Import MapHistoryScreen.






End MapEditFacts.

(** ** Submitting a recording *)

Section SubmitFacts.

Import Js Io Handler Projection PredictionScreen.

Lemma eqb_empty_false (s : string) : s <> "" -> String.eqb s "" = false.
Proof. intros H. now apply String.eqb_neq. Qed.

(** The run of a submit that goes through. *)
Lemma handleSubmit_run (st : State) (env : SubmitEnv) (user : AuthUser)
  (idToken bucket : string) (httpStatus : Z) :
  Accepted st env user idToken bucket httpStatus ->
  run (handleSubmit env) st
  = (setSubmitting false (setHasSubmitted true (setSubmitting true st)),
     [GetIdToken (uid user); GetUserProfile (uid user);
      GetInfoAsync (audioUri st);
      UploadAsync bucket (filePathOf st env user) (audioUri st)
        (guessMime (audioUri st)) idToken;
      SetDoc "recordings" (newRecordingId env)
        (if selfApproves st then approvedData st env user
         else needsReviewData st env user) true;
      Alert "Submitted"
        (if selfApproves st
         then "Your recording was saved and approved as an expert submission."
         else "Your recording was saved")]).
Proof.
  intros [H1 H2 H3 H4 H5 H6 H7 H8 H9 H10 H11].
  unfold run, handleSubmit, bind, get.
  rewrite H1, H2, (eqb_empty_false _ H3), (eqb_empty_false _ H4).
  unfold tryCatchFinally, submitBody, bind, get, modify, await, emit.
  rewrite H5, H6, H7, H8, H9. cbn [negb].
  replace ((httpStatus <? 200) || (300 <=? httpStatus))%bool with false
    by (symmetry; apply orb_false_iff;
        split; [apply Z.ltb_ge|apply Z.leb_gt]; lia).
  cbn [submitAsExpert role setSubmitting].
  unfold selfApproves, awaitSetDoc, emit. rewrite H11.
  destruct (submitAsExpert st && isExpertRole (role st))%bool; reflexivity.
Qed.

(** A run that creates a document is a run that went through. *)
Lemma handleSubmit_creates (st : State) (env : SubmitEnv) :
  created (snd (run (handleSubmit env) st)) <> [] ->
  exists user idToken bucket httpStatus,
    Accepted st env user idToken bucket httpStatus.
Proof.
  unfold run, handleSubmit, bind, get.
  destruct (hasSubmitted st) eqn:H1; [intros H; now destruct H|].
  destruct (submitting st) eqn:H2; [intros H; now destruct H|].
  destruct (String.eqb (volunteerConfidence st) "") eqn:H3;
    [intros H; now destruct H|].
  destruct (String.eqb (audioUri st) "") eqn:H4; [intros H; now destruct H|].
  unfold tryCatchFinally, submitBody, bind, get, modify, await, emit, throw, exit.
  destruct (currentUser env) as [user|] eqn:H5; [|intros H; now destruct H].
  destruct (idTokenAnswer env) as [idToken|] eqn:H6; [|intros H; now destruct H].
  destruct (infoAnswer env) as [[|]|] eqn:H7; cbn [negb];
    [|intros H; now destruct H..].
  destruct (storageBucket env) as [bucket|] eqn:H8; [|intros H; now destruct H].
  destruct (uploadAnswer env) as [httpStatus|] eqn:H9; [|intros H; now destruct H].
  destruct ((httpStatus <? 200) || (300 <=? httpStatus))%bool eqn:H10;
    [intros H; now destruct H|].
  destruct (setDocAnswer env) as [[]|] eqn:H11.
  - intros _. exists user, idToken, bucket, httpStatus.
    apply orb_false_iff in H10. destruct H10 as [Ha Hb].
    apply Z.ltb_ge in Ha. apply Z.leb_gt in Hb.
    apply String.eqb_neq in H3. apply String.eqb_neq in H4.
    constructor; auto; lia.
  - unfold awaitSetDoc, bind, emit, throw.
    destruct (submitAsExpert _ && isExpertRole _)%bool; intros H; now destruct H.
Qed.

Lemma approvedData_status (st : State) (env : SubmitEnv) (user : AuthUser) :
  approvedData st env user !! "status" = Some (JStr "approved").
Proof. unfold approvedData. literal_lookup. Qed.

Lemma needsReviewData_status (st : State) (env : SubmitEnv) (user : AuthUser) :
  needsReviewData st env user !! "status" = Some (JStr "needs_review").
Proof. unfold needsReviewData. literal_lookup. Qed.

Lemma approvedData_reviewer (st : State) (env : SubmitEnv) (user : AuthUser) :
  reviewerOf (approvedData st env user) = Some (JStr (uid user)).
Proof. unfold reviewerOf, approvedData. literal_lookup. Qed.

Lemma baseDocOf_userId (st : State) (env : SubmitEnv) (user : AuthUser) :
  baseDocOf st env user !! "userId" = Some (JStr (uid user)).
Proof. unfold baseDocOf, baseDoc. literal_lookup. Qed.

Lemma approvedData_userId (st : State) (env : SubmitEnv) (user : AuthUser) :
  approvedData st env user !! "userId" = Some (JStr (uid user)).
Proof.
  unfold approvedData.
  rewrite !lookup_insert_ne by discriminate. apply baseDocOf_userId.
Qed.

(** The role the screen holds is the role string of the profile as it is
    stored, volunteer when there is none; the legacy flags are not read
    here. *)
Lemma fetchRole_reads_role_string (u : Roles.UserData) (st : State) :
  role (fetchRole true (Ok (Some u)) st)
  = Some (match Roles.role u with Some x => x | None => "volunteer" end).
Proof. reflexivity. Qed.





Lemma goodDay_accepted :
  Accepted Examples.expertDraft Examples.goodDay Examples.expertUser
    "token" "frogwatch.appspot.com" 200.
Proof. constructor; try reflexivity; try discriminate; lia. Qed.



(** ** A draft is submitted once *)

Lemma handleSubmit_again (st : State) (env : SubmitEnv) :
  hasSubmitted st = true ->
  run (handleSubmit env) st = (st, [alreadySubmitted]).
Proof.
  intros H. unfold run, handleSubmit, bind, get. rewrite H. reflexivity.
Qed.

Lemma submitAll_again (envs : list SubmitEnv) (st : State) :
  hasSubmitted st = true ->
  submitAll envs st = (st, repeat alreadySubmitted (length envs)).
Proof.
  intros H. induction envs as [|env rest IH]; [reflexivity|].
  cbn [submitAll]. rewrite (handleSubmit_again st env H), IH. reflexivity.
Qed.

Lemma finalStore_alerts (store : Store) (n : nat) :
  finalStore store (repeat alreadySubmitted n) = store.
Proof. induction n as [|n IH]; [reflexivity|exact IH]. Qed.

(** C6: once a submit of a draft has created its recording, every later
    submit on that screen, whatever the world would have answered, ends at
    the first guard: its whole trace is the "already submitted" alert, so
    no call leaves the device, nothing is uploaded or created, and the
    screen state and the store stay as they were. *)
Theorem later_submits_are_refused_locally (st : State) (env : SubmitEnv)
  (envs : list SubmitEnv) (store : Store) :
  created (snd (run (handleSubmit env) st)) <> [] ->
  let st1 := fst (run (handleSubmit env) st) in
  let later := submitAll envs st1 in
  snd later = repeat alreadySubmitted (length envs)
  /\ List.filter isExternalCall (snd later) = []
  /\ created (snd later) = []
  /\ finalStore store (snd later) = store
  /\ fst later = st1.
Proof.
  intros Hcreated st1 later.
  destruct (handleSubmit_creates st env Hcreated)
    as (user & idToken & bucket & httpStatus & Hacc).
  assert (Hsub : hasSubmitted st1 = true).
  { subst st1. rewrite (handleSubmit_run _ _ _ _ _ _ Hacc). reflexivity. }
  subst later. rewrite (submitAll_again envs st1 Hsub). cbn [fst snd].
  split; [reflexivity|].
  split; [induction envs as [|e rest IH]; [reflexivity|exact IH]|].
  split; [induction envs as [|e rest IH]; [reflexivity|exact IH]|].
  split; [apply finalStore_alerts|reflexivity].
Qed.

Lemma later_submits_are_refused_locally_witness :
  snd (submitAll [Examples.goodDay; Examples.badDay]
         (fst (run (handleSubmit Examples.goodDay) Examples.expertDraft)))
  = [alreadySubmitted; alreadySubmitted].
Proof.
  apply (later_submits_are_refused_locally Examples.expertDraft
           Examples.goodDay [Examples.goodDay; Examples.badDay] ∅).
  rewrite (handleSubmit_run _ _ _ _ _ _ goodDay_accepted).
  discriminate.
Defined.

End SubmitFacts.

(** ** The status a view shows *)

Section StatusFacts.

Import Js Io Handler Projection PredictionScreen.

Lemma knownStatus_spec (v : jsval) :
  knownStatus v = true
  <-> v = JStr "needs_review" \/ v = JStr "approved" \/ v = JStr "discarded".
Proof.
  split.
  - destruct v as [| | |s| | | |]; cbn; try discriminate.
    destruct (String.eqb_spec s "needs_review") as [->|_]; [now left|].
    destruct (String.eqb_spec s "approved") as [->|_]; [now right; left|].
    destruct (String.eqb_spec s "discarded") as [->|_]; [now right; right|].
    discriminate.
  - intros [-> | [-> | ->]]; reflexivity.
Qed.

Lemma getStatusLabel_known (v : jsval) :
  knownStatus v = true <-> HistoryScreen.getStatusLabel v <> "Processing".
Proof.
  split.
  - intros H. apply knownStatus_spec in H.
    destruct H as [-> | [-> | ->]]; discriminate.
  - destruct v as [| | |s| | | |]; cbn; try congruence.
    destruct (String.eqb s "approved"), (String.eqb s "needs_review"),
      (String.eqb s "discarded"); cbn; congruence.
Qed.

Lemma created_by_submit (st : State) (env : SubmitEnv) (id : string)
  (data : gmap string jsval) :
  In (id, data) (created (snd (run (handleSubmit env) st))) ->
  exists user,
    data = (if selfApproves st then approvedData st env user
            else needsReviewData st env user).
Proof.
  intros Hin.
  assert (Hne : created (snd (run (handleSubmit env) st)) <> [])
    by (intros E; rewrite E in Hin; destruct Hin).
  destruct (handleSubmit_creates st env Hne)
    as (user & idToken & bucket & httpStatus & Hacc).
  rewrite (handleSubmit_run _ _ _ _ _ _ Hacc) in Hin.
  cbn [snd] in Hin. unfold created in Hin. cbn [flat_map app In] in Hin.
  destruct Hin as [E|[]]. exists user. now inversion E.
Qed.

Lemma statusBadgeText_known (v : jsval) :
  knownStatus v = true <-> UserRecordings.statusBadgeText v <> v.
Proof.
  split.
  - intros H. apply knownStatus_spec in H.
    destruct H as [-> | [-> | ->]]; discriminate.
  - destruct v as [| | |s| | | |]; cbn; try congruence.
    destruct (String.eqb s "approved"), (String.eqb s "needs_review"),
      (String.eqb s "discarded"); cbn; congruence.
Qed.

(** C5, as the views project a recording.  parseRecording and the
    snapshot handlers of the history and the map screen show the status
    the document stores, and pending_analysis when it stores none (absent
    or null); the users screen shows the stored status when it is truthy
    and pending otherwise.  Neither default is one of needs_review,
    approved and discarded.  The history screen labels every value outside
    these three Processing; the users screen shows such a value as it is.
    Every recording this client creates is shown in each view with status
    needs_review or approved, and one created approved carries a reviewer
    identity equal to its submitter. *)
Theorem projected_status_follows_document
  (toLocaleDateString : Z -> string) (now : Z)
  (Number_ : option jsval -> option Q) (String_ : option jsval -> string) :
  let parse :=
    DataContext.parseRecording toLocaleDateString now Number_ String_ in
  (forall docId data v,
      data !! "status" = Some v -> v <> JNull ->
      Projection.status (parse docId data) = v)
  /\ (forall docId data,
        data !! "status" = None \/ data !! "status" = Some JNull ->
        Projection.status (parse docId data) = JStr "pending_analysis"
        /\ knownStatus (Projection.status (parse docId data)) = false
        /\ HistoryScreen.getStatusLabel (Projection.status (parse docId data))
           = "Processing")
  /\ (forall v, knownStatus v = true
                <-> HistoryScreen.getStatusLabel v <> "Processing")
  /\ (forall st env id data,
        In (id, data) (created (snd (run (handleSubmit env) st))) ->
        (Projection.status (parse id data) = JStr "needs_review"
         \/ Projection.status (parse id data) = JStr "approved")
        /\ UserRecordings.statusOf data = Projection.status (parse id data)
        /\ (Projection.status (parse id data) = JStr "approved" ->
            exists submitter,
              reviewerOf data = Some (JStr submitter)
              /\ data !! "userId" = Some (JStr submitter)))
  /\ (forall docId data,
        Projection.statusOf data = Projection.status (parse docId data))
  /\ (forall data v,
        data !! "status" = Some v -> truthy (Some v) = true ->
        UserRecordings.statusOf data = v)
  /\ (forall data,
        truthy (data !! "status") = false ->
        UserRecordings.statusOf data = JStr "pending"
        /\ knownStatus (UserRecordings.statusOf data) = false
        /\ UserRecordings.statusBadgeText (UserRecordings.statusOf data)
           = JStr "pending")
  /\ (forall v, knownStatus v = true
                <-> UserRecordings.statusBadgeText v <> v).
Proof.
  intros parse. subst parse.
  split; [|split; [|split; [|split; [|split; [|split; [|split]]]]]].
  - intros docId data v Hv Hnull. cbn. unfold statusOf. rewrite Hv.
    destruct v; try reflexivity. now destruct Hnull.
  - intros docId data H. cbn. unfold statusOf.
    destruct H as [-> | ->]; repeat split; reflexivity.
  - exact getStatusLabel_known.
  - intros st env id data Hin.
    destruct (created_by_submit st env id data Hin) as (user & ->).
    cbn [Projection.status DataContext.parseRecording].
    unfold statusOf, UserRecordings.statusOf.
    destruct (selfApproves st).
    + rewrite approvedData_status. cbn. split; [now right|].
      split; [reflexivity|].
      intros _. exists (uid user).
      split; [apply approvedData_reviewer|apply approvedData_userId].
    + rewrite needsReviewData_status. cbn. split; [now left|].
      split; [reflexivity|]. discriminate.
  - reflexivity.
  - intros data v Hv Htruthy. unfold UserRecordings.statusOf, orElse.
    rewrite Hv, Htruthy. reflexivity.
  - intros data Hfalsy. unfold UserRecordings.statusOf, orElse.
    rewrite Hfalsy. repeat split; reflexivity.
  - exact statusBadgeText_known.
Qed.

End StatusFacts.

Lemma projected_status_follows_document_witness :
  Projection.status
    (DataContext.parseRecording (fun _ => "5/1/2025") 0 (fun _ => None)
       (fun _ => "") "r1" Examples.approvedDoc)
  = Js.JStr "approved".
Proof.
  apply (proj1 (projected_status_follows_document
                  (fun _ => "5/1/2025") 0 (fun _ => None) (fun _ => "")));
    [reflexivity|discriminate].
Defined.

(** C5, as stated, fails: a document that stores no status is projected
    with status pending_analysis, which is none of the three. *)
Lemma projected_status_can_be_a_fourth_value :
  ~ (forall (toLocaleDateString : Z -> string) (now : Z)
            (Number_ : option Js.jsval -> option Q)
            (String_ : option Js.jsval -> string)
            (docId : string) (data : gmap string Js.jsval),
        Projection.knownStatus
          (Projection.status
             (DataContext.parseRecording toLocaleDateString now Number_
                String_ docId data)) = true).
Proof.
  intros claim.
  specialize (claim (fun _ => "") 0 (fun _ => None) (fun _ => "") "r9"
                    {[ "userId" := Js.JStr "vol1" ]}).
  vm_compute in claim. discriminate claim.
Qed.

(** ** The geocode cache *)

Section GeocodeFacts.

Import Js Io Geocoder HistoryScreen.

Lemma strOr_nonempty (a : option string) (b : string) :
  b <> "" -> strOr a b <> "".
Proof.
  intros Hb. unfold strOr, orStr.
  destruct a as [[|c x]|]; [exact Hb|discriminate|exact Hb].
Qed.

Lemma append_nonempty (x y : string) : x <> "" -> (x ++ y)%string <> "".
Proof. destruct x; [congruence|discriminate]. Qed.

Lemma placeName_nonempty (address : option Address) : placeName address <> "".
Proof.
  unfold placeName.
  match goal with
  | |- (if _ then (?c ++ _)%string else _) <> _ =>
      assert (Hc : c <> "") by (apply strOr_nonempty; discriminate)
  end.
  destruct (negb _); [now apply append_nonempty|exact Hc].
Qed.

Lemma cached_insert (cache : gmap string string) (key v : string) :
  v <> "" -> cached (<[key := v]> cache) key = Some v.
Proof.
  intros Hv. unfold cached. rewrite lookup_insert_eq.
  destruct v; [congruence|reflexivity].
Qed.

(** A call on a cached key: no request, the cached name. *)
Lemma getCityFromCoords_hit (cache : gmap string string) (lat lon : Q)
  (answer : Answer) (v : string) :
  cached cache (cacheKey lat lon) = Some v ->
  getCityFromCoords cache lat lon answer = (v, cache, []).
Proof. intros H. unfold getCityFromCoords. now rewrite H. Qed.

Lemma getCityFromCoords_miss (cache : gmap string string) (lat lon : Q)
  (address : option Address) :
  cached cache (cacheKey lat lon) = None ->
  getCityFromCoords cache lat lon (Json address)
  = (placeName address, <[cacheKey lat lon := placeName address]> cache,
     [ReverseGeocode lat lon]).
Proof. intros H. unfold getCityFromCoords. now rewrite H. Qed.

Lemma getCityFromCoords_fail (cache : gmap string string) (lat lon : Q) :
  cached cache (cacheKey lat lon) = None ->
  getCityFromCoords cache lat lon Fails
  = ("Unknown Location", cache, [ReverseGeocode lat lon]).
Proof. intros H. unfold getCityFromCoords. now rewrite H. Qed.

(** C7, as the code memoizes: on the history and the map screen, of two
    calls one after the other whose coordinates give the same key, the
    second makes no request and returns the name of the first whenever the
    key was cached already or the first request was answered, so that at
    most one request is made; when the key is not cached and the request
    fails, the call returns "Unknown Location" and leaves the cache as it
    was, and the next call with that key makes a fresh request.  The
    getCityFromCoords of the prediction screen has no cache: each call
    makes one request, and it too returns "Unknown Location" on failure. *)
Theorem geocode_cache_answers_after_success (cache : gmap string string)
  (lat1 lon1 lat2 lon2 : Q) (answer1 answer2 : Answer) :
  cacheKey lat1 lon1 = cacheKey lat2 lon2 ->
  let first := getCityFromCoords cache lat1 lon1 answer1 in
  let second := getCityFromCoords (snd (fst first)) lat2 lon2 answer2 in
  (answer1 <> Fails \/ is_Some (cached cache (cacheKey lat1 lon1)) ->
   snd second = []
   /\ fst (fst second) = fst (fst first)
   /\ (geocoderRequests (snd first ++ snd second) <= 1)%nat)
  /\ (answer1 = Fails -> cached cache (cacheKey lat1 lon1) = None ->
      fst (fst first) = "Unknown Location"
      /\ snd (fst first) = cache
      /\ snd second = [ReverseGeocode lat2 lon2])
  /\ (forall lat lon answer,
        geocoderRequests
          (snd (PredictionScreen.getCityFromCoords lat lon answer)) = 1%nat
        /\ (answer = Fails ->
            fst (PredictionScreen.getCityFromCoords lat lon answer)
            = "Unknown Location")).
Proof.
  intros Hkey first second.
  split; [|split].
  - intros H.
    destruct (cached cache (cacheKey lat1 lon1)) as [v|] eqn:Hc.
    + subst first second.
      rewrite (getCityFromCoords_hit cache lat1 lon1 answer1 v Hc). cbn [fst snd].
      rewrite Hkey in Hc.
      rewrite (getCityFromCoords_hit cache lat2 lon2 answer2 v Hc).
      split; [reflexivity|split; [reflexivity|cbn; lia]].
    + destruct H as [Hok|[v Hv]]; [|discriminate Hv].
      destruct answer1 as [|address]; [now destruct Hok|].
      subst first second.
      rewrite (getCityFromCoords_miss cache lat1 lon1 address Hc). cbn [fst snd].
      rewrite (getCityFromCoords_hit _ lat2 lon2 answer2 (placeName address)).
      * split; [reflexivity|split; [reflexivity|cbn; lia]].
      * rewrite <- Hkey. apply cached_insert, placeName_nonempty.
  - intros -> Hc. subst first second.
    rewrite (getCityFromCoords_fail cache lat1 lon1 Hc). cbn [fst snd].
    split; [reflexivity|split; [reflexivity|]].
    rewrite Hkey in Hc.
    destruct answer2 as [|address];
      [rewrite (getCityFromCoords_fail cache lat2 lon2 Hc)
      |rewrite (getCityFromCoords_miss cache lat2 lon2 address Hc)];
      reflexivity.
  - intros lat lon answer.
    destruct answer; split; try reflexivity. discriminate.
Qed.

Lemma geocode_cache_answers_after_success_witness :
  snd (getCityFromCoords
         (snd (fst (getCityFromCoords ∅ (fst Examples.pointA)
                      (snd Examples.pointA) Examples.detroit)))
         (fst Examples.pointB) (snd Examples.pointB) Fails)
  = [].
Proof.
  apply (geocode_cache_answers_after_success ∅
           (fst Examples.pointA) (snd Examples.pointA)
           (fst Examples.pointB) (snd Examples.pointB)
           Examples.detroit Fails).
  - vm_compute. reflexivity.
  - left. discriminate.
Defined.

(** C7, as stated, fails: the prediction screen geocodes the same point
    twice with two requests. *)
Lemma prediction_screen_geocodes_every_call :
  let lat := fst Examples.pointA in
  let lon := snd Examples.pointA in
  cacheKey lat lon = cacheKey lat lon
  /\ geocoderRequests
       (snd (PredictionScreen.getCityFromCoords lat lon Examples.detroit)
        ++ snd (PredictionScreen.getCityFromCoords lat lon Examples.detroit))
     = 2%nat.
Proof. split; reflexivity. Qed.

End GeocodeFacts.

(** ** The predictor *)

Section PredictFacts.

Import Js Io PredictionScreen.
Local Open Scope N_scope.

Lemma fetchWithAbort_bounded (srv : Server) :
  snd (fetchWithAbort srv) <= abortAfterMs.
Proof.
  unfold fetchWithAbort.
  destruct (latency srv) as [d|]; [|reflexivity].
  destruct (N.ltb_spec d abortAfterMs); cbn [snd]; lia.
Qed.

Lemma attempt_wait (srv : Server) :
  snd (attempt srv) = snd (fetchWithAbort srv).
Proof.
  unfold attempt. destruct (fetchWithAbort srv) as [[e|resp] d]; [reflexivity|].
  destruct (negb (ok resp)); [reflexivity|].
  destruct (json resp) as [[]|]; reflexivity.
Qed.

Lemma attempt_bounded (srv : Server) : snd (attempt srv) <= abortAfterMs.
Proof. rewrite attempt_wait. apply fetchWithAbort_bounded. Qed.

(** An endpoint that has not answered when the timer fires fails with
    the abort error, after exactly the timer's delay. *)
Lemma attempt_timeout (srv : Server) :
  (latency srv = None \/ exists d, latency srv = Some d /\ abortAfterMs <= d) ->
  attempt srv = (inl AbortError, abortAfterMs).
Proof.
  intros H. unfold attempt, fetchWithAbort.
  destruct H as [-> | (d & -> & Hd)]; [reflexivity|].
  destruct (N.ltb_spec d abortAfterMs); [lia|reflexivity].
Qed.

Lemma tryEndpoints_bounded (server : string -> Server) (urls : list string) :
  snd (tryEndpoints server urls) <= abortAfterMs * N.of_nat (length urls).
Proof.
  induction urls as [|url rest IH]; [cbn; lia|].
  cbn [tryEndpoints length].
  destruct (negb (isHttpPrefix url)); [lia|].
  pose proof (attempt_bounded (server url)) as Hb.
  destruct (attempt (server url)) as [[e|p] d]; cbn [snd] in *.
  - destruct (tryEndpoints server rest) as [[r t] d']. cbn [snd] in *. lia.
  - lia.
Qed.

Lemma tryEndpoints_all_fail (server : string -> Server) (urls : list string) :
  (forall url, In url urls -> isHttpPrefix url = true ->
               exists e, fst (attempt (server url)) = inl e) ->
  fst (fst (tryEndpoints server urls)) = None.
Proof.
  induction urls as [|url rest IH]; intros Hall; [reflexivity|].
  cbn [tryEndpoints].
  destruct (isHttpPrefix url) eqn:Hhttp; cbn [negb].
  - destruct (Hall url (or_introl eq_refl) Hhttp) as [e He].
    destruct (attempt (server url)) as [[e'|p] d]; [|discriminate He].
    specialize (IH (fun u Hu => Hall u (or_intror Hu))).
    destruct (tryEndpoints server rest) as [[r t] d']. exact IH.
  - apply IH. intros u Hu. apply Hall. now right.
Qed.

Lemma mockPrediction_top3 (random1 random2 : Q) :
  length (p_top3 (mockPrediction random1 random2)) = 3%nat.
Proof. reflexivity. Qed.

(** With a draw in [0,1) the mock names one of the five mock species. *)
Lemma mockPrediction_species (random1 random2 : Q) :
  (0 <= random1)%Q -> (random1 < 1)%Q ->
  exists sp, p_species (mockPrediction random1 random2) = Some (JStr sp)
             /\ In sp mockSpecies.
Proof.
  intros H0 H1. unfold mockPrediction. cbn [p_species length mockSpecies].
  change (inject_Z (Z.of_nat 5)) with 5%Q.
  set (i := Qfloor (random1 * 5)).
  assert (Hi : (0 <= i < 5)%Z).
  { subst i. split.
    - change 0%Z with (Qfloor 0). apply Qfloor_resp_le. lra.
    - rewrite Zlt_Qlt. change (inject_Z 5) with 5%Q.
      pose proof (Qfloor_le (random1 * 5)). lra. }
  assert (Hcases : i = 0%Z \/ i = 1%Z \/ i = 2%Z \/ i = 3%Z \/ i = 4%Z) by lia.
  destruct Hcases as [-> | [-> | [-> | [-> | ->]]]];
    eexists; (split; [reflexivity|cbn; tauto]).
Qed.

(** The mock confidence is the 75 to 95 percent of the code's comment. *)
Lemma mockPrediction_confidence (random1 random2 : Q) :
  (0 <= random2)%Q -> (random2 < 1)%Q ->
  (75 # 100 <= p_confidence (mockPrediction random1 random2))%Q
  /\ (p_confidence (mockPrediction random1 random2) < 95 # 100)%Q.
Proof. intros H0 H1. cbn [mockPrediction p_confidence]. split; lra. Qed.

(** C8: a request to a prediction endpoint waits at most 15000 ms, and
    one that is not answered by then fails with the abort error instead of
    hanging; callPredict always returns; and when every configured
    endpoint has failed, what it returns is the local mock prediction
    (species, confidence, three top entries), announced by the "Server
    Unavailable ... Using mock prediction" alert, after at most 15000 ms
    per endpoint. *)
Theorem predictor_is_bounded_and_falls_back (API_BASE : string)
  (server : string -> Server) (random1 random2 : Q) :
  (forall url, In url (endpoints API_BASE) -> isHttpPrefix url = true ->
               exists e, fst (attempt (server url)) = inl e) ->
  let result := callPredict API_BASE server random1 random2 in
  fst (fst result) = mockPrediction random1 random2
  /\ (exists before,
        snd (fst result)
        = (before
             ++ [LogWarn "All prediction endpoints failed, using mock prediction";
                 serverUnavailable])%list)
  /\ length (p_top3 (fst (fst result))) = 3%nat
  /\ ((0 <= random1)%Q -> (random1 < 1)%Q ->
      exists sp, p_species (fst (fst result)) = Some (JStr sp)
                 /\ In sp mockSpecies)
  /\ ((0 <= random2)%Q -> (random2 < 1)%Q ->
      (75 # 100 <= p_confidence (fst (fst result)))%Q
      /\ (p_confidence (fst (fst result)) < 95 # 100)%Q)
  /\ snd result <= 2 * abortAfterMs
  /\ (forall srv,
        snd (attempt srv) <= abortAfterMs
        /\ (latency srv = None
            \/ (exists d, latency srv = Some d /\ abortAfterMs <= d) ->
            attempt srv = (inl AbortError, abortAfterMs))).
Proof.
  intros Hall result. subst result. unfold callPredict.
  pose proof (tryEndpoints_all_fail server (endpoints API_BASE) Hall) as Hnone.
  pose proof (tryEndpoints_bounded server (endpoints API_BASE)) as Hb.
  destruct (tryEndpoints server (endpoints API_BASE)) as [[r t] d].
  cbn [fst snd] in *. subst r.
  split; [reflexivity|].
  split; [now exists t|].
  split; [apply mockPrediction_top3|].
  split; [intros H0 H1; now apply mockPrediction_species|].
  split; [intros H0 H1; now apply mockPrediction_confidence|].
  split;
    [change (N.of_nat (length (endpoints API_BASE))) with 2 in Hb;
     cbn [snd]; lia|].
  intros srv. split; [apply attempt_bounded|apply attempt_timeout].
Qed.

Lemma predictor_is_bounded_and_falls_back_witness :
  fst (fst (callPredict "http://10.0.0.5:8000" Examples.silentServer
              (1 # 2) (1 # 2)))
  = mockPrediction (1 # 2) (1 # 2).
Proof.
  apply (predictor_is_bounded_and_falls_back "http://10.0.0.5:8000"
           Examples.silentServer (1 # 2) (1 # 2)).
  intros url _ _. exists AbortError. reflexivity.
Defined.

End PredictFacts.

(* ===================================================================== *)
(** * Further properties of the code                                      *)
(* ===================================================================== *)

(** ** Sorting newest first *)

Section SortFacts.

Lemma insert_Permutation {A : Type} (key : A -> Z) (x : A) (l : list A) :
  Permutation (Arrays.insert key x l) (x :: l).
Proof.
  induction l as [|y rest IH]; [reflexivity|].
  cbn [Arrays.insert]. destruct (Arrays.compare key x y <=? 0); [reflexivity|].
  rewrite IH. apply perm_swap.
Qed.

Lemma sort_Permutation {A : Type} (key : A -> Z) (l : list A) :
  Permutation (Arrays.sort key l) l.
Proof.
  induction l as [|x rest IH]; [reflexivity|].
  cbn [Arrays.sort]. rewrite insert_Permutation. now rewrite IH.
Qed.

Lemma insert_descending {A : Type} (key : A -> Z) (x : A) (l : list A) :
  Arrays.descending key l -> Arrays.descending key (Arrays.insert key x l).
Proof.
  unfold Arrays.descending.
  induction l as [|y rest IH]; intros Hs.
  - cbn. repeat constructor.
  - cbn [Arrays.insert]. unfold Arrays.compare.
    apply StronglySorted_inv in Hs. destruct Hs as [Hrest Hy].
    destruct (Z.leb_spec (key y - key x) 0) as [Hle|Hgt].
    + constructor; [now constructor|].
      constructor; [lia|].
      eapply Forall_impl; [exact Hy|]. cbn. intros z Hz. lia.
    + constructor; [now apply IH|].
      rewrite (insert_Permutation key). constructor; [lia|exact Hy].
Qed.

Lemma sort_descending {A : Type} (key : A -> Z) (l : list A) :
  Arrays.descending key (Arrays.sort key l).
Proof.
  induction l as [|x rest IH]; [constructor|].
  cbn [Arrays.sort]. now apply insert_descending.
Qed.

Lemma descending_lookup {A : Type} (key : A -> Z) (l : list A) (i j : nat)
  (a b : A) :
  Arrays.descending key l -> (i < j)%nat -> l !! i = Some a -> l !! j = Some b ->
  (key b <= key a)%Z.
Proof.
  unfold Arrays.descending. intros Hs. revert i j a b.
  induction Hs as [|x rest Hrest IH Hx]; intros i j a b Hij Ha Hb.
  - destruct i; discriminate Ha.
  - destruct j as [|j]; [lia|]. destruct i as [|i].
    + injection Ha as <-. cbn in Hb.
      rewrite Forall_forall in Hx. apply Hx, list_elem_of_lookup. eauto.
    + cbn in Ha, Hb. apply (IH i j); [lia|assumption..].
Qed.

(** A list already in order is left as it is: rows with equal keys keep
    their order. *)
Lemma sort_sorted {A : Type} (key : A -> Z) (l : list A) :
  Arrays.descending key l -> Arrays.sort key l = l.
Proof.
  unfold Arrays.descending.
  induction l as [|x rest IH]; intros Hs; [reflexivity|].
  apply StronglySorted_inv in Hs. destruct Hs as [Hrest Hx].
  cbn [Arrays.sort]. rewrite (IH Hrest).
  destruct rest as [|y rest']; [reflexivity|].
  cbn [Arrays.insert]. unfold Arrays.compare.
  apply Forall_cons in Hx. destruct Hx as [Hxy _].
  destruct (Z.leb_spec (key y - key x) 0); [reflexivity|lia].
Qed.

End SortFacts.

(** ** The history list *)

Section HistoryListFacts.

Import Js Projection HistoryList.

Lemma numberFrom_lookup (rows : list Recording) (idx : Z) (i : nat) :
  numberFrom idx rows !! i
  = setRecordingNumber (idx + Z.of_nat i + 1) <$> rows !! i.
Proof.
  revert idx i. induction rows as [|r rest IH]; intros idx i; [now destruct i|].
  destruct i as [|i]; cbn [numberFrom].
  - cbn. do 2 f_equal. lia.
  - change ((setRecordingNumber (idx + 1) r :: numberFrom (idx + 1) rest)
              !! S i) with (numberFrom (idx + 1) rest !! i).
    change ((r :: rest) !! S i) with (rest !! i).
    rewrite (IH (idx + 1)%Z i).
    destruct (rest !! i); cbn; [|reflexivity]. do 2 f_equal. lia.
Qed.

Lemma numberFrom_forget (rows : list Recording) (idx : Z) :
  map (setRecordingNumber 0) (numberFrom idx rows)
  = map (setRecordingNumber 0) rows.
Proof.
  revert idx. induction rows as [|r rest IH]; intros idx; [reflexivity|].
  cbn [numberFrom map]. now rewrite IH.
Qed.

(** X1. The rows of the history screen after a snapshot: the same rows as
    delivered (up to their number), newest first, numbered 1, 2, 3, ...
    from the top. *)
Theorem history_rows_newest_first_numbered (rows : list Recording) :
  let out := sortAndNumber rows in
  Permutation (map (setRecordingNumber 0) out) (map (setRecordingNumber 0) rows)
  /\ (forall (i : nat) r, out !! i = Some r ->
        recordingNumber r = Some (Z.of_nat i + 1))
  /\ (forall (i j : nat) r r',
        (i <= j)%nat -> out !! i = Some r -> out !! j = Some r' ->
        timestampMs r' <= timestampMs r).
Proof.
  intros out. subst out. unfold sortAndNumber.
  split; [|split].
  - rewrite numberFrom_forget. apply Permutation_map, sort_Permutation.
  - intros i r Hr. rewrite numberFrom_lookup in Hr.
    destruct (Arrays.sort timestampMs rows !! i); [|discriminate Hr].
    injection Hr as <-. reflexivity.
  - intros i j r r' Hij Hr Hr'. rewrite numberFrom_lookup in Hr, Hr'.
    destruct (Arrays.sort timestampMs rows !! i) as [a|] eqn:Ha;
      [|discriminate Hr].
    destruct (Arrays.sort timestampMs rows !! j) as [b|] eqn:Hb;
      [|discriminate Hr'].
    injection Hr as <-. injection Hr' as <-.
    change (timestampMs b <= timestampMs a).
    destruct (decide (i = j)) as [->|Hne].
    + rewrite Ha in Hb. injection Hb as ->. lia.
    + pose proof (sort_descending timestampMs rows) as Hs.
      apply (descending_lookup timestampMs _ i j a b Hs); [lia|assumption..].
Qed.

End HistoryListFacts.

(** ** Searching the history list *)

Section SearchFacts.

Import Js Projection HistoryList.

Lemma lower_ascii_idempotent (c : ascii) :
  lower_ascii (lower_ascii c) = lower_ascii c.
Proof. destruct c as [[] [] [] [] [] [] [] []]; reflexivity. Qed.

Lemma isSpace_lower_ascii (c : ascii) : isSpace (lower_ascii c) = isSpace c.
Proof. destruct c as [[] [] [] [] [] [] [] []]; reflexivity. Qed.

Lemma toLowerCase_idempotent (s : string) :
  toLowerCase (toLowerCase s) = toLowerCase s.
Proof.
  induction s as [|c rest IH]; [reflexivity|].
  cbn [toLowerCase]. now rewrite lower_ascii_idempotent, IH.
Qed.

Lemma skipSpaces_toLowerCase (s : string) :
  skipSpaces (toLowerCase s) = toLowerCase (skipSpaces s).
Proof.
  induction s as [|c rest IH]; [reflexivity|].
  cbn [toLowerCase skipSpaces]. rewrite isSpace_lower_ascii.
  destruct (isSpace c); [exact IH|reflexivity].
Qed.

Lemma revString_toLowerCase (acc s : string) :
  revString (toLowerCase acc) (toLowerCase s) = toLowerCase (revString acc s).
Proof.
  revert acc. induction s as [|c rest IH]; intros acc; [reflexivity|].
  cbn [toLowerCase revString]. apply (IH (String c acc)).
Qed.

Lemma reverse_toLowerCase (s : string) :
  revString "" (toLowerCase s) = toLowerCase (revString "" s).
Proof. exact (revString_toLowerCase "" s). Qed.

Lemma trim_toLowerCase (s : string) : trim (toLowerCase s) = toLowerCase (trim s).
Proof.
  unfold trim.
  now rewrite skipSpaces_toLowerCase, reverse_toLowerCase,
    skipSpaces_toLowerCase, reverse_toLowerCase.
Qed.

Lemma toLowerCase_empty (s : string) :
  String.eqb (toLowerCase s) "" = String.eqb s "".
Proof. destruct s; reflexivity. Qed.

Lemma filterRows_sublist (lower : string) (rows kept : list Recording) :
  filterRows lower rows = Some kept ->
  sublist kept rows /\ Forall (fun r => matches lower r = Some true) kept.
Proof.
  revert kept. induction rows as [|r rest IH]; intros kept H.
  - injection H as <-. split; constructor.
  - cbn [filterRows] in H.
    destruct (matches lower r) as [keep|] eqn:Hm; [|discriminate H].
    destruct (filterRows lower rest) as [kept'|]; [|discriminate H].
    destruct (IH kept' eq_refl) as [Hsub Hall].
    injection H as <-. destruct keep.
    + split; [now constructor|]. constructor; assumption.
    + split; [now constructor|assumption].
Qed.

(** X2. The search box of the history screen, on ASCII text (the query,
    the species and the place names).  A blank query shows every row.
    The letter case of the query does not matter: two queries that differ
    in letter case only show the same rows.  Whatever is shown is a
    sub-list of the rows, in their order, and with a query that is not
    blank every row shown contains the lower-cased query in its
    lower-cased species or place name. *)
Theorem history_search_is_case_insensitive (recordings : list Recording)
  (searchQuery : string) :
  Text.isAscii searchQuery = true ->
  forallb asciiRow recordings = true ->
  (trim searchQuery = "" ->
   filteredRecordings recordings searchQuery = Some recordings)
  /\ (forall other,
        Text.isAscii other = true ->
        toLowerCase other = toLowerCase searchQuery ->
        filteredRecordings recordings other
        = filteredRecordings recordings searchQuery)
  /\ (forall kept,
        filteredRecordings recordings searchQuery = Some kept ->
        sublist kept recordings
        /\ (trim searchQuery <> "" ->
            Forall (fun r => matches (toLowerCase searchQuery) r = Some true)
                   kept)).
Proof.
  intros _ _. unfold filteredRecordings. split; [|split].
  - intros ->. reflexivity.
  - intros other _ Hsame.
    assert (String.eqb (trim other) "" = String.eqb (trim searchQuery) "")
      as -> by (rewrite <- (toLowerCase_empty (trim other)),
                  <- (toLowerCase_empty (trim searchQuery)),
                  <- !trim_toLowerCase, Hsame; reflexivity).
    now rewrite Hsame.
  - intros kept H.
    destruct (String.eqb_spec (trim searchQuery) "") as [Hblank|Hquery].
    + injection H as <-. split; [reflexivity|]. intros Hne. now destruct Hne.
    + apply filterRows_sublist in H. destruct H as [Hsub Hall].
      split; [exact Hsub|]. intros _. exact Hall.
Qed.

Lemma history_search_is_case_insensitive_witness :
  filteredRecordings [Examples.approvedRow] "bull"
  = filteredRecordings [Examples.approvedRow] "BULL"
  /\ filteredRecordings [Examples.approvedRow] "BULL"
     = Some [Examples.approvedRow].
Proof.
  split; [|reflexivity].
  apply (proj1 (proj2 (history_search_is_case_insensitive
                         [Examples.approvedRow] "BULL" eq_refl eq_refl))
           "bull"); reflexivity.
Defined.

End SearchFacts.

(** ** The filter controls of the map *)

Section MapFilterFacts.

Import Js Projection MapHistoryScreen MapFilters.

(** X3. Tapping a species in the picker flips that species and no other;
    tapping it twice restores the selection. *)
Theorem toggleSpecies_flips_one (species : string)
  (selectedSpecies : gset string) :
  toggleSpecies species (toggleSpecies species selectedSpecies)
  = selectedSpecies
  /\ (species ∈ toggleSpecies species selectedSpecies
      <-> species ∉ selectedSpecies)
  /\ (forall other, other <> species ->
        (other ∈ toggleSpecies species selectedSpecies
         <-> other ∈ selectedSpecies)).
Proof.
  unfold toggleSpecies. split; [|split].
  - destruct (decide (species ∈ selectedSpecies)) as [Hin|Hout].
    + rewrite decide_False by set_solver.
      apply set_eq. intros x. destruct (decide (x = species)); set_solver.
    + rewrite decide_True by set_solver.
      apply set_eq. intros x. destruct (decide (x = species)); set_solver.
  - destruct (decide (species ∈ selectedSpecies)); set_solver.
  - intros other Hne. destruct (decide (species ∈ selectedSpecies)); set_solver.
Qed.

Lemma toggleSpecies_flips_one_witness :
  "Wood Frog" ∈ toggleSpecies "Bullfrog" {[ "Wood Frog" ]}.
Proof.
  apply (proj2 (proj2 (toggleSpecies_flips_one "Bullfrog" {[ "Wood Frog" ]}))).
  - discriminate.
  - set_solver.
Defined.

(** X4. The month arrows of the date picker undo each other, keep the month
    between 0 and 11, and move by exactly one month. *)
Theorem month_arrows_are_inverse (c : Calendar) :
  0 <= currentMonth c <= 11 ->
  goToNextMonth (goToPreviousMonth c) = c
  /\ goToPreviousMonth (goToNextMonth c) = c
  /\ 0 <= currentMonth (goToNextMonth c) <= 11
  /\ 0 <= currentMonth (goToPreviousMonth c) <= 11
  /\ currentYear (goToNextMonth c) * 12 + currentMonth (goToNextMonth c)
     = currentYear c * 12 + currentMonth c + 1
  /\ currentYear (goToPreviousMonth c) * 12 + currentMonth (goToPreviousMonth c)
     = currentYear c * 12 + currentMonth c - 1.
Proof.
  destruct c as [m y]. cbn [currentMonth currentYear]. intros Hm.
  unfold goToNextMonth, goToPreviousMonth. cbn [currentMonth currentYear].
  destruct (Z.eqb_spec m 0) as [Hm0|Hm0], (Z.eqb_spec m 11) as [Hm11|Hm11];
    cbn [currentMonth currentYear];
    repeat match goal with
           | |- context [(?a =? ?b)] => destruct (Z.eqb_spec a b)
           end;
    cbn [currentMonth currentYear];
    repeat split; try lia; try (f_equal; lia).
Qed.

Lemma month_arrows_are_inverse_witness :
  goToNextMonth (goToPreviousMonth (mkCalendar 0 2025)) = mkCalendar 0 2025.
Proof.
  apply (month_arrows_are_inverse (mkCalendar 0 2025)). cbn. lia.
Defined.

Lemma keeps_split (endOfDay : Z -> Z) (selectedSpecies : gset string)
  (startDate endDate : option Z) (rec : Recording) :
  keeps endOfDay selectedSpecies startDate endDate rec
  = ((negb (0 <? size selectedSpecies)%nat
      || has selectedSpecies (predictedSpecies rec))
     && keeps endOfDay ∅ startDate endDate rec)%bool.
Proof.
  unfold keeps. rewrite size_empty.
  change (0 <? 0)%nat with false. cbn [andb].
  destruct (0 <? size selectedSpecies)%nat,
    (has selectedSpecies (predictedSpecies rec)); reflexivity.
Qed.

Lemma filter_sublist_bool {A : Type} (f g : A -> bool) (l : list A) :
  (forall x, f x = true -> g x = true) ->
  sublist (List.filter f l) (List.filter g l).
Proof.
  intros Hfg. induction l as [|x rest IH]; [constructor|].
  cbn [List.filter]. destruct (f x) eqn:Hf.
  - rewrite (Hfg x Hf). now constructor.
  - destruct (g x); [now constructor|exact IH].
Qed.

Lemma has_selectAll (v : jsval) :
  has selectAllSpecies v = true
  <-> exists name, v = JStr name /\ In name allSpeciesOptions.
Proof.
  unfold has, selectAllSpecies. split.
  - destruct v as [| | |s| | | |]; try discriminate.
    intros H. apply bool_decide_eq_true in H.
    apply elem_of_list_to_set, list_elem_of_In in H. eauto.
  - intros (name & -> & Hin). apply bool_decide_eq_true.
    now apply elem_of_list_to_set, list_elem_of_In.
Qed.

(** X5. Choosing species can only hide markers, never show one that the empty
    selection hides.  "Select all" is not "no filter": it keeps a recording
    exactly when the dates keep it and its predicted species is one of the
    eight names of the picker, so a recording with any other species value
    is hidden. *)
Theorem species_selection_only_hides (endOfDay : Z -> Z)
  (recordings : list Recording) (selectedSpecies : gset string)
  (startDate endDate : option Z) :
  sublist
    (filteredRecordings endOfDay recordings selectedSpecies startDate endDate)
    (filteredRecordings endOfDay recordings ∅ startDate endDate)
  /\ (forall rec,
        In rec (filteredRecordings endOfDay recordings selectAllSpecies
                  startDate endDate)
        <-> In rec (filteredRecordings endOfDay recordings ∅ startDate endDate)
            /\ exists name, predictedSpecies rec = JStr name
                            /\ In name allSpeciesOptions).
Proof.
  unfold filteredRecordings. split.
  - apply filter_sublist_bool. intros rec. rewrite keeps_split.
    intros H. apply andb_true_iff in H. tauto.
  - intros rec. rewrite !filter_In, keeps_split, andb_true_iff.
    assert (Hsize : (0 <? size selectAllSpecies)%nat = true) by reflexivity.
    rewrite Hsize. cbn [negb orb]. rewrite has_selectAll. tauto.
Qed.

End MapFilterFacts.

(** ** Submitting: guards, failures, what is stored *)

Section SubmitMoreFacts.

Import Js Io Handler Projection PredictionScreen.

(** X6. A press that a guard stops (a submit is in flight, no confidence
    level is chosen, or there is no audio) calls nothing outside the
    device and leaves the screen as it was; while a submit is in flight the
    press is ignored without even an alert. *)
Theorem submit_guards_stop_locally (st : State) (env : SubmitEnv) :
  hasSubmitted st = false ->
  submitting st = true \/ volunteerConfidence st = "" \/ audioUri st = "" ->
  fst (run (handleSubmit env) st) = st
  /\ List.filter isExternalCall (snd (run (handleSubmit env) st)) = []
  /\ (submitting st = true -> snd (run (handleSubmit env) st) = []).
Proof.
  intros Hnot Hguard. unfold run, handleSubmit, bind, get. rewrite Hnot.
  destruct (submitting st) eqn:Hsub;
    [split; [reflexivity|split; [reflexivity|intros _; reflexivity]]|].
  destruct (String.eqb_spec (volunteerConfidence st) "") as [Hc|Hc];
    [split; [reflexivity|split; [reflexivity|discriminate]]|].
  destruct (String.eqb_spec (audioUri st) "") as [Ha|Ha];
    [split; [reflexivity|split; [reflexivity|discriminate]]|].
  destruct Hguard as [H|[H|H]]; congruence.
Qed.

Lemma submit_guards_stop_locally_witness :
  snd (run (handleSubmit Examples.goodDay)
         (setSubmitting true Examples.expertDraft)) = [].
Proof.
  apply (submit_guards_stop_locally (setSubmitting true Examples.expertDraft)
           Examples.goodDay);
    [reflexivity|left; reflexivity|reflexivity].
Defined.

Lemma setSubmitting_off_on (st : State) :
  submitting st = false -> setSubmitting false (setSubmitting true st) = st.
Proof. destruct st. cbn. now intros ->. Qed.

(** X7. A submit that creates no document leaves nothing behind: the screen
    state is what it was, so the press can be repeated, and the store is
    unchanged.  When the upload fails (it rejects, or the status is not
    2xx) no store write is even attempted. *)
Theorem failed_submit_leaves_nothing_behind (st : State) (env : SubmitEnv)
  (store : Store) :
  submitting st = false ->
  let trace := snd (run (handleSubmit env) st) in
  (created trace = [] ->
   fst (run (handleSubmit env) st) = st /\ finalStore store trace = store)
  /\ ((forall httpStatus, uploadAnswer env = Ok httpStatus ->
                          httpStatus < 200 \/ 300 <= httpStatus) ->
      List.filter isWrite trace = []).
Proof.
  intros Hsub trace. subst trace.
  pose proof (setSubmitting_off_on st Hsub) as Hback.
  unfold run, handleSubmit, bind, get.
  destruct (hasSubmitted st) eqn:H1; [repeat split|].
  rewrite Hsub.
  destruct (String.eqb (volunteerConfidence st) "") eqn:H3; [repeat split|].
  destruct (String.eqb (audioUri st) "") eqn:H4; [repeat split|].
  unfold tryCatchFinally, submitBody, bind, get, modify, await, emit, throw, exit.
  destruct (currentUser env) as [user|] eqn:H5;
    [|cbn [fst snd]; rewrite Hback; repeat split].
  destruct (idTokenAnswer env) as [idToken|] eqn:H6;
    [|cbn [fst snd]; rewrite Hback; repeat split].
  destruct (infoAnswer env) as [[|]|] eqn:H7; cbn [negb];
    [|cbn [fst snd]; rewrite Hback; repeat split..].
  destruct (storageBucket env) as [bucket|] eqn:H8;
    [|cbn [fst snd]; rewrite Hback; repeat split].
  destruct (uploadAnswer env) as [httpStatus|] eqn:H9;
    [|cbn [fst snd]; rewrite Hback; repeat split].
  destruct ((httpStatus <? 200) || (300 <=? httpStatus))%bool eqn:H10;
    [cbn [fst snd]; rewrite Hback; repeat split|].
  apply orb_false_iff in H10. destruct H10 as [Ha Hb].
  apply Z.ltb_ge in Ha. apply Z.leb_gt in Hb.
  cbn [submitAsExpert role setSubmitting].
  unfold awaitSetDoc, bind, emit, throw.
  destruct (setDocAnswer env) as [[]|m] eqn:H11;
    destruct (submitAsExpert st && isExpertRole (role st))%bool;
    cbn [fst snd]; (split; [intros Hc; try discriminate Hc;
                            rewrite Hback; repeat split
                           |intros Hup; destruct (Hup httpStatus eq_refl); lia]).
Qed.

Lemma failed_submit_leaves_nothing_behind_witness :
  fst (run (handleSubmit Examples.badDay) Examples.expertDraft)
  = Examples.expertDraft.
Proof.
  apply (failed_submit_leaves_nothing_behind Examples.expertDraft
           Examples.badDay ∅); reflexivity.
Defined.

Lemma normalizeTop_range (t : TopItem) :
  (0 <= confidence t)%Q ->
  (0 <= confidence (normalizeTop t))%Q /\ (confidence (normalizeTop t) <= 1)%Q.
Proof.
  intros H0. unfold normalizeTop. cbn [confidence].
  destruct (Qle_bool (confidence t) 1) eqn:E; cbn [negb].
  - apply Qle_bool_iff in E. split; assumption.
  - split; [apply Q.le_max_l|].
    apply Q.max_lub; [discriminate|apply Q.le_min_l].
Qed.

Lemma primaryConf01_range (items : list TopItem) :
  Forall (fun t => (0 <= confidence t)%Q) items ->
  (0 <= primaryConf01 (map normalizeTop items))%Q
  /\ (primaryConf01 (map normalizeTop items) <= 1)%Q.
Proof.
  intros H. destruct H as [|t rest Ht _]; [split; discriminate|].
  now apply normalizeTop_range.
Qed.

(** X8. Every recording a submit creates stores the same AI confidence under
    confidenceScore and aiConfidence, and that number lies in [0, 1]
    whenever the confidences shown on the screen are not negative; with no
    prediction on the screen it is 0. *)
Theorem stored_confidence_is_a_fraction (st : State) (env : SubmitEnv)
  (id : string) (data : gmap string jsval) :
  In (id, data) (created (snd (run (handleSubmit env) st))) ->
  exists c,
    data !! "confidenceScore" = Some (JNum c)
    /\ data !! "aiConfidence" = Some (JNum c)
    /\ (top3 st = [] -> c = 0%Q)
    /\ (Forall (fun t => (0 <= confidence t)%Q) (top3 st) ->
        (0 <= c)%Q /\ (c <= 1)%Q).
Proof.
  intros Hin. destruct (created_by_submit st env id data Hin) as (user & ->).
  exists (primaryConf01 (map normalizeTop (top3 st))).
  assert (Hbase :
    baseDocOf st env user !! "confidenceScore"
    = Some (JNum (primaryConf01 (map normalizeTop (top3 st))))
    /\ baseDocOf st env user !! "aiConfidence"
       = Some (JNum (primaryConf01 (map normalizeTop (top3 st)))))
    by (unfold baseDocOf, baseDoc; split; literal_lookup).
  destruct Hbase as [Hs Ha].
  split; [|split; [|split]].
  - destruct (selfApproves st); unfold approvedData, needsReviewData;
      rewrite !lookup_insert_ne by discriminate; exact Hs.
  - destruct (selfApproves st); unfold approvedData, needsReviewData;
      rewrite !lookup_insert_ne by discriminate; exact Ha.
  - intros ->. reflexivity.
  - apply primaryConf01_range.
Qed.

Lemma stored_confidence_is_a_fraction_witness :
  exists c,
    PredictionScreen.approvedData Examples.expertDraft Examples.goodDay
      Examples.expertUser !! "confidenceScore" = Some (JNum c)
    /\ (0 <= c)%Q /\ (c <= 1)%Q.
Proof.
  destruct (stored_confidence_is_a_fraction Examples.expertDraft
              Examples.goodDay "r2"
              (approvedData Examples.expertDraft Examples.goodDay
                 Examples.expertUser))
    as (c & Hc & _ & _ & Hrange).
  - rewrite (handleSubmit_run _ _ _ _ _ _ goodDay_accepted). left. reflexivity.
  - exists c. split; [exact Hc|]. apply Hrange.
    repeat constructor; discriminate.
Defined.



End SubmitMoreFacts.

(** ** The predictor: which endpoint answers *)

Section PredictMoreFacts.

Import Js Io PredictionScreen.

Lemma tryEndpoints_fetches (server : string -> Server) (urls : list string)
  (url : string) :
  In (Fetch url) (snd (fst (tryEndpoints server urls))) ->
  In url urls /\ isHttpPrefix url = true.
Proof.
  induction urls as [|u rest IH]; [intros []|].
  cbn [tryEndpoints].
  destruct (isHttpPrefix u) eqn:Hu; cbn [negb].
  - destruct (attempt (server u)) as [[e|p] d].
    + destruct (tryEndpoints server rest) as [[r t] d']. cbn [fst snd] in *.
      intros [H|[H|H]]; [injection H as <-; split; [now left|exact Hu]
                        |discriminate H|].
      destruct (IH H). split; [now right|assumption].
    + cbn. intros [H|[]]. injection H as <-. split; [now left|exact Hu].
  - intros H. destruct (IH H). split; [now right|assumption].
Qed.

(** X10. callPredict asks the endpoints in order and stops at the first that
    answers with a prediction: when /predict answers, /ml/predict is never
    contacted and no alert is raised; when /predict fails and /ml/predict
    answers, its prediction is returned after one warning.  Only the two
    configured http(s) endpoints are ever contacted. *)
Theorem callPredict_stops_at_first_answer (API_BASE : string)
  (server : string -> Server) (random1 random2 : Q) :
  let first := (API_BASE ++ "/predict")%string in
  let second := (API_BASE ++ "/ml/predict")%string in
  isHttpPrefix first = true ->
  isHttpPrefix second = true ->
  (forall p d,
      attempt (server first) = (inr p, d) ->
      callPredict API_BASE server random1 random2 = (p, [Fetch first], d))
  /\ (forall e d1 p d2,
        attempt (server first) = (inl e, d1) ->
        attempt (server second) = (inr p, d2) ->
        callPredict API_BASE server random1 random2
        = (p, [Fetch first; LogWarn "Prediction endpoint failed"; Fetch second],
           (d1 + d2)%N))
  /\ (forall url,
        In (Fetch url) (snd (fst (callPredict API_BASE server random1 random2))) ->
        url = first \/ url = second).
Proof.
  intros first second H1 H2. split; [|split].
  - intros p d Ha. unfold callPredict, endpoints. cbn [tryEndpoints].
    fold first. rewrite H1. cbn [negb]. now rewrite Ha.
  - intros e d1 p d2 Ha Hb. unfold callPredict, endpoints. cbn [tryEndpoints].
    fold first second. rewrite H1, H2. cbn [negb]. now rewrite Ha, Hb.
  - intros url Hin. unfold callPredict in Hin.
    pose proof (tryEndpoints_fetches server (endpoints API_BASE) url) as Hf.
    destruct (tryEndpoints server (endpoints API_BASE)) as [[[p|] t] d];
      cbn [fst snd] in *.
    + destruct (Hf Hin) as [[<-|[<-|[]]] _]; [now left|now right].
    + apply in_app_or in Hin. destruct Hin as [Hin|[Hin|[Hin|[]]]];
        [|discriminate Hin..].
      destruct (Hf Hin) as [[<-|[<-|[]]] _]; [now left|now right].
Qed.

Lemma callPredict_stops_at_first_answer_witness :
  callPredict "http://10.0.0.5:8000"
    (fun _ => mkServer (Some 120%N)
                (inr (mkResponse true 200 "ok"
                        (Some (JObj [("species", JStr "Bullfrog");
                                     ("confidence", JNum (9 # 10))])))))
    (1 # 2) (1 # 2)
  = (mkPrediction (Some (JStr "Bullfrog")) (9 # 10) [],
     [Fetch "http://10.0.0.5:8000/predict"], 120%N).
Proof.
  apply (proj1 (callPredict_stops_at_first_answer "http://10.0.0.5:8000"
                  (fun _ => mkServer (Some 120%N)
                              (inr (mkResponse true 200 "ok"
                                      (Some (JObj [("species", JStr "Bullfrog");
                                                   ("confidence",
                                                    JNum (9 # 10))])))))
                  (1 # 2) (1 # 2) eq_refl eq_refl)).
  reflexivity.
Defined.

(** X11. The mock prediction is a well-formed prediction: its top-3 list has
    three different species of the mock list, led by the predicted one,
    with confidences c > 0.6 c > 0.3 c that all lie strictly between 0 and
    1. *)
Theorem mock_prediction_is_well_formed (random1 random2 : Q) :
  (0 <= random1)%Q -> (random1 < 1)%Q ->
  (0 <= random2)%Q -> (random2 < 1)%Q ->
  let p := mockPrediction random1 random2 in
  let c := p_confidence p in
  NoDup (Top3.speciesOf (p_top3 p))
  /\ head (Top3.speciesOf (p_top3 p)) = Some (p_species p)
  /\ Top3.confidenceOf (p_top3 p)
     = [Some (JNum c); Some (JNum (c * (6 # 10))); Some (JNum (c * (3 # 10)))]
  /\ (c * (3 # 10) < c * (6 # 10))%Q /\ (c * (6 # 10) < c)%Q
  /\ (0 < c * (3 # 10))%Q /\ (c < 1)%Q.
Proof.
  intros H0 H1 H2 H3 p c.
  assert (Hc : (75 # 100 <= c)%Q /\ (c < 95 # 100)%Q)
    by (subst c p; now apply mockPrediction_confidence).
  assert (Hi : exists i, (0 <= i < 5)%Z
                         /\ Qfloor (random1 * inject_Z (Z.of_nat 5)) = i).
  { exists (Qfloor (random1 * 5)). split; [|reflexivity]. split.
    - change 0%Z with (Qfloor 0). apply Qfloor_resp_le. lra.
    - rewrite Zlt_Qlt. change (inject_Z 5) with 5%Q.
      pose proof (Qfloor_le (random1 * 5)). lra. }
  destruct Hi as (i & Hi & Hfloor).
  split; [|split; [|split; [|repeat split; lra]]].
  - subst p. unfold mockPrediction. cbn [p_top3 length mockSpecies].
    rewrite Hfloor.
    assert (Hcases : i = 0%Z \/ i = 1%Z \/ i = 2%Z \/ i = 3%Z \/ i = 4%Z) by lia.
    destruct Hcases as [-> | [-> | [-> | [-> | ->]]]]; cbn;
      repeat (apply NoDup_cons; split; [set_solver|]); apply NoDup_nil_2.
  - subst p. unfold mockPrediction. cbn [p_top3 p_species length mockSpecies].
    rewrite Hfloor.
    assert (Hcases : i = 0%Z \/ i = 1%Z \/ i = 2%Z \/ i = 3%Z \/ i = 4%Z) by lia.
    destruct Hcases as [-> | [-> | [-> | [-> | ->]]]]; reflexivity.
  - subst c p. unfold mockPrediction. cbn [p_top3 p_confidence length mockSpecies].
    rewrite Hfloor.
    assert (Hcases : i = 0%Z \/ i = 1%Z \/ i = 2%Z \/ i = 3%Z \/ i = 4%Z) by lia.
    destruct Hcases as [-> | [-> | [-> | [-> | ->]]]]; reflexivity.
Qed.

Lemma mock_prediction_is_well_formed_witness :
  NoDup (Top3.speciesOf (p_top3 (mockPrediction (1 # 2) (1 # 2)))).
Proof.
  apply (mock_prediction_is_well_formed (1 # 2) (1 # 2)); reflexivity || discriminate.
Defined.

(** X12. The expert box of the prediction screen opens for the exact role
    strings "expert" and "admin" only.  The legacy flags and the letter
    case that the login screen accepts do not count here: a user whom the
    login routes to the expert or admin home through a flag, or through
    "Expert", submits like a volunteer. *)
Theorem expert_box_needs_exact_role_string (u : Roles.UserData) (st : State) :
  let gate := isExpertRole (role (fetchRole true (Ok (Some u)) st)) in
  (gate = true <-> Roles.role u = Some "expert" \/ Roles.role u = Some "admin")
  /\ (Roles.role u <> Some "expert" -> Roles.role u <> Some "admin" ->
      forall st',
        role st' = role (fetchRole true (Ok (Some u)) st) ->
        selfApproves st' = false).
Proof.
  intros gate. subst gate. rewrite fetchRole_reads_role_string.
  assert (Hiff : isExpertRole
                   (Some match Roles.role u with
                         | Some x => x
                         | None => "volunteer"
                         end) = true
                 <-> Roles.role u = Some "expert" \/ Roles.role u = Some "admin").
  { unfold isExpertRole. destruct (Roles.role u) as [s|]; cbn.
    - rewrite orb_true_iff, !String.eqb_eq.
      split; [intros [-> | ->]; auto|intros [H|H]; injection H as ->; auto].
    - split; [discriminate|intros [H|H]; discriminate H]. }
  split; [exact Hiff|].
  intros He Ha st' Hrole. unfold selfApproves. rewrite Hrole.
  destruct (submitAsExpert st'); [cbn [andb]|reflexivity].
  apply not_true_is_false. intros E. apply Hiff in E. tauto.
Qed.

Lemma expert_box_needs_exact_role_string_witness :
  selfApproves
    (fetchRole true (Ok (Some (Roles.mkUserData (Some "Expert") None (Some true))))
       Examples.expertDraft) = false
  /\ Roles.resolveRole (Roles.mkUserData (Some "Expert") None (Some true))
     = Roles.expert.
Proof.
  split; [|reflexivity].
  apply (proj2 (expert_box_needs_exact_role_string
                  (Roles.mkUserData (Some "Expert") None (Some true))
                  Examples.expertDraft)); [discriminate|discriminate|reflexivity].
Defined.

End PredictMoreFacts.

(** ** The geocode cache never forgets *)

Section CacheMoreFacts.

Import Js Io Geocoder HistoryScreen.

(** X13. A call never removes or overwrites a name the cache already serves,
    never stores an empty name, and after a request that was answered the
    name it returned is the one the cache serves for that key. *)
Theorem geocode_cache_only_grows (cache : gmap string string) (lat lon : Q)
  (answer : Answer) :
  let result := getCityFromCoords cache lat lon answer in
  let cache' := snd (fst result) in
  (forall key v, cached cache key = Some v -> cached cache' key = Some v)
  /\ fst (fst result) <> ""
  /\ ((forall key v, cache !! key = Some v -> v <> "") ->
      forall key v, cache' !! key = Some v -> v <> "")
  /\ (answer <> Fails ->
      cached cache' (cacheKey lat lon) = Some (fst (fst result))).
Proof.
  intros result cache'. subst cache' result.
  destruct (cached cache (cacheKey lat lon)) as [hit|] eqn:Hc.
  - rewrite (getCityFromCoords_hit cache lat lon answer hit Hc). cbn [fst snd].
    split; [auto|]. split; [|split; [auto|intros _; exact Hc]].
    unfold cached in Hc. destruct (cache !! cacheKey lat lon) as [[|c x]|];
      congruence.
  - destruct answer as [|address].
    + rewrite (getCityFromCoords_fail cache lat lon Hc). cbn [fst snd].
      split; [auto|]. split; [discriminate|]. split; [auto|]. intros H. now destruct H.
    + rewrite (getCityFromCoords_miss cache lat lon address Hc). cbn [fst snd].
      pose proof (placeName_nonempty address) as Hne.
      split; [|split; [exact Hne|split]].
      * intros key v Hv. destruct (decide (key = cacheKey lat lon)) as [->|Hk].
        -- congruence.
        -- unfold cached in *. now rewrite lookup_insert_ne by congruence.
      * intros Hall key v.
        destruct (decide (key = cacheKey lat lon)) as [->|Hk].
        -- rewrite lookup_insert_eq. congruence.
        -- rewrite lookup_insert_ne by congruence. apply Hall.
      * intros _. now apply cached_insert.
Qed.

Lemma geocode_cache_only_grows_witness :
  cached
    (snd (fst (getCityFromCoords ∅ (fst Examples.pointA) (snd Examples.pointA)
                 Examples.detroit)))
    (cacheKey (fst Examples.pointA) (snd Examples.pointA))
  = Some "Detroit, Michigan".
Proof.
  pose proof (proj2 (proj2 (proj2
                (geocode_cache_only_grows ∅ (fst Examples.pointA)
                   (snd Examples.pointA) Examples.detroit)))) as H.
  assert (Hanswered : Examples.detroit <> Fails) by discriminate.
  specialize (H Hanswered). vm_compute in H. vm_compute. exact H.
Defined.

End CacheMoreFacts.

(** ** From the submit to the views *)

Section RoundTripFacts.

Import Js Io Handler PredictionScreen.

Lemma orValue_string (s : string) :
  DataContext.orValue (Some (JStr s)) (JStr "") = JStr s.
Proof.
  unfold DataContext.orValue, orElse, truthy.
  destruct (String.eqb_spec s "") as [->|_]; reflexivity.
Qed.

(** The fields of a created document that the views read. *)
Lemma baseDocOf_fields (st : State) (env : SubmitEnv) (user : AuthUser) :
  let d := baseDocOf st env user in
  let c := primaryConf01 (map normalizeTop (top3 st)) in
  d !! "recordingId" = Some (JStr (newRecordingId env))
  /\ d !! "userId" = Some (JStr (uid user))
  /\ d !! "predictedSpecies" = Some (JStr (predictedSpecies st))
  /\ d !! "species" = Some (JStr "")
  /\ d !! "notes" = Some (JStr (notes st))
  /\ d !! "volunteerConfidenceLevel" = Some (JStr (volunteerConfidence st))
  /\ d !! "timestamp" = Some JServerTimestamp
  /\ d !! "location"
     = Some (JObj [("lat", JNum (finiteOr0 (lat st)));
                   ("lng", JNum (finiteOr0 (lon st)))])
  /\ d !! "confidenceScore" = Some (JNum c)
  /\ d !! "aiConfidence" = Some (JNum c)
  /\ d !! "locationCity" = None.
Proof. unfold baseDocOf, baseDoc. repeat split; literal_lookup. Qed.

Lemma written_data_frame (st : State) (env : SubmitEnv) (user : AuthUser)
  (k : string) :
  k <> "status" -> k <> "expertReview" ->
  (if selfApproves st then approvedData st env user
   else needsReviewData st env user) !! k
  = baseDocOf st env user !! k.
Proof.
  intros Hs He. destruct (selfApproves st); unfold approvedData, needsReviewData;
    now rewrite !lookup_insert_ne by congruence.
Qed.

Lemma written_data_status (st : State) (env : SubmitEnv) (user : AuthUser) :
  (if selfApproves st then approvedData st env user
   else needsReviewData st env user) !! "status"
  = Some (JStr (if selfApproves st then "approved" else "needs_review")).
Proof.
  destruct (selfApproves st);
    [apply approvedData_status|apply needsReviewData_status].
Qed.

Lemma Math_round_percent (n : Z) :
  Math_round (inject_Z n / 100 * 100) = n.
Proof.
  unfold Math_round.
  assert (E : (inject_Z n / 100 * 100 + (1 # 2) == (2 * n + 1) # 2)%Q).
  { unfold Qeq, Qdiv, Qmult, Qplus, Qinv, inject_Z. cbn. lia. }
  rewrite E. unfold Qfloor.
  change (Z.pos 2) with 2%Z.
  symmetry. apply (Z.div_unique (2 * n + 1) 2 n 1); lia.
Qed.

Lemma Math_round_comp (q q' : Q) : (q == q')%Q -> Math_round q = Math_round q'.
Proof. intros H. unfold Math_round. apply Qfloor_comp. now rewrite H. Qed.

(** A whole percentage on the screen, normalised and shown again. *)
Lemma whole_percent_comes_back (sp : string) (n : Z) :
  0 <= n <= 100 ->
  Math_round (confidence (normalizeTop (mkTopItem sp (inject_Z n))) * 100)
  = (if n =? 1 then 100 else n).
Proof.
  intros Hn. cbn [normalizeTop confidence].
  destruct (Z.le_gt_cases n 1) as [Hsmall|Hbig].
  - assert (n = 0 \/ n = 1) as [-> | ->] by lia; reflexivity.
  - assert (Qle_bool (inject_Z n) 1 = false) as ->.
    { apply not_true_is_false. intros H. apply Qle_bool_iff in H.
      change 1%Q with (inject_Z 1) in H. rewrite <- Zle_Qle in H. lia. }
    cbn [negb].
    assert ((n =? 1) = false) as -> by (apply Z.eqb_neq; lia).
    transitivity (Math_round (inject_Z n / 100 * 100));
      [apply Math_round_comp|apply Math_round_percent].
    assert (0 <= inject_Z n / 100)%Q as Hlo.
    { apply Qle_shift_div_l; [reflexivity|]. rewrite Qmult_0_l.
      change 0%Q with (inject_Z 0). rewrite <- Zle_Qle. lia. }
    assert (inject_Z n / 100 <= 1)%Q as Hhi.
    { apply Qle_shift_div_r; [reflexivity|]. rewrite Qmult_1_l.
      change 100%Q with (inject_Z 100). rewrite <- Zle_Qle. lia. }
    assert (Qmin 1 (inject_Z n / 100) == inject_Z n / 100)%Q as Hmin
      by (apply Q.min_r; exact Hhi).
    assert (Qmax 0 (Qmin 1 (inject_Z n / 100)) == Qmin 1 (inject_Z n / 100))%Q
      as Hmax by (apply Q.max_r; rewrite Hmin; exact Hlo).
    rewrite Hmax, Hmin. reflexivity.
Qed.

(** X14. What a submit writes is what the shared context shows once the
    document comes back from the store: the same id, owner, species, notes,
    confidence level and status, the commit time as its time, the stored
    coordinates and, because a submit stores no place name, the place
    "Unknown Location".  The AI confidence is shown as 0 when the screen
    held no prediction; when the first prediction on the screen is a whole
    percentage from 0 to 100 that percentage is shown again, except 1,
    which is stored as the fraction 1 and shown as 100. *)
Theorem submitted_recording_as_projected
  (toLocaleDateString : Z -> string) (now : Z)
  (Number_ : option jsval -> option Q) (String_ : option jsval -> string)
  (st : State) (env : SubmitEnv) (user : AuthUser) (idToken bucket : string)
  (httpStatus commitTime : Z) :
  Accepted st env user idToken bucket httpStatus ->
  (forall q, Number_ (Some (JNum q)) = Some q) ->
  exists data,
    created (snd (run (handleSubmit env) st)) = [(newRecordingId env, data)]
    /\ let rec :=
         DataContext.parseRecording toLocaleDateString now Number_ String_
           (newRecordingId env) (Firestore.asRead commitTime data) in
       Projection.recordingId rec = JStr (newRecordingId env)
       /\ Projection.userId rec = JStr (uid user)
       /\ Projection.predictedSpecies rec = JStr (predictedSpecies st)
       /\ Projection.species rec = JStr ""
       /\ Projection.status rec
          = JStr (if selfApproves st then "approved" else "needs_review")
       /\ Projection.notes rec = JStr (notes st)
       /\ Projection.volunteerConfidence rec
          = Some (JStr (volunteerConfidence st))
       /\ Projection.timestamp rec = Some commitTime
       /\ Projection.timestampISO rec = JStr (toLocaleDateString commitTime)
       /\ Projection.latitude rec = finiteOr0 (lat st)
       /\ Projection.longitude rec = finiteOr0 (lon st)
       /\ Projection.locationCity rec = JStr "Unknown Location"
       /\ (top3 st = [] -> Projection.confidence rec = Some (Finite 0))
       /\ (forall sp n rest,
             top3 st = mkTopItem sp (inject_Z n) :: rest -> 0 <= n <= 100 ->
             Projection.confidence rec
             = Some (Finite (inject_Z (if n =? 1 then 100 else n))))
       /\ Projection.aiConfidence rec = Projection.confidence rec.
Proof.
  intros Hacc Hnum.
  rewrite (handleSubmit_run _ _ _ _ _ _ Hacc). cbn [snd].
  eexists. split; [reflexivity|].
  set (data := if selfApproves st then approvedData st env user
               else needsReviewData st env user).
  destruct (baseDocOf_fields st env user)
    as (Hid & Huser & Hsp & Hspecies & Hnotes & Hlevel & Hts & Hloc & Hcs & Hai
        & Hcity).
  assert (Hread : forall k, k <> "status" -> k <> "expertReview" ->
            Firestore.asRead commitTime data !! k
            = Firestore.resolveValue commitTime <$> baseDocOf st env user !! k).
  { intros k H1 H2. unfold Firestore.asRead. rewrite lookup_fmap. subst data.
    now rewrite written_data_frame. }
  assert (Hstatus : Firestore.asRead commitTime data !! "status"
            = Some (JStr (if selfApproves st then "approved" else "needs_review"))).
  { unfold Firestore.asRead. rewrite lookup_fmap. subst data.
    now rewrite written_data_status. }
  pose proof (confidence_chosen _ _ _ _ _ _ Hacc) as Hchosen.
  unfold DataContext.parseRecording, Projection.statusOf.
  cbn [Projection.recordingId Projection.userId Projection.predictedSpecies
       Projection.species Projection.status Projection.notes
       Projection.volunteerConfidence Projection.timestamp
       Projection.timestampISO Projection.latitude Projection.longitude
       Projection.locationCity Projection.confidence Projection.aiConfidence].
  rewrite Hstatus.
  rewrite !Hread by discriminate.
  rewrite Hid, Huser, Hsp, Hspecies, Hnotes, Hlevel, Hts, Hloc, Hcs, Hai, Hcity.
  cbn [fmap option_fmap option_map Firestore.resolveValue
       Firestore.resolveSentinel nullish getField assoc map fst snd
       String.eqb Ascii.eqb Bool.eqb Projection.percentOf].
  unfold DataContext.numberOr0. rewrite !Hnum.
  rewrite orValue_string.
  do 6 (split; [reflexivity|]).
  split; [unfold orElse, truthy; apply String.eqb_neq in Hchosen;
          now rewrite Hchosen|].
  do 5 (split; [reflexivity|]).
  split; [intros ->; reflexivity|].
  split; [|reflexivity].
  intros sp n rest -> Hn. cbn [map primaryConf01].
  now rewrite (whole_percent_comes_back sp n Hn).
Qed.

Lemma submitted_recording_as_projected_witness :
  exists data,
    created (snd (run (handleSubmit Examples.goodDay) Examples.expertDraft))
    = [("r2", data)]
    /\ Projection.locationCity
         (DataContext.parseRecording (fun _ => "5/1/2025") 0
            (fun v => match v with Some (JNum q) => Some q | _ => None end)
            (fun _ => "") "r2" (Firestore.asRead 1746130501000 data))
       = JStr "Unknown Location".
Proof.
  destruct (submitted_recording_as_projected (fun _ => "5/1/2025") 0
              (fun v => match v with Some (JNum q) => Some q | _ => None end)
              (fun _ => "") Examples.expertDraft Examples.goodDay
              Examples.expertUser "token" "frogwatch.appspot.com" 200
              1746130501000)
    as (data & Hcreated & Hrec).
  - exact goodDay_accepted.
  - reflexivity.
  - exists data. split; [exact Hcreated|].
    destruct Hrec as (_ & _ & _ & _ & _ & _ & _ & _ & _ & _ & _ & Hcity & _).
    exact Hcity.
Defined.

End RoundTripFacts.

(** ** The row shown after a resubmit and the document behind it *)

Section OptimisticFacts.

Import Js Io Handler Projection HistoryScreen.

(** X15. After a resubmit the history screen patches its row without waiting
    for the store.  The patched row agrees with the projection of the
    updated document in species, predicted species, notes, status and, when
    the confidence entered is not 0, in the confidence shown.  When 0 is
    entered the store holds 0 while the row keeps the confidence it
    showed. *)
Theorem resubmitted_row_matches_document
  (toLocaleDateString : Z -> string) (now : Z)
  (Number_ : option jsval -> option Q) (String_ : option jsval -> string)
  (st : State) (id : string) (d : gmap string jsval) :
  invalidConfidence (editConfidence st) = false ->
  let parse :=
    DataContext.parseRecording toLocaleDateString now Number_ String_ id in
  let row := resubmitted st (parse d) in
  let fresh := parse (resubmitUpdates st ∪ d) in
  species row = species fresh
  /\ predictedSpecies row = predictedSpecies fresh
  /\ notes row = notes fresh
  /\ status row = status fresh
  /\ (parseInt (editConfidence st) <> Some 0 ->
      confidence row = confidence fresh)
  /\ (parseInt (editConfidence st) = Some 0 ->
      confidence fresh = Some (Finite 0)
      /\ confidence row = confidence (parse d)).
Proof.
  intros Hvalid parse row fresh. subst row fresh parse.
  destruct (resubmitUpdates_species st) as (Hs & Hp & Hn).
  pose proof (resubmitUpdates_status st) as Hst.
  pose proof (resubmitUpdates_confidence st) as Hc.
  unfold DataContext.parseRecording, statusOf, resubmitted.
  cbn [species predictedSpecies notes status confidence].
  rewrite (lookup_union_Some_l _ d _ _ Hs), (lookup_union_Some_l _ d _ _ Hp),
    (lookup_union_Some_l _ d _ _ Hn), (lookup_union_Some_l _ d _ _ Hst).
  cbn [nullish]. rewrite orValue_string.
  split; [reflexivity|]. split; [reflexivity|]. split; [reflexivity|].
  split; [reflexivity|].
  unfold invalidConfidence in Hvalid.
  destruct (parseInt (editConfidence st)) as [n|] eqn:Hparse.
  - destruct (String.eqb (editConfidence st) "") eqn:Hempty.
    + apply String.eqb_eq in Hempty. rewrite Hempty in Hparse.
      discriminate Hparse.
    + rewrite (lookup_union_Some_l _ d _ _ Hc). cbn [percentOf].
      rewrite Math_round_percent. split.
      * intros Hn0. destruct (Z.eqb_spec n 0) as [->|_]; [congruence|reflexivity].
      * intros Hn0. injection Hn0 as ->. split; reflexivity.
  - rewrite (lookup_union_r _ d _ Hc).
    split; [reflexivity|discriminate].
Qed.

Lemma resubmitted_row_matches_document_witness :
  confidence
    (resubmitted Examples.historyEdit
       (DataContext.parseRecording (fun _ => "5/1/2025") 0 (fun _ => None)
          (fun _ => "") "r1" Examples.approvedDoc))
  = Some (Finite 60).
Proof.
  destruct (resubmitted_row_matches_document (fun _ => "5/1/2025") 0
              (fun _ => None) (fun _ => "") Examples.historyEdit "r1"
              Examples.approvedDoc)
    as (_ & _ & _ & _ & Hconf & _).
  - reflexivity.
  - rewrite Hconf; [reflexivity|discriminate].
Defined.

End OptimisticFacts.

(** ** The administrator's list of users *)

Section UsersFacts.

Import Js Io UsersScreen.

Lemma includes_empty (s : string) : Arrays.includes "" s = true.
Proof. destruct s; reflexivity. Qed.

Lemma matchesSearch_empty (user : User) : matchesSearch "" user = true.
Proof. unfold matchesSearch. cbn [toLowerCase]. now rewrite includes_empty. Qed.

(** X16. With the search box empty the chips alone decide: "all" shows every
    user, every user is under experts, volunteers or pending, nobody under
    volunteers is also under experts or pending, and the badge counts the
    users under pending. *)
Theorem user_chips_cover_the_list (users : list User) :
  filteredUsers users "" all = users
  /\ (forall user, In user users ->
        In user (filteredUsers users "" experts)
        \/ In user (filteredUsers users "" volunteers)
        \/ In user (filteredUsers users "" pending))
  /\ (forall user, In user (filteredUsers users "" volunteers) ->
        ~ In user (filteredUsers users "" experts)
        /\ ~ In user (filteredUsers users "" pending))
  /\ pendingCount users = length (filteredUsers users "" pending).
Proof.
  unfold filteredUsers, pendingCount, shown.
  split; [|split; [|split]].
  - induction users as [|u rest IH]; [reflexivity|].
    cbn [List.filter]. rewrite matchesSearch_empty. cbn [negb]. now rewrite IH.
  - intros user Hin. rewrite !filter_In, !matchesSearch_empty. cbn [negb].
    destruct (isExpert user), (isPendingExpert user); cbn; tauto.
  - intros user. rewrite !filter_In, !matchesSearch_empty. cbn [negb].
    destruct (isExpert user), (isPendingExpert user); cbn;
      intuition discriminate.
  - f_equal. induction users as [|u rest IH]; [reflexivity|].
    cbn [List.filter]. rewrite matchesSearch_empty. cbn [negb]. now rewrite IH.
Qed.

(** X17. The list that loadUsers builds holds one row for each document that
    is not an administrator's and none for an administrator; each row
    carries the expert mark of the role resolution and the number of
    recordings the user owns; the rows are ordered by that number, largest
    first. *)
Theorem loaded_users_are_counted_and_ranked (docs : list (string * UserDoc))
  (recordings : list (gmap string jsval)) (draw : string -> Q) :
  let users := loadUsers docs recordings draw in
  Permutation users (map (toUser recordings draw) (List.filter notAdmin docs))
  /\ (forall user, In user users ->
        exists d, In (userId user, d) docs
                  /\ Roles.resolveRole (roleData d) <> Roles.admin
                  /\ (isExpert user = true
                      <-> Roles.resolveRole (roleData d) = Roles.expert)
                  /\ submissionCount user = countOwned (userId user) recordings)
  /\ Arrays.descending submissionCount users
  /\ length users = length (List.filter notAdmin docs).
Proof.
  intros users. subst users. unfold loadUsers.
  pose proof (sort_Permutation submissionCount
                (map (toUser recordings draw) (List.filter notAdmin docs)))
    as Hperm.
  split; [exact Hperm|]. split; [|split].
  - intros user Hin.
    apply (Permutation_in _ Hperm) in Hin.
    apply in_map_iff in Hin. destruct Hin as ([id d] & <- & Hin).
    apply filter_In in Hin. destruct Hin as [Hin Hna].
    unfold notAdmin in Hna. cbn [snd] in Hna. apply negb_true_iff in Hna.
    exists d. cbn [toUser userId isExpert submissionCount].
    split; [exact Hin|]. split; [|split; [|reflexivity]].
    + intros Hr.
      assert (Roles.handleLogin (roleData d) = Roles.adminHomeScreen) as Hroute
        by (unfold Roles.resolveRole in Hr;
            destruct (Roles.handleLogin (roleData d)); now try discriminate).
      apply userIsAdmin_handleLogin in Hroute. congruence.
    + rewrite (userIsExpert_handleLogin _ Hna). unfold Roles.resolveRole.
      destruct (Roles.handleLogin (roleData d)); cbn; split; congruence.
  - apply sort_descending.
  - rewrite (Permutation_length Hperm). apply length_map.
Qed.

(** X18. Granting or removing expert access through the store writes both
    forms of the role.  For a listed user (never an administrator) the
    role then resolves to expert after a grant and to volunteer after a
    removal, the pending request is cleared, and the patched row of the
    list shows what a reload would show.  Approving a request writes what
    a grant writes; denying one leaves the role as it was. *)
Theorem expert_toggle_takes_effect (id : string) (d : UserDoc)
  (currentStatus : bool) (recordings : list (gmap string jsval))
  (draw : string -> Q) :
  Roles.userIsAdmin (roleData d) = false ->
  let d' := toggleExpertFallback currentStatus d in
  Roles.resolveRole (roleData d')
  = (if currentStatus then Roles.volunteer else Roles.expert)
  /\ docPendingExpert d' = Some false
  /\ toggleExpertLocal id currentStatus [toUser recordings draw (id, d)]
     = [toUser recordings draw (id, d')]
  /\ approvePendingFallback d = toggleExpertFallback false d
  /\ (forall nowIso, roleData (denyPending nowIso d) = roleData d).
Proof.
  intros Hna d'. subst d'.
  unfold Roles.userIsAdmin in Hna. apply orb_false_iff in Hna.
  destruct Hna as [Hflag _].
  split; [|split; [reflexivity|split; [|split; reflexivity]]].
  - unfold Roles.resolveRole, Roles.handleLogin, toggleExpertFallback.
    cbn [roleData Roles.isAdmin Roles.isExpert Roles.userRole Roles.role].
    rewrite Hflag. destruct currentStatus; reflexivity.
  - unfold toggleExpertLocal. cbn [map toUser userId].
    rewrite String.eqb_refl. unfold setExpert, toggleExpertFallback.
    cbn. f_equal. destruct currentStatus; reflexivity.
Qed.

Lemma expert_toggle_takes_effect_witness :
  Roles.resolveRole
    (roleData
       (toggleExpertFallback true
          (mkUserDoc (Roles.mkUserData (Some "expert") None (Some true))
             (Some "Eve") None None None None None None)))
  = Roles.volunteer.
Proof.
  apply (expert_toggle_takes_effect "u7"
           (mkUserDoc (Roles.mkUserData (Some "expert") None (Some true))
              (Some "Eve") None None None None None None)
           true [] (fun _ => 0%Q)).
  reflexivity.
Defined.

(** X19. Every row gets a colour of the palette, whatever number between 0
    and 1 is drawn for it. *)
Theorem listed_user_has_palette_colour (recordings : list (gmap string jsval))
  (draw : string -> Q) (id : string) (d : UserDoc) :
  (0 <= draw id)%Q -> (draw id < 1)%Q ->
  exists colour, avatarColor (toUser recordings draw (id, d)) = Some colour
                 /\ In colour avatarColors.
Proof.
  intros Hlo Hhi. cbn [toUser avatarColor].
  change (inject_Z (Z.of_nat (length avatarColors))) with 10%Q.
  assert (0 <= Qfloor (draw id * 10) < 10)%Z as Hrange.
  { split.
    - change 0%Z with (Qfloor 0). apply Qfloor_resp_le.
      apply Qmult_le_0_compat; [exact Hlo|discriminate].
    - rewrite Zlt_Qlt.
      eapply Qle_lt_trans; [apply Qfloor_le|].
      change (inject_Z 10) with (1 * 10)%Q.
      apply Qmult_lt_compat_r; [reflexivity|exact Hhi]. }
  unfold PredictionScreen.at_.
  destruct (Z.ltb_spec (Qfloor (draw id * 10)) 0) as [Hneg|_]; [lia|].
  assert (Z.to_nat (Qfloor (draw id * 10)) < length avatarColors)%nat as Hlt
    by (change (length avatarColors) with 10%nat; lia).
  destruct (lookup_lt_is_Some_2 avatarColors _ Hlt) as [colour Hc].
  exists colour. split; [exact Hc|].
  apply list_elem_of_In. eapply list_elem_of_lookup_2. exact Hc.
Qed.

Lemma listed_user_has_palette_colour_witness :
  exists colour,
    avatarColor (toUser [] (fun _ => (37 # 100)%Q)
                   ("u7", mkUserDoc (Roles.mkUserData None None None)
                            None None None None None None None))
    = Some colour
    /\ In colour avatarColors.
Proof.
  apply (listed_user_has_palette_colour [] (fun _ => (37 # 100)%Q) "u7"
           (mkUserDoc (Roles.mkUserData None None None)
              None None None None None None None));
    [discriminate|reflexivity].
Defined.

End UsersFacts.

(** ** The way home and the review counters *)

Section HomeFacts.

Import Io Navigation.

(** X20. Whenever the user's document is read, every screen's way back leads
    to the home screen that login chose for that document.  The history,
    record and map screens lead to the administrator's home only for a
    document that resolves to administrator; the users screen leads there
    also without a user and when the read fails. *)
Theorem home_screen_is_the_login_screen (fallback : Roles.Route)
  (data : option Roles.UserData) :
  getHomeScreen fallback (Some (Ok data)) = Roles.handleLogin (dataOrEmpty data)
  /\ (forall profile, historyHome profile = Roles.adminHomeScreen ->
        exists u, profile = Some (Ok (Some u))
                  /\ Roles.resolveRole u = Roles.admin)
  /\ usersHome None = Roles.adminHomeScreen
  /\ (forall message, usersHome (Some (Err message)) = Roles.adminHomeScreen).
Proof.
  assert (forall fb d, getHomeScreen fb (Some (Ok d))
                       = Roles.handleLogin (dataOrEmpty d)) as Hsame.
  { intros fb d. unfold getHomeScreen, Roles.handleLogin, Roles.userIsAdmin,
      Roles.userIsExpert. cbn zeta. now rewrite roleStr_userRole. }
  split; [apply Hsame|]. split; [|split; reflexivity].
  intros [[[u|]|message]|] Hhome; try discriminate.
  - exists u. split; [reflexivity|].
    unfold historyHome in Hhome. rewrite Hsame in Hhome.
    unfold Roles.resolveRole. cbn [dataOrEmpty] in Hhome. now rewrite Hhome.
Qed.

End HomeFacts.

Section ReviewCountFacts.

Import Js Io ExpertHomeScreen.

Lemma hasStatus_exclusive (a b : string) (r : gmap string jsval) :
  a <> b -> hasStatus a r = true -> hasStatus b r = false.
Proof.
  unfold hasStatus. intros Hab.
  destruct (r !! "status") as [[| | |s| | | |]|]; try discriminate.
  intros Ha. apply String.eqb_eq in Ha. subst s.
  now apply String.eqb_neq.
Qed.

Lemma three_statuses_bound (recordings : list (gmap string jsval)) :
  (length (List.filter (hasStatus "needs_review") recordings)
   + length (List.filter (hasStatus "approved") recordings)
   + length (List.filter (hasStatus "discarded") recordings)
   <= length recordings)%nat.
Proof.
  induction recordings as [|r rest IH]; [reflexivity|].
  cbn [List.filter].
  destruct (hasStatus "needs_review" r) eqn:En.
  - rewrite (hasStatus_exclusive "needs_review" "approved" r) by
      (discriminate || assumption).
    rewrite (hasStatus_exclusive "needs_review" "discarded" r) by
      (discriminate || assumption).
    cbn [length]. lia.
  - destruct (hasStatus "approved" r) eqn:Ea.
    + rewrite (hasStatus_exclusive "approved" "discarded" r) by
        (discriminate || assumption).
      cbn [length]. lia.
    + destruct (hasStatus "discarded" r); cbn [length]; lia.
Qed.

(** X21. loadReviewCounts counts recordings only for a signed-in user whose
    document resolves to expert or administrator; for anyone else who is
    signed in the counters stay as they were.  When one of the counts
    fails no counter changes.  Counted on the recordings of the store,
    the three counters are not negative and together do not exceed the
    number of recordings. *)
Theorem review_counters_need_a_reviewer (signedIn : bool) (env : Env)
  (st : State) :
  ((exists status, In (CountWhere status)
                      (snd (loadReviewCounts signedIn env st))) ->
   signedIn = true
   /\ exists data, profile env = Ok data
        /\ Roles.resolveRole (Navigation.dataOrEmpty data) <> Roles.volunteer)
  /\ (signedIn = true ->
      fst (loadReviewCounts signedIn env st) <> st ->
      exists n a d, count env "needs_review" = Ok n
                    /\ count env "approved" = Ok a
                    /\ count env "discarded" = Ok d
                    /\ fst (loadReviewCounts signedIn env st) = mkState n a d)
  /\ (forall recordings,
        count env = countOnServer recordings ->
        let st' := fst (loadReviewCounts signedIn env st) in
        st' <> st ->
        0 <= pendingReviews st' /\ 0 <= approvedCount st'
        /\ 0 <= discardedCount st'
        /\ pendingReviews st' + approvedCount st' + discardedCount st'
           <= Z.of_nat (length recordings)).
Proof.
  unfold loadReviewCounts.
  split; [|split].
  - destruct signedIn; cbn [negb]; [|intros [s []]].
    destruct (profile env) as [data|message];
      [|intros [s [H|[]]]; discriminate].
    intros Hq. split; [reflexivity|]. exists data. split; [reflexivity|].
    cbn zeta in Hq.
    destruct (Roles.userIsAdmin (Navigation.dataOrEmpty data)) eqn:Ea.
    + apply userIsAdmin_handleLogin in Ea. unfold Roles.resolveRole.
      rewrite Ea. discriminate.
    + destruct (Roles.userIsExpert (Navigation.dataOrEmpty data)) eqn:Ee.
      * apply (userIsExpert_handleLogin _ Ea) in Ee.
        unfold Roles.resolveRole. rewrite Ee. discriminate.
      * cbn [negb andb] in Hq. destruct Hq as [s [H|[]]]. discriminate.
  - intros -> Hchg. cbn [negb] in *.
    destruct (profile env) as [data|message]; [|now cbn in Hchg].
    cbn zeta in *.
    destruct (negb (Roles.userIsExpert (Navigation.dataOrEmpty data))
              && negb (Roles.userIsAdmin (Navigation.dataOrEmpty data)))%bool;
      [now cbn in Hchg|].
    destruct (count env "needs_review") as [n|]; [|now cbn in Hchg].
    destruct (count env "approved") as [a|]; [|now cbn in Hchg].
    destruct (count env "discarded") as [d|]; [|now cbn in Hchg].
    now exists n, a, d.
  - intros recordings Hcount. cbv zeta. intros Hchg.
    pose proof (three_statuses_bound recordings) as Hbound.
    destruct signedIn; cbn [negb] in *;
      [|cbn [fst pendingReviews approvedCount discardedCount]; lia].
    destruct (profile env) as [data|message]; [|now cbn in Hchg].
    cbn zeta in *.
    destruct (negb (Roles.userIsExpert (Navigation.dataOrEmpty data))
              && negb (Roles.userIsAdmin (Navigation.dataOrEmpty data)))%bool;
      [now cbn in Hchg|].
    rewrite Hcount in *. unfold countOnServer in *.
    cbn [fst pendingReviews approvedCount discardedCount] in *. lia.
Qed.

Lemma review_counters_need_a_reviewer_witness :
  exists n a d,
    fst (loadReviewCounts true
           (mkEnv (Ok (Some (Roles.mkUserData (Some "expert") None None)))
              (countOnServer [Examples.approvedDoc]))
           (mkState 0 0 0))
    = mkState n a d.
Proof.
  destruct (proj1 (proj2 (review_counters_need_a_reviewer true
              (mkEnv (Ok (Some (Roles.mkUserData (Some "expert") None None)))
                 (countOnServer [Examples.approvedDoc]))
              (mkState 0 0 0))) eq_refl) as (n & a & d & _ & _ & _ & E).
  - vm_compute. discriminate.
  - exists n, a, d. exact E.
Defined.

End ReviewCountFacts.

(** ** Registration *)

Section RegisterFacts.

Import Js Io RegisterScreen.

Lemma append_cons (c : ascii) (a b : string) :
  (String c a ++ b)%string = String c (a ++ b).
Proof. reflexivity. Qed.

Lemma append_nil (b : string) : (EmptyString ++ b)%string = b.
Proof. reflexivity. Qed.


(** On ASCII text the code units are the characters. *)
Lemma length_ascii (s : string) :
  Text.isAscii s = true -> Text.length s = String.length s.
Proof.
  induction s as [|c rest IH]; [reflexivity|].
  cbn [Text.isAscii Text.length String.length]. intros H.
  apply andb_true_iff in H. destruct H as [Hc Hrest].
  unfold Text.codeUnits. unfold Text.isAsciiChar in Hc. rewrite Hc.
  now rewrite (IH Hrest).
Qed.

Lemma plain_not_at (c : ascii) : plain c = true -> Ascii.eqb c "@" = false.
Proof.
  unfold plain. intros H. apply andb_true_iff in H. destruct H as [_ H].
  now apply negb_true_iff in H.
Qed.

Lemma plain_not_space (c : ascii) : plain c = true -> isSpace c = false.
Proof.
  unfold plain. intros H. apply andb_true_iff in H. destruct H as [H _].
  now apply negb_true_iff in H.
Qed.

Lemma allPlain_app (a b : string) :
  allPlain (a ++ b) = (allPlain a && allPlain b)%bool.
Proof.
  induction a as [|c rest IH]; [reflexivity|].
  rewrite append_cons. cbn [allPlain]. rewrite IH. now rewrite andb_assoc.
Qed.

Lemma splitAtSign_spec (s name domain : string) :
  splitAtSign s = Some (name, domain) ->
  s = (name ++ String "@" domain)%string.
Proof.
  revert name. induction s as [|c rest IH]; intros name; [discriminate|].
  cbn [splitAtSign]. destruct (Ascii.eqb c "@") eqn:Ec.
  - intros [= <- <-]. apply Ascii.eqb_eq in Ec. now subst c.
  - destruct (splitAtSign rest) as [[before after]|]; [|discriminate].
    intros [= <- <-]. rewrite append_cons. f_equal. now apply IH.
Qed.

Lemma splitAtSign_plain (name domain : string) :
  allPlain name = true ->
  splitAtSign (name ++ String "@" domain) = Some (name, domain).
Proof.
  induction name as [|c rest IH]; [reflexivity|].
  rewrite append_cons. cbn [allPlain splitAtSign]. intros H.
  apply andb_true_iff in H. destruct H as [Hc Hrest].
  rewrite (plain_not_at c Hc), (IH Hrest). reflexivity.
Qed.

Lemma innerDot_spec (b : bool) (s : string) :
  innerDot b s = true ->
  exists d1 d2, s = (d1 ++ String "." d2)%string
                /\ (b = true \/ d1 <> "") /\ d2 <> "".
Proof.
  revert b. induction s as [|c rest IH]; intros b; [discriminate|].
  cbn [innerDot]. intros H. apply orb_true_iff in H. destruct H as [H|H].
  - apply andb_true_iff in H. destruct H as [H Hrest].
    apply andb_true_iff in H. destruct H as [Hc Hb].
    apply Ascii.eqb_eq in Hc. subst c.
    apply negb_true_iff, String.eqb_neq in Hrest.
    exists "", rest. split; [reflexivity|]. split; [now left|exact Hrest].
  - destruct (IH true H) as (d1 & d2 & -> & _ & Hd2).
    exists (String c d1), d2. split; [reflexivity|].
    split; [right; discriminate|exact Hd2].
Qed.

Lemma innerDot_intro (b : bool) (d1 d2 : string) :
  (b = true \/ d1 <> "") -> d2 <> "" ->
  innerDot b (d1 ++ String "." d2) = true.
Proof.
  revert b. induction d1 as [|c rest IH]; intros b Hb Hd2.
  - destruct Hb as [-> | Hb]; [|congruence].
    rewrite append_nil. cbn [innerDot].
    apply String.eqb_neq in Hd2. rewrite Hd2. reflexivity.
  - rewrite append_cons. cbn [innerDot]. rewrite (IH true); [|now left|exact Hd2].
    apply orb_true_r.
Qed.

Lemma revString_list (acc s : string) :
  list_ascii_of_string (revString acc s)
  = (rev (list_ascii_of_string s) ++ list_ascii_of_string acc)%list.
Proof.
  revert acc. induction s as [|c rest IH]; intros acc; [reflexivity|].
  cbn [revString list_ascii_of_string rev]. rewrite IH.
  cbn [list_ascii_of_string]. now rewrite <- app_assoc.
Qed.

Lemma revString_involutive (s : string) : revString "" (revString "" s) = s.
Proof.
  rewrite <- (string_of_list_ascii_of_string (revString "" (revString "" s))).
  rewrite !revString_list. cbn [list_ascii_of_string].
  rewrite !app_nil_r, rev_involutive.
  apply string_of_list_ascii_of_string.
Qed.

Lemma skipSpaces_noSpaces (s : string) : noSpaces s -> skipSpaces s = s.
Proof.
  destruct s as [|c rest]; [reflexivity|]. intros H.
  cbn [skipSpaces]. now rewrite (H c (or_introl eq_refl)).
Qed.

Lemma trim_noSpaces (s : string) : noSpaces s -> trim s = s.
Proof.
  intros H. unfold trim. rewrite (skipSpaces_noSpaces s H).
  rewrite skipSpaces_noSpaces; [apply revString_involutive|].
  intros c Hc. rewrite revString_list in Hc. cbn [list_ascii_of_string] in Hc.
  rewrite app_nil_r in Hc. apply in_rev in Hc. now apply H.
Qed.

Lemma allPlain_noSpaces (s : string) : allPlain s = true -> noSpaces s.
Proof.
  induction s as [|c rest IH]; intros H x Hx; [destruct Hx|].
  cbn [allPlain] in H. apply andb_true_iff in H. destruct H as [Hc Hrest].
  destruct Hx as [<- | Hx]; [now apply plain_not_space|now apply IH].
Qed.

Lemma list_ascii_app (a b : string) :
  list_ascii_of_string (a ++ b)
  = (list_ascii_of_string a ++ list_ascii_of_string b)%list.
Proof.
  induction a as [|c rest IH]; [reflexivity|].
  rewrite append_cons. cbn [list_ascii_of_string]. now rewrite IH.
Qed.

Lemma emailOk_parts (e : string) :
  emailOk e = true <->
  exists name d1 d2,
    e = (name ++ String "@" (d1 ++ String "." d2))%string
    /\ name <> "" /\ d1 <> "" /\ d2 <> ""
    /\ allPlain name = true /\ allPlain d1 = true /\ allPlain d2 = true.
Proof.
  unfold emailOk. split.
  - destruct (splitAtSign e) as [[name domain]|] eqn:Es; [|discriminate].
    intros H. apply andb_true_iff in H. destruct H as [H Hdot].
    apply andb_true_iff in H. destruct H as [H Hdomain].
    apply andb_true_iff in H. destruct H as [Hne Hname].
    apply negb_true_iff, String.eqb_neq in Hne.
    apply splitAtSign_spec in Es.
    destruct (innerDot_spec false domain Hdot) as (d1 & d2 & -> & Hd1 & Hd2).
    destruct Hd1 as [Hd1|Hd1]; [discriminate|].
    rewrite allPlain_app in Hdomain. apply andb_true_iff in Hdomain.
    destruct Hdomain as [Hp1 Hp2]. cbn [allPlain] in Hp2.
    apply andb_true_iff in Hp2. destruct Hp2 as [_ Hp2].
    exists name, d1, d2. repeat (split; [assumption|]). assumption.
  - intros (name & d1 & d2 & -> & Hne & Hd1 & Hd2 & Hp & Hp1 & Hp2).
    rewrite (splitAtSign_plain name _ Hp).
    apply String.eqb_neq in Hne. rewrite Hne, Hp. cbn [negb andb].
    rewrite allPlain_app, Hp1. cbn [allPlain andb]. rewrite Hp2.
    rewrite innerDot_intro; [reflexivity|now right|exact Hd2].
Qed.

Lemma accepted_email_trim (e : string) : emailOk e = true -> trim e = e.
Proof.
  intros H. apply emailOk_parts in H.
  destruct H as (name & d1 & d2 & -> & Hne & Hd1 & Hd2 & Hp & Hp1 & Hp2).
  apply trim_noSpaces. intros c Hc.
  rewrite list_ascii_app in Hc. cbn [list_ascii_of_string] in Hc.
  rewrite list_ascii_app in Hc. cbn [list_ascii_of_string] in Hc.
  apply in_app_or in Hc. destruct Hc as [Hc|[<- | Hc]];
    [now apply (allPlain_noSpaces name)|reflexivity|].
  apply in_app_or in Hc. destruct Hc as [Hc|[<- | Hc]];
    [now apply (allPlain_noSpaces d1)|reflexivity
    |now apply (allPlain_noSpaces d2)].
Qed.



Lemma handleRegister_invalid (env : Env) (st : State) :
  ~ validForm st -> snd (handleRegister env st) = [].
Proof.
  intros Hinv. unfold handleRegister, isEmpty.
  destruct (String.eqb (email st) "") eqn:E1; [reflexivity|].
  destruct (String.eqb (password st) "") eqn:E2; [reflexivity|].
  destruct (String.eqb (firstName st) "") eqn:E3; [reflexivity|].
  destruct (String.eqb (lastName st) "") eqn:E4; [reflexivity|].
  destruct (String.eqb (securityQ1 st) "") eqn:E5; [reflexivity|].
  destruct (String.eqb (securityQ2 st) "") eqn:E6; [reflexivity|].
  destruct (String.eqb (securityQ3 st) "") eqn:E7; [reflexivity|].
  cbn [orb].
  destruct (Text.length (password st) <? 6)%nat eqn:E8; [reflexivity|].
  destruct (emailOk (email st)) eqn:E9; [|reflexivity].
  exfalso. apply Hinv. unfold validForm.
  apply String.eqb_neq in E1, E2, E3, E4, E5, E6, E7.
  apply Nat.ltb_ge in E8. tauto.
Qed.

Lemma handleRegister_valid (env : Env) (st : State) :
  validForm st ->
  handleRegister env st
  = let create := CreateUser (trim (email st)) (password st) in
    match createAnswer env with
    | Err code => (finish (errorMessage code) st, [create; LogRegistrationError])
    | Ok uid =>
        let displayName :=
          trim (trim (firstName st) ++ " " ++ trim (lastName st)) in
        let update := UpdateProfile uid displayName in
        match updateProfileAnswer env with
        | Err code =>
            (finish (errorMessage code) st,
             [create; update; LogRegistrationError])
        | Ok _ =>
            match setDocAnswer env with
            | Err code =>
                (finish (errorMessage code) st,
                 [create; update; WriteUser uid (userDocument uid st) false;
                  LogRegistrationError])
            | Ok _ =>
                (finish "" st,
                 [create; update; WriteUser uid (userDocument uid st) true;
                  AccountCreated])
            end
        end
    end.
Proof.
  intros (H1 & H2 & H3 & H4 & H5 & H6 & H7 & H8 & H9).
  unfold handleRegister, isEmpty.
  apply String.eqb_neq in H1, H2, H3, H4, H5, H6, H7.
  rewrite H1, H2, H3, H4, H5, H6, H7. cbn [orb].
  apply Nat.ltb_ge in H8. rewrite H8, H9. reflexivity.
Qed.

Lemma validForm_dec (st : State) : validForm st \/ ~ validForm st.
Proof.
  unfold validForm.
  destruct (String.eqb_spec (email st) ""); [tauto|].
  destruct (String.eqb_spec (password st) ""); [tauto|].
  destruct (String.eqb_spec (firstName st) ""); [tauto|].
  destruct (String.eqb_spec (lastName st) ""); [tauto|].
  destruct (String.eqb_spec (securityQ1 st) ""); [tauto|].
  destruct (String.eqb_spec (securityQ2 st) ""); [tauto|].
  destruct (String.eqb_spec (securityQ3 st) ""); [tauto|].
  destruct (le_lt_dec 6 (Text.length (password st))); [|lia].
  destruct (emailOk (email st)); [tauto|].
  right. intros H. decompose [and] H. discriminate.
Qed.

(** X23. For an address typed in ASCII, handleRegister reaches the account
    service exactly when every field is filled in, the password has six
    UTF-16 code units or more and the address is accepted.  The first call
    then creates the account with the address and password as typed, and
    the busy flag is off at the end whatever the services answer. *)
Theorem registration_validates_before_any_call (env : Env) (st : State) :
  Text.isAscii (email st) = true ->
  (snd (handleRegister env st) <> [] <-> validForm st)
  /\ (validForm st ->
      (exists rest, snd (handleRegister env st)
                    = CreateUser (email st) (password st) :: rest)
      /\ loading (fst (handleRegister env st)) = false).
Proof.
  intros _. split.
  - split.
    + intros Hne. destruct (validForm_dec st) as [H|H]; [exact H|].
      exfalso. apply Hne. now apply handleRegister_invalid.
    + intros Hv. rewrite (handleRegister_valid env st Hv). cbn zeta.
      destruct (createAnswer env); [|discriminate].
      destruct (updateProfileAnswer env); [|discriminate].
      destruct (setDocAnswer env); discriminate.
  - intros Hv. rewrite (handleRegister_valid env st Hv). cbn zeta.
    assert (trim (email st) = email st) as ->.
    { apply accepted_email_trim. apply Hv. }
    destruct (createAnswer env); [|split; [eexists|]; reflexivity].
    destruct (updateProfileAnswer env); [|split; [eexists|]; reflexivity].
    destruct (setDocAnswer env); split; try eexists; reflexivity.
Qed.

End RegisterFacts.

Section NewAccountFacts.

Import Js Io RegisterScreen.

Lemma registration_validates_before_any_call_witness :
  exists rest,
    snd (handleRegister (mkEnv (Ok "u42") (Ok tt) (Ok tt))
           (mkState "ann@pond.org" "tadpole7" " Ann " "Marsh"
              "Detroit" "rice" "Lake" "" false))
    = CreateUser "ann@pond.org" "tadpole7" :: rest.
Proof.
  apply (proj2 (registration_validates_before_any_call
                  (mkEnv (Ok "u42") (Ok tt) (Ok tt))
                  (mkState "ann@pond.org" "tadpole7" " Ann " "Marsh"
                     "Detroit" "rice" "Lake" "" false) eq_refl)).
  unfold validForm. cbn.
  repeat (split; [discriminate|]).
  split; [change (6 <= 8)%nat; lia|reflexivity].
Defined.

Lemma userDocument_role (uid : string) (st : State) :
  userDataOf (userDocument uid st)
  = Roles.mkUserData (Some "Volunteer") None None.
Proof.
  unfold userDataOf, userDocument, role. literal_lookup.
Qed.

Lemma handleRegister_writes (env : Env) (st : State) (uid : string)
  (data : gmap string jsval) (accepted : bool) :
  In (WriteUser uid data accepted) (snd (handleRegister env st)) ->
  data = userDocument uid st
  /\ createAnswer env = Ok uid
  /\ (In AccountCreated (snd (handleRegister env st)) <-> accepted = true).
Proof.
  destruct (validForm_dec st) as [Hv|Hv];
    [|now rewrite (handleRegister_invalid env st Hv)].
  rewrite (handleRegister_valid env st Hv). cbn zeta.
  destruct (createAnswer env) as [uid0|code];
    [|cbn; intuition discriminate].
  destruct (updateProfileAnswer env) as [u|code];
    [|cbn; intuition discriminate].
  destruct (setDocAnswer env) as [u'|code]; cbn;
    intros [Hin|[Hin|[Hin|[Hin|[]]]]]; try discriminate;
    injection Hin as <- <- <-; (split; [reflexivity|]);
    (split; [reflexivity|]); split; intros H;
    try reflexivity; try discriminate; intuition discriminate.
Qed.

(** X24. The users document that registration writes carries the uid the
    account service returned and the role Volunteer and no role flag, so
    login and every way back lead its owner to the volunteer home, and
    the review counters are not loaded for it.  The success alert is
    shown exactly when that write was accepted. *)
Theorem new_account_is_a_volunteer (env : Env) (st : State) (uid : string)
  (data : gmap string jsval) (accepted : bool) :
  In (WriteUser uid data accepted) (snd (handleRegister env st)) ->
  createAnswer env = Ok uid
  /\ data !! "uid" = Some (JStr uid)
  /\ data !! "role" = Some (JStr "Volunteer")
  /\ Roles.handleLogin (userDataOf data) = Roles.volunteerHomeScreen
  /\ Navigation.usersHome (Some (Ok (Some (userDataOf data))))
     = Roles.volunteerHomeScreen
  /\ (forall counts seen,
        ExpertHomeScreen.loadReviewCounts true
          (ExpertHomeScreen.mkEnv (Ok (Some (userDataOf data))) counts) seen
        = (seen, [ExpertHomeScreen.ReadProfile]))
  /\ (In AccountCreated (snd (handleRegister env st)) <-> accepted = true).
Proof.
  intros Hin.
  destruct (handleRegister_writes env st uid data accepted Hin)
    as (-> & Hc & Hacc).
  split; [exact Hc|].
  split; [unfold userDocument; literal_lookup|].
  split; [unfold userDocument, role; literal_lookup|].
  rewrite userDocument_role.
  split; [reflexivity|]. split; [reflexivity|]. split; [reflexivity|].
  exact Hacc.
Qed.

Lemma new_account_is_a_volunteer_witness :
  Roles.handleLogin
    (userDataOf
       (userDocument "u42"
          (mkState "ann@pond.org" "tadpole7" " Ann " "Marsh"
             "Detroit" "rice" "Lake" "" false)))
  = Roles.volunteerHomeScreen.
Proof.
  apply (new_account_is_a_volunteer (mkEnv (Ok "u42") (Ok tt) (Ok tt))
           (mkState "ann@pond.org" "tadpole7" " Ann " "Marsh"
              "Detroit" "rice" "Lake" "" false)
           "u42" _ true).
  cbn. right. right. left. reflexivity.
Defined.

End NewAccountFacts.

(** ** The timer of a recording *)

Section RecordFacts.

Import RecordScreen.

Lemma duration_nonneg (d : option Q) : (0 <= duration d)%Q.
Proof. unfold duration. apply Q.le_max_l. Qed.

Lemma duration_some (q : Q) : (0 <= q -> duration (Some q) == q)%Q.
Proof. intros H. unfold duration. now apply Q.max_r. Qed.

Lemma duration_mono (a b : Q) :
  (a <= b -> duration (Some a) <= duration (Some b))%Q.
Proof. intros H. unfold duration. now apply Q.max_le_compat_l. Qed.

(** X25. While a recording runs the seconds shown lie between 0 and 10 and
    the fill of the bar between 0 and 1, whatever duration is reported,
    also none or a negative one; neither goes back when the duration
    grows; the seconds shown never run ahead of the bar; from ten seconds
    on both stand at their maximum. *)
Theorem timer_and_bar_stay_in_range (d : option Q) :
  (0 <= timerOf d <= MAX_RECORD_SECONDS)%Z
  /\ (0 <= progressOf d <= 1)%Q
  /\ (inject_Z (timerOf d) <= 10 * progressOf d)%Q
  /\ (forall a b, (a <= b)%Q ->
        (timerOf (Some a) <= timerOf (Some b))%Z
        /\ (progressOf (Some a) <= progressOf (Some b))%Q)
  /\ (forall q, (10000 <= q)%Q ->
        timerOf (Some q) = MAX_RECORD_SECONDS
        /\ (progressOf (Some q) == 1)%Q).
Proof.
  pose proof (duration_nonneg d) as Hd.
  unfold timerOf, progressOf, MAX_MS, MAX_RECORD_SECONDS.
  change (inject_Z (10 * 1000)) with 10000%Q.
  assert (forall x, (0 <= x)%Q -> (0 <= Qfloor (x / 1000))%Z) as Hfloor.
  { intros x Hx. change 0%Z with (Qfloor 0). apply Qfloor_resp_le.
    apply Qle_shift_div_l; [reflexivity|]. now rewrite Qmult_0_l. }
  assert (forall x y, (x <= y -> x / 1000 <= y / 1000)%Q) as Hdiv.
  { intros x y Hxy. unfold Qdiv. apply Qmult_le_compat_r; [exact Hxy|].
    discriminate. }
  assert (forall x y, (x <= y -> x / 10000 <= y / 10000)%Q) as Hdiv'.
  { intros x y Hxy. unfold Qdiv. apply Qmult_le_compat_r; [exact Hxy|].
    discriminate. }
  split; [|split; [|split; [|split]]].
  - specialize (Hfloor _ Hd). lia.
  - split.
    + apply Q.min_glb; [discriminate|].
      apply Qle_shift_div_l; [reflexivity|]. now rewrite Qmult_0_l.
    + apply Q.le_min_l.
  - pose proof (Qfloor_le (duration d / 1000)) as Hfl.
    assert (10 * (duration d / 10000) == duration d / 1000)%Q as Hscale
      by field.
    destruct (Q.min_spec 1%Q (duration d / 10000)%Q) as [[Hlt ->]|[Hle ->]].
    + rewrite Qmult_1_r. change 10%Q with (inject_Z 10).
      rewrite <- Zle_Qle. apply Z.le_min_l.
    + rewrite Hscale. eapply Qle_trans; [|exact Hfl].
      rewrite <- Zle_Qle. apply Z.le_min_r.
  - intros a b Hab. pose proof (duration_mono a b Hab) as Hm. split.
    + apply Z.min_le_compat_l, Qfloor_resp_le, Hdiv, Hm.
    + apply Q.min_le_compat_l, Hdiv', Hm.
  - intros q Hq.
    assert (0 <= q)%Q as Hq0 by (eapply Qle_trans; [|exact Hq]; discriminate).
    pose proof (duration_some q Hq0) as Hdq.
    split.
    + apply Z.min_l. change 10%Z with (Qfloor 10).
      apply Qfloor_resp_le. rewrite Hdq.
      apply Qle_shift_div_l; [reflexivity|exact Hq].
    + apply Q.min_l. rewrite Hdq.
      apply Qle_shift_div_l; [reflexivity|]. now rewrite Qmult_1_l.
Qed.

End RecordFacts.

(** ** The date range of the map *)

Section DatePickerFacts.

Import Projection MapHistoryScreen MapFilters.

Lemma last_cons (l : list Z) (a d : Z) : List.last (a :: l) d = List.last l a.
Proof.
  revert a d. induction l as [|b rest IH]; intros a d; [reflexivity|].
  change (List.last (a :: b :: rest) d) with (List.last (b :: rest) d).
  rewrite IH. symmetry. apply IH.
Qed.

(** Days pressed in an open picker once the start date is chosen. *)
Lemma days_after_first (later : list Z) (f : DateFilter) :
  selectingStartDate f = false -> showDatePicker f = true ->
  let picked := pressAll (map PressDay later) f in
  startDate picked = startDate f
  /\ selectingStartDate picked = false
  /\ showDatePicker picked = true
  /\ endDate picked = match later with
                      | [] => endDate f
                      | d :: rest => Some (List.last rest d)
                      end.
Proof.
  revert f. induction later as [|d rest IH]; intros f Hsel Hshow; [now cbn|].
  cbn [map pressAll fold_left press]. rewrite Hshow.
  assert (handleDateSelect d f = mkDateFilter (startDate f) (Some d) false true)
    as -> by (unfold handleDateSelect; now rewrite Hsel, Hshow).
  destruct (IH (mkDateFilter (startDate f) (Some d) false true)
              eq_refl eq_refl) as (Hs & Hb & Hp & He).
  cbv zeta in *. unfold pressAll in *. rewrite Hs, Hb, Hp, He.
  cbn [startDate endDate].
  split; [reflexivity|]. split; [reflexivity|]. split; [reflexivity|].
  destruct rest as [|d' rest']; [reflexivity|].
  now rewrite (last_cons rest' d' d).
Qed.

(** With the picker closed and the date button not pressed, nothing
    changes the dates. *)
Lemma closed_picker_keeps_dates (events : list DateEvent) (f : DateFilter) :
  showDatePicker f = false ->
  forallb keepsClosed events = true ->
  startDate (pressAll events f) = startDate f
  /\ endDate (pressAll events f) = endDate f
  /\ showDatePicker (pressAll events f) = false.
Proof.
  revert f. induction events as [|e rest IH]; intros f Hshow Hall; [now cbn|].
  cbn [forallb] in Hall. apply andb_true_iff in Hall. destruct Hall as [He Hrest].
  cbn [pressAll fold_left].
  assert (startDate (press f e) = startDate f
          /\ endDate (press f e) = endDate f
          /\ showDatePicker (press f e) = false) as (Hs & Hd & Hp).
  { destruct e; cbn [press]; try discriminate He;
      rewrite ?Hshow; repeat split; try assumption; reflexivity. }
  destruct (IH (press f e) Hp Hrest) as (Hs' & Hd' & Hp').
  unfold pressAll in *. now rewrite Hs', Hd', Hp', Hs, Hd.
Qed.

(** X26. Each time the date picker is opened with the date button, the
    first day pressed becomes the start date and every later day pressed
    in that opening replaces the end date; the end date of an earlier
    opening stays until it is replaced.  Clear empties both dates and
    closes the picker, and they stay empty until the date button is
    pressed again.  The picker does not order the two dates: when the end
    of the chosen end day lies before the start, the map keeps no
    recording that has a time stamp.  With the species and the dates
    cleared the map shows every recording. *)
Theorem date_picker_start_then_end (endOfDay : Z -> Z) (f : DateFilter)
  (first : Z) (later : list Z) :
  let picked := pressAll (PressDateButton :: map PressDay (first :: later)) f in
  startDate picked = Some first
  /\ endDate picked = match later with
                      | [] => endDate f
                      | d :: rest => Some (List.last rest d)
                      end
  /\ (showDatePicker f = true ->
      forall events, forallb keepsClosed events = true ->
        startDate (pressAll (PressClear :: events) f) = None
        /\ endDate (pressAll (PressClear :: events) f) = None)
  /\ (forall recordings selectedSpecies start e rec,
        endOfDay e < start ->
        pressAll [PressDateButton; PressDay start; PressDay e] f
        = mkDateFilter (Some start) (Some e) false true
        /\ (In rec (filteredRecordings endOfDay recordings selectedSpecies
                      (Some start) (Some e)) ->
            timestamp rec = None))
  /\ (forall recordings,
        filteredRecordings endOfDay recordings clearAllSpecies None None
        = recordings).
Proof.
  cbv zeta.
  split; [|split; [|split; [|split]]].
  - cbn [map pressAll fold_left press setShowDatePicker setSelectingStartDate
         showDatePicker selectingStartDate handleDateSelect startDate endDate].
    destruct (days_after_first later
                (mkDateFilter (Some first) (endDate f) false true)
                eq_refl eq_refl) as (Hs & _).
    exact Hs.
  - cbn [map pressAll fold_left press setShowDatePicker setSelectingStartDate
         showDatePicker selectingStartDate handleDateSelect startDate endDate].
    destruct (days_after_first later
                (mkDateFilter (Some first) (endDate f) false true)
                eq_refl eq_refl) as (_ & _ & _ & He).
    exact He.
  - intros Hshow events Hall.
    cbn [pressAll fold_left press]. rewrite Hshow.
    destruct (closed_picker_keeps_dates events
                (setShowDatePicker false (clearDateFilter f)) eq_refl Hall)
      as (Hs & He & _).
    unfold pressAll in *. now rewrite Hs, He.
  - intros recordings selectedSpecies start e rec Hlt.
    split; [reflexivity|]. intros Hin.
    unfold filteredRecordings in Hin.
    apply filter_In in Hin. destruct Hin as [_ Hkeep].
    unfold keeps in Hkeep.
    destruct ((0 <? size selectedSpecies)%nat
              && negb (has selectedSpecies (predictedSpecies rec)))%bool;
      [discriminate|].
    destruct (timestamp rec) as [t|]; [|reflexivity].
    destruct (Z.ltb_spec t start); [discriminate|].
    destruct (Z.ltb_spec (endOfDay e) t); [discriminate|]. lia.
  - intros recordings. unfold filteredRecordings, clearAllSpecies.
    induction recordings as [|rec rest IH]; [reflexivity|].
    cbn [List.filter]. rewrite IH.
    unfold keeps. rewrite size_empty. reflexivity.
Qed.

End DatePickerFacts.
